(** * Lease and task-lock coordination of the SlotManager bot

    A shallow embedding of the lock coordination layer of the bot
    (utils/lockManager.js, utils/localLockManager.js and the parts of
    utils/appManager.js that drive it) and the properties of its
    natural-language specification.

    Modelling conventions.
    - Times are JavaScript millisecond timestamps, kept as [Z].
    - An [async] method is a computation in the monad [M]: it threads the
      state and either returns a value or throws a [JsError]; the state
      reached when an exception is thrown is kept, as in JavaScript.
    - One call runs in isolation and at one instant: no other client
      changes the store between two of its [await]s, and every
      [Date.now()] / [new Date()] of the call reads the same [clock],
      except across an explicit [sleep].
    - The MongoDB collections are lists in natural (insertion) order;
      [findOne] returns the first matching document.
    - What the environment decides (whether a store call, a file system
      call or the Telegram call rejects, and what [Math.random] yields) is
      read from scripts held in the state: the head of a script is the
      outcome of the next such call, and an empty script means success.
    - [logger] calls are not modelled. *)

From Stdlib Require Import ZArith List String Bool Lia Sorted DecimalString.
Import ListNotations.
Open Scope string_scope.
Open Scope list_scope.
Open Scope Z_scope.

Set Implicit Arguments.

(** ** Errors and the effect monad *)

(** A JavaScript error object: [error.code] and [error.message]. *)
Record JsError := mkError { code : string; message : string }.

(** [String.prototype.includes]. *)
Definition includes (s sub : string) : bool :=
  match String.index 0 sub s with
  | Some _ => true
  | None => false
  end.

Inductive Outcome (A : Type) : Type :=
| Ret (a : A)
| Throw (e : JsError).
Arguments Ret {A} a.
Arguments Throw {A} e.

Definition M (S A : Type) : Type := S -> Outcome A * S.

Definition ret {S A} (a : A) : M S A := fun s => (Ret a, s).

Definition throw {S A} (e : JsError) : M S A := fun s => (Throw e, s).

Definition bind {S A B} (m : M S A) (k : A -> M S B) : M S B :=
  fun s =>
    match m s with
    | (Ret a, s1) => k a s1
    | (Throw e, s1) => (Throw e, s1)
    end.

Declare Scope js_scope.
Delimit Scope js_scope with js.
Notation "x <- m ;; k" := (bind m (fun x => k))
  (at level 100, m at next level, right associativity) : js_scope.
Notation "m ;; k" := (bind m (fun _ => k))
  (at level 100, right associativity) : js_scope.
Open Scope js_scope.

Definition gets {S A} (f : S -> A) : M S A := fun s => (Ret (f s), s).

Definition modify {S} (f : S -> S) : M S unit := fun s => (Ret tt, f s).

(** [try { body } catch (error) { handler }]. *)
Definition try_catch {S A} (body : M S A) (handler : JsError -> M S A) : M S A :=
  fun s =>
    match body s with
    | (Ret a, s1) => (Ret a, s1)
    | (Throw e, s1) => handler e s1
    end.

(** [try { body } finally { fin }], for a [fin] without [return]: the
    outcome of [body] stands unless [fin] itself throws. *)
Definition try_finally {S A B} (body : M S A) (fin : M S B) : M S A :=
  fun s =>
    match body s with
    | (o, s1) =>
        match fin s1 with
        | (Ret _, s2) => (o, s2)
        | (Throw e, s2) => (Throw e, s2)
        end
    end.

(** [when c m]: [if (c) { m }] for a statement [m]. *)
Definition when {S} (c : bool) (m : M S unit) : M S unit :=
  if c then m else ret tt.

(** A script of outcomes decided by the environment. *)
Definition Script := list (option JsError).

(** ** Documents of the two collections *)

(** The acquisition id
    [`${taskName}_${Date.now()}_${uuidv4().split('-')[0]}`], kept as its
    three interpolated parts (the string determines them). *)
Record LockId := mkLockId { lid_task : string; lid_time : Z; lid_uuid : N }.

Definition LockId_eqb (a b : LockId) : bool :=
  String.eqb (lid_task a) (lid_task b)
  && (lid_time a =? lid_time b)
  && N.eqb (lid_uuid a) (lid_uuid b).

(** models/taskLock.js is not part of the sources at hand: the fields are
    the ones lockManager.js reads and writes, and no uniqueness constraint
    is assumed on them. *)
Module TaskLock.
Record t := mk {
  _id : nat;
  task_name : string;
  lock_id : LockId;
  instance_id : string;
  created_at : Z;
  expires_at : Z
}.
End TaskLock.

(** models/lock.js is not part of the sources at hand either; same
    convention. *)
Module Lock.
Record t := mk {
  _id : nat;
  name : string;
  lock_type : string;
  instance_id : string;
  created_at : Z;
  last_heartbeat : Z
}.

Definition set_last_heartbeat (d : t) (v : Z) : t :=
  mk (_id d) (name d) (lock_type d) (instance_id d) (created_at d) v.
End Lock.

(** The content of the local lock file [.bot_lock]: the JSON record written
    by [createLockFile], or something [JSON.parse] rejects. *)
Inductive FileContent :=
| Marker (instanceId : string) (createdAt : Z) (pid : nat)
| Damaged.

(** ** The state a LockManager works on *)

Record State := mkState {
  (* the shared store *)
  Lock_rows : list Lock.t;
  TaskLock_rows : list TaskLock.t;
  next_oid : nat;
  (* the environment *)
  clock : Z;
  store_script : Script;
  fs_script : Script;
  getMe_script : Script;
  next_uuid : N;
  lock_file : option FileContent;
  pid : nat;
  (* number of getMe calls made on the Telegram channel so far *)
  getMe_calls : nat;
  (* fields of the LockManager object *)
  instanceId : string;
  telegramConflictDetected : bool;
  lastTelegramConflictTime : option Z;
  (* counters of its LocalLockManager *)
  lockCheckCount : nat;
  lockCreateCount : nat;
  lockRemoveCount : nat
}.

Definition set_Lock_rows (v : list Lock.t) (s : State) : State :=
  mkState v (TaskLock_rows s) (next_oid s) (clock s) (store_script s)
    (fs_script s) (getMe_script s) (next_uuid s) (lock_file s) (pid s)
    (getMe_calls s) (instanceId s) (telegramConflictDetected s)
    (lastTelegramConflictTime s) (lockCheckCount s) (lockCreateCount s)
    (lockRemoveCount s).

Definition set_TaskLock_rows (v : list TaskLock.t) (s : State) : State :=
  mkState (Lock_rows s) v (next_oid s) (clock s) (store_script s)
    (fs_script s) (getMe_script s) (next_uuid s) (lock_file s) (pid s)
    (getMe_calls s) (instanceId s) (telegramConflictDetected s)
    (lastTelegramConflictTime s) (lockCheckCount s) (lockCreateCount s)
    (lockRemoveCount s).

Definition set_next_oid (v : nat) (s : State) : State :=
  mkState (Lock_rows s) (TaskLock_rows s) v (clock s) (store_script s)
    (fs_script s) (getMe_script s) (next_uuid s) (lock_file s) (pid s)
    (getMe_calls s) (instanceId s) (telegramConflictDetected s)
    (lastTelegramConflictTime s) (lockCheckCount s) (lockCreateCount s)
    (lockRemoveCount s).

Definition set_clock (v : Z) (s : State) : State :=
  mkState (Lock_rows s) (TaskLock_rows s) (next_oid s) v (store_script s)
    (fs_script s) (getMe_script s) (next_uuid s) (lock_file s) (pid s)
    (getMe_calls s) (instanceId s) (telegramConflictDetected s)
    (lastTelegramConflictTime s) (lockCheckCount s) (lockCreateCount s)
    (lockRemoveCount s).

Definition set_store_script (v : Script) (s : State) : State :=
  mkState (Lock_rows s) (TaskLock_rows s) (next_oid s) (clock s) v
    (fs_script s) (getMe_script s) (next_uuid s) (lock_file s) (pid s)
    (getMe_calls s) (instanceId s) (telegramConflictDetected s)
    (lastTelegramConflictTime s) (lockCheckCount s) (lockCreateCount s)
    (lockRemoveCount s).

Definition set_fs_script (v : Script) (s : State) : State :=
  mkState (Lock_rows s) (TaskLock_rows s) (next_oid s) (clock s)
    (store_script s) v (getMe_script s) (next_uuid s) (lock_file s) (pid s)
    (getMe_calls s) (instanceId s) (telegramConflictDetected s)
    (lastTelegramConflictTime s) (lockCheckCount s) (lockCreateCount s)
    (lockRemoveCount s).

Definition set_getMe_script (v : Script) (s : State) : State :=
  mkState (Lock_rows s) (TaskLock_rows s) (next_oid s) (clock s)
    (store_script s) (fs_script s) v (next_uuid s) (lock_file s) (pid s)
    (getMe_calls s) (instanceId s) (telegramConflictDetected s)
    (lastTelegramConflictTime s) (lockCheckCount s) (lockCreateCount s)
    (lockRemoveCount s).

Definition set_next_uuid (v : N) (s : State) : State :=
  mkState (Lock_rows s) (TaskLock_rows s) (next_oid s) (clock s)
    (store_script s) (fs_script s) (getMe_script s) v (lock_file s) (pid s)
    (getMe_calls s) (instanceId s) (telegramConflictDetected s)
    (lastTelegramConflictTime s) (lockCheckCount s) (lockCreateCount s)
    (lockRemoveCount s).

Definition set_lock_file (v : option FileContent) (s : State) : State :=
  mkState (Lock_rows s) (TaskLock_rows s) (next_oid s) (clock s)
    (store_script s) (fs_script s) (getMe_script s) (next_uuid s) v (pid s)
    (getMe_calls s) (instanceId s) (telegramConflictDetected s)
    (lastTelegramConflictTime s) (lockCheckCount s) (lockCreateCount s)
    (lockRemoveCount s).

Definition set_getMe_calls (v : nat) (s : State) : State :=
  mkState (Lock_rows s) (TaskLock_rows s) (next_oid s) (clock s)
    (store_script s) (fs_script s) (getMe_script s) (next_uuid s)
    (lock_file s) (pid s) v (instanceId s) (telegramConflictDetected s)
    (lastTelegramConflictTime s) (lockCheckCount s) (lockCreateCount s)
    (lockRemoveCount s).

Definition set_telegramConflictDetected (v : bool) (s : State) : State :=
  mkState (Lock_rows s) (TaskLock_rows s) (next_oid s) (clock s)
    (store_script s) (fs_script s) (getMe_script s) (next_uuid s)
    (lock_file s) (pid s) (getMe_calls s) (instanceId s) v
    (lastTelegramConflictTime s) (lockCheckCount s) (lockCreateCount s)
    (lockRemoveCount s).

Definition set_lastTelegramConflictTime (v : option Z) (s : State) : State :=
  mkState (Lock_rows s) (TaskLock_rows s) (next_oid s) (clock s)
    (store_script s) (fs_script s) (getMe_script s) (next_uuid s)
    (lock_file s) (pid s) (getMe_calls s) (instanceId s)
    (telegramConflictDetected s) v (lockCheckCount s) (lockCreateCount s)
    (lockRemoveCount s).

Definition set_lockCheckCount (v : nat) (s : State) : State :=
  mkState (Lock_rows s) (TaskLock_rows s) (next_oid s) (clock s)
    (store_script s) (fs_script s) (getMe_script s) (next_uuid s)
    (lock_file s) (pid s) (getMe_calls s) (instanceId s)
    (telegramConflictDetected s) (lastTelegramConflictTime s) v
    (lockCreateCount s) (lockRemoveCount s).

Definition set_lockCreateCount (v : nat) (s : State) : State :=
  mkState (Lock_rows s) (TaskLock_rows s) (next_oid s) (clock s)
    (store_script s) (fs_script s) (getMe_script s) (next_uuid s)
    (lock_file s) (pid s) (getMe_calls s) (instanceId s)
    (telegramConflictDetected s) (lastTelegramConflictTime s)
    (lockCheckCount s) v (lockRemoveCount s).

Definition set_lockRemoveCount (v : nat) (s : State) : State :=
  mkState (Lock_rows s) (TaskLock_rows s) (next_oid s) (clock s)
    (store_script s) (fs_script s) (getMe_script s) (next_uuid s)
    (lock_file s) (pid s) (getMe_calls s) (instanceId s)
    (telegramConflictDetected s) (lastTelegramConflictTime s)
    (lockCheckCount s) (lockCreateCount s) v.

(** ** Primitives of the environment *)

(** [Date.now()], and the time of [new Date()]. *)
Definition date_now : M State Z := gets clock.

(** [await new Promise(resolve => setTimeout(resolve, ms))]. *)
Definition sleep (ms : Z) : M State unit :=
  modify (fun s => set_clock (clock s + ms) s).

(** [uuidv4().split('-')[0]]: the next fresh value. *)
Definition uuidv4_head : M State N :=
  fun s => (Ret (next_uuid s), set_next_uuid (N.succ (next_uuid s)) s).

(** One round trip to the store: it rejects when the script says so. *)
Definition store_call : M State unit :=
  fun s =>
    match store_script s with
    | [] => (Ret tt, s)
    | None :: rest => (Ret tt, set_store_script rest s)
    | Some e :: rest => (Throw e, set_store_script rest s)
    end.

(** One synchronous file system call. *)
Definition fs_call : M State unit :=
  fun s =>
    match fs_script s with
    | [] => (Ret tt, s)
    | None :: rest => (Ret tt, set_fs_script rest s)
    | Some e :: rest => (Throw e, set_fs_script rest s)
    end.

(** [new TelegramBot(token, { polling: false }).getMe()]: the channel call
    of the probe. *)
Definition getMe : M State unit :=
  fun s =>
    let s1 := set_getMe_calls (S (getMe_calls s)) s in
    match getMe_script s with
    | [] => (Ret tt, s1)
    | None :: rest => (Ret tt, set_getMe_script rest s1)
    | Some e :: rest => (Throw e, set_getMe_script rest s1)
    end.

(** ** Mongoose queries *)

(** Removes the first element that satisfies [p] ([deleteOne]). *)
Fixpoint remove_first {A} (p : A -> bool) (l : list A) : list A :=
  match l with
  | [] => []
  | x :: r => if p x then r else x :: remove_first p r
  end.

Definition nfilter {A} (p : A -> bool) (l : list A) : list A :=
  filter (fun x => negb (p x)) l.

Module TaskLockModel.
Import TaskLock.

Definition findOne (p : t -> bool) : M State (option t) :=
  store_call ;;
  gets (fun s => List.find p (TaskLock_rows s)).

Definition find (p : t -> bool) : M State (list t) :=
  store_call ;;
  gets (fun s => filter p (TaskLock_rows s)).

(** Returns [result.deletedCount]. *)
Definition deleteMany (p : t -> bool) : M State nat :=
  store_call ;;
  n <- gets (fun s => List.length (filter p (TaskLock_rows s))) ;;
  modify (fun s => set_TaskLock_rows (nfilter p (TaskLock_rows s)) s) ;;
  ret n.

Definition deleteOne (p : t -> bool) : M State nat :=
  store_call ;;
  n <- gets (fun s => if existsb p (TaskLock_rows s) then 1%nat else 0%nat) ;;
  modify (fun s => set_TaskLock_rows (remove_first p (TaskLock_rows s)) s) ;;
  ret n.

(** [new TaskLock({...}).save()]: the store assigns the [_id]. *)
Definition create (task : string) (lid : LockId) (inst : string)
    (created expires : Z) : M State unit :=
  store_call ;;
  modify (fun s =>
    set_next_oid (S (next_oid s))
      (set_TaskLock_rows
         (TaskLock_rows s ++ [mk (next_oid s) task lid inst created expires]) s)).
End TaskLockModel.

Module LockModel.
Import Lock.

Definition findOne (p : t -> bool) : M State (option t) :=
  store_call ;;
  gets (fun s => List.find p (Lock_rows s)).

Definition find (p : t -> bool) : M State (list t) :=
  store_call ;;
  gets (fun s => filter p (Lock_rows s)).

Definition deleteMany (p : t -> bool) : M State nat :=
  store_call ;;
  n <- gets (fun s => List.length (filter p (Lock_rows s))) ;;
  modify (fun s => set_Lock_rows (nfilter p (Lock_rows s)) s) ;;
  ret n.

Definition create (nm ty inst : string) (created hb : Z) : M State unit :=
  store_call ;;
  modify (fun s =>
    set_next_oid (S (next_oid s))
      (set_Lock_rows (Lock_rows s ++ [mk (next_oid s) nm ty inst created hb]) s)).

(** Writes a fetched and modified document back: the row with its [_id]
    is replaced. *)
Definition replace (d : t) (l : list t) : list t :=
  map (fun r => if Nat.eqb (_id r) (_id d) then d else r) l.

Definition DocumentNotFoundError : JsError :=
  mkError "DocumentNotFoundError" "No document found for query".

Definition save (d : t) : M State unit :=
  store_call ;;
  present <- gets (fun s => existsb (fun r => Nat.eqb (_id r) (_id d)) (Lock_rows s)) ;;
  if present
  then modify (fun s => set_Lock_rows (replace d (Lock_rows s)) s)
  else throw DocumentNotFoundError.
End LockModel.

(** ** utils/localLockManager.js *)

Module LocalLockManager.

Definition createLockFile : M State bool :=
  try_catch
    (me <- gets instanceId ;;
     createdAt <- date_now ;;
     p <- gets pid ;;
     fs_call ;;
     modify (set_lock_file (Some (Marker me createdAt p))) ;;
     modify (fun s => set_lockCreateCount (S (lockCreateCount s)) s) ;;
     ret true)
    (fun _ => ret false).

Definition checkLockFile : M State bool :=
  try_catch
    (modify (fun s => set_lockCheckCount (S (lockCheckCount s)) s) ;;
     file <- gets lock_file ;;
     match file with
     | Some lockContent =>
         fs_call ;;
         match lockContent with
         | Marker owner _ _ =>
             me <- gets instanceId ;;
             if String.eqb owner me then ret true else ret false
         | Damaged => ret false
         end
     | None => ret false
     end)
    (fun _ => ret false).

Definition removeLockFile : M State bool :=
  try_catch
    (owned <- checkLockFile ;;
     if owned
     then
       fs_call ;;
       modify (set_lock_file None) ;;
       modify (fun s => set_lockRemoveCount (S (lockRemoveCount s)) s) ;;
       ret true
     else ret false)
    (fun _ => ret false).

End LocalLockManager.

(** ** utils/lockManager.js *)

Module LockManager.

Definition GLOBAL_LOCK_TIMEOUT : Z := 180000.
Definition TASK_LOCK_TIMEOUT : Z := 60000.

Record AcquireResult := mkResult { success : bool; lockId : option LockId }.

Definition refused : AcquireResult := mkResult false None.

(** The query [{ task_name: taskName, expires_at: { $gt: new Date() } }]. *)
Definition unexpired (taskName : string) (now : Z) (r : TaskLock.t) : bool :=
  String.eqb (TaskLock.task_name r) taskName && (TaskLock.expires_at r >? now).

(** The query [{ task_name: 'telegram_test', created_at: { $lt: limit } }]. *)
Definition telegram_test_before (limit : Z) (r : TaskLock.t) : bool :=
  String.eqb (TaskLock.task_name r) "telegram_test"
  && (TaskLock.created_at r <? limit).

Definition acquireTaskLock (taskName : string) (timeoutMs : Z)
  : M State AcquireResult :=
  try_catch
    (t0 <- date_now ;;
     u <- uuidv4_head ;;
     let lockId := mkLockId taskName t0 u in
     me <- gets instanceId ;;
     when (String.eqb taskName "telegram_test")
       (now <- date_now ;;
        let oneMinuteAgo := now - 60000 in
        TaskLockModel.deleteMany (telegram_test_before oneMinuteAgo) ;;
        ret tt) ;;
     now <- date_now ;;
     existingLock <- TaskLockModel.findOne (unexpired taskName now) ;;
     match existingLock with
     | Some existing =>
         if String.eqb taskName "telegram_test"
         then
           now <- date_now ;;
           let lockAge := now - TaskLock.created_at existing in
           if lockAge >? 60000
           then
             TaskLockModel.deleteOne
               (fun r => Nat.eqb (TaskLock._id r) (TaskLock._id existing)) ;;
             created <- date_now ;;
             now <- date_now ;;
             TaskLockModel.create taskName lockId me created (now + timeoutMs) ;;
             ret (mkResult true (Some lockId))
           else ret refused
         else ret refused
     | None =>
         now <- date_now ;;
         let expiresAt := now + timeoutMs in
         created <- date_now ;;
         TaskLockModel.create taskName lockId me created expiresAt ;;
         ret (mkResult true (Some lockId))
     end)
    (fun _ => ret refused).

Definition releaseTaskLock (taskName : string) (lockId : LockId) : M State bool :=
  try_catch
    (deletedCount <-
       TaskLockModel.deleteOne
         (fun r => String.eqb (TaskLock.task_name r) taskName
                   && LockId_eqb (TaskLock.lock_id r) lockId) ;;
     if Nat.ltb 0 deletedCount then ret true else ret false)
    (fun _ => ret false).

(** Returns [None] for JavaScript's [null]. *)
Definition executeWithLock {A} (taskName : string) (taskFunction : M State A)
    (timeoutMs : Z) : M State (option A) :=
  r <- acquireTaskLock taskName timeoutMs ;;
  match success r, lockId r with
  | true, Some lockId =>
      try_finally
        (try_catch
           (result <- taskFunction ;;
            ret (Some result))
           (fun error => throw error))
        (releaseTaskLock taskName lockId)
  | _, _ => ret None
  end.

Definition cleanupTelegramTestLocks : M State nat :=
  try_catch
    (now <- date_now ;;
     expired <-
       TaskLockModel.deleteMany
         (fun r => String.eqb (TaskLock.task_name r) "telegram_test"
                   && (TaskLock.expires_at r <? now)) ;;
     now <- date_now ;;
     let twoMinutesAgo := now - 120000 in
     old <- TaskLockModel.deleteMany (telegram_test_before twoMinutesAgo) ;;
     ret (expired + old)%nat)
    (fun _ => ret 0%nat).

Definition cleanupExpiredTaskLocks : M State nat :=
  try_catch
    (now <- date_now ;;
     deleted <- TaskLockModel.deleteMany (fun r => TaskLock.expires_at r <? now) ;;
     more <- cleanupTelegramTestLocks ;;
     ret (deleted + more)%nat)
    (fun _ => ret 0%nat).

(** [error.code === 'ETELEGRAM' && error.message &&
    error.message.includes('409 Conflict')]. *)
Definition is_409_conflict (error : JsError) : bool :=
  String.eqb (code error) "ETELEGRAM"
  && negb (String.eqb (message error) EmptyString)
  && includes (message error) "409 Conflict".

(** Truthiness of [this.lastTelegramConflictTime] ([null] or a number). *)
Definition truthy (t : option Z) : bool :=
  match t with
  | Some v => negb (v =? 0)
  | None => false
  end.

Definition since (now : Z) (t : option Z) : Z :=
  match t with
  | Some v => now - v
  | None => now
  end.

(** The [catch] clause of [testTelegramConnection]. *)
Definition probe_catch (error : JsError) : M State bool :=
  if is_409_conflict error
  then
    modify (set_telegramConflictDetected true) ;;
    now <- date_now ;;
    modify (set_lastTelegramConflictTime (Some now)) ;;
    ret false
  else ret false.

(** The [finally] clause of [testTelegramConnection]. *)
Definition probe_finally (acquiredLockId : option LockId) : M State unit :=
  match acquiredLockId with
  | Some lockId =>
      try_catch
        (releaseTaskLock "telegram_test" lockId ;; ret tt)
        (fun _ => ret tt)
  | None => ret tt
  end.

(** What follows the assignment to [acquiredLockId] in the [try] block. *)
Definition probe_try (r : AcquireResult) : M State bool :=
  if negb (success r)
  then
    try_catch
      (now <- date_now ;;
       TaskLockModel.findOne (unexpired "telegram_test" now) ;;
       ret tt)
      (fun _ => ret tt) ;;
    ret false
  else
    getMe ;;
    modify (set_telegramConflictDetected false) ;;
    ret true.

(** The [try]/[catch]/[finally] statement of [testTelegramConnection].
    The local variable [acquiredLockId] is [null] until the first
    statement of the [try] block has completed. *)
Definition probe_guarded : M State bool :=
  fun s =>
    match acquireTaskLock "telegram_test" 20000 s with
    | (Ret r, s1) =>
        try_finally (try_catch (probe_try r) probe_catch)
          (probe_finally (lockId r)) s1
    | (Throw error, s1) =>
        try_finally (probe_catch error) (probe_finally None) s1
    end.

Definition testTelegramConnection : M State bool :=
  detected <- gets telegramConflictDetected ;;
  last <- gets lastTelegramConflictTime ;;
  if detected && truthy last
  then
    now <- date_now ;;
    let timeSinceLastConflict := since now last in
    if timeSinceLastConflict <? 60000
    then ret false
    else probe_guarded
  else probe_guarded.

(** The query [{ last_heartbeat: { $gt: new Date(now - timeout) } }]. *)
Definition heartbeat_after (limit : Z) (r : Lock.t) : bool :=
  Lock.last_heartbeat r >? limit.

(** The query [{ last_heartbeat: { $lt: new Date(now - timeout) } }]. *)
Definition heartbeat_before (limit : Z) (r : Lock.t) : bool :=
  Lock.last_heartbeat r <? limit.

Definition named (nm ty : string) (r : Lock.t) : bool :=
  String.eqb (Lock.name r) nm && String.eqb (Lock.lock_type r) ty.

(** [acquireMasterLock] from the removal of the expired locks on. *)
Definition acquireMasterLock_claim (me : string) : M State bool :=
  now <- date_now ;;
  LockModel.deleteMany (heartbeat_before (now - GLOBAL_LOCK_TIMEOUT)) ;;
  now <- date_now ;;
  masterLock <-
    LockModel.findOne
      (fun r => named "master_lock" "master" r
                && heartbeat_after (now - GLOBAL_LOCK_TIMEOUT) r) ;;
  match masterLock with
  | Some found =>
      if negb (String.eqb (Lock.instance_id found) me)
      then ret false
      else
        now <- date_now ;;
        LockModel.save (Lock.set_last_heartbeat found now) ;;
        ret true
  | None =>
      now <- date_now ;;
      LockModel.deleteMany
        (fun r => named "master_lock" "master" r
                  && heartbeat_before (now - GLOBAL_LOCK_TIMEOUT) r) ;;
      created <- date_now ;;
      hb <- date_now ;;
      LockModel.create "master_lock" "master" me created hb ;;
      ret true
  end.

Definition acquireMasterLock : M State bool :=
  try_catch
    (canConnectToTelegram <- testTelegramConnection ;;
     if negb canConnectToTelegram
     then ret false
     else
       me <- gets instanceId ;;
       now <- date_now ;;
       activeLock <-
         LockModel.findOne
           (fun r => String.eqb (Lock.lock_type r) "execution"
                     && heartbeat_after (now - GLOBAL_LOCK_TIMEOUT) r) ;;
       match activeLock with
       | Some active =>
           if String.eqb (Lock.instance_id active) me
           then acquireMasterLock_claim me
           else ret false
       | None => acquireMasterLock_claim me
       end)
    (fun _ => ret false).

Definition acquireExecutionLock : M State bool :=
  try_catch
    (canConnectToTelegram <- testTelegramConnection ;;
     if negb canConnectToTelegram
     then ret false
     else
       me <- gets instanceId ;;
       now <- date_now ;;
       executionLock <-
         LockModel.findOne
           (fun r => named "execution_lock" "execution" r
                     && heartbeat_after (now - GLOBAL_LOCK_TIMEOUT) r) ;;
       match executionLock with
       | Some found =>
           if negb (String.eqb (Lock.instance_id found) me)
           then ret false
           else
             now <- date_now ;;
             LockModel.save (Lock.set_last_heartbeat found now) ;;
             ret true
       | None =>
           now <- date_now ;;
           LockModel.deleteMany
             (fun r => named "execution_lock" "execution" r
                       && heartbeat_before (now - GLOBAL_LOCK_TIMEOUT) r) ;;
           created <- date_now ;;
           hb <- date_now ;;
           LockModel.create "execution_lock" "execution" me created hb ;;
           LocalLockManager.createLockFile ;;
           ret true
       end)
    (fun _ => ret false).

Definition owned_by (nm ty me : string) (r : Lock.t) : bool :=
  named nm ty r && String.eqb (Lock.instance_id r) me.

(** The task function of both heartbeat methods. *)
Definition heartbeat_task (nm ty : string) : M State bool :=
  me <- gets instanceId ;;
  lock <- LockModel.findOne (owned_by nm ty me) ;;
  match lock with
  | Some found =>
      now <- date_now ;;
      LockModel.save (Lock.set_last_heartbeat found now) ;;
      ret true
  | None => ret false
  end.

(** The result is [Some b] for a boolean and [None] for [null]. *)
Definition updateExecutionLockHeartbeat : M State (option bool) :=
  try_catch
    (executeWithLock "execution_heartbeat"
       (heartbeat_task "execution_lock" "execution") 20000)
    (fun _ => ret (Some false)).

Definition updateMasterLockHeartbeat : M State (option bool) :=
  try_catch
    (executeWithLock "master_heartbeat"
       (heartbeat_task "master_lock" "master") TASK_LOCK_TIMEOUT)
    (fun _ => ret (Some false)).

Definition releaseAllLocks : M State bool :=
  try_catch
    (me <- gets instanceId ;;
     TaskLockModel.deleteMany (fun r => String.eqb (TaskLock.instance_id r) me) ;;
     LockModel.deleteMany (fun r => String.eqb (Lock.instance_id r) me) ;;
     LocalLockManager.removeLockFile ;;
     ret true)
    (fun _ => ret false).

(** Selects among the fetched documents ([Array.prototype.find]) or tests
    [result.length > 0]. *)
Definition some_found {A} (l : list A) : bool := Nat.ltb 0 (List.length l).

Definition emergencyCleanupLocks : M State bool :=
  try_catch
    (TaskLockModel.deleteMany
       (fun r => String.eqb (TaskLock.task_name r) "telegram_test") ;;
     me <- gets instanceId ;;
     activeLocks <-
       TaskLockModel.find
         (fun r => negb (String.eqb (TaskLock.instance_id r) me)) ;;
     when (some_found activeLocks)
       (now <- date_now ;;
        let fiveMinutesAgo := now - 300000 in
        TaskLockModel.deleteMany
          (fun r => negb (String.eqb (TaskLock.instance_id r) me)
                    && (TaskLock.created_at r <? fiveMinutesAgo)) ;;
        ret tt) ;;
     ret true)
    (fun _ => ret false).

Definition initialize : M State bool :=
  try_catch
    (me <- gets instanceId ;;
     LockModel.deleteMany (fun r => String.eqb (Lock.instance_id r) me) ;;
     TaskLockModel.deleteMany (fun r => String.eqb (TaskLock.instance_id r) me) ;;
     emergencyCleanupLocks ;;
     ret true)
    (fun _ => ret false).

Definition isActiveInstance : M State bool :=
  try_catch
    (me <- gets instanceId ;;
     now <- date_now ;;
     executionLock <-
       LockModel.findOne
         (fun r => owned_by "execution_lock" "execution" me r
                   && heartbeat_after (now - GLOBAL_LOCK_TIMEOUT) r) ;;
     match executionLock with
     | None => ret false
     | Some own =>
         newerLock <-
           LockModel.findOne
             (fun r => named "execution_lock" "execution" r
                       && negb (String.eqb (Lock.instance_id r) me)
                       && heartbeat_after (Lock.last_heartbeat own) r) ;;
         match newerLock with
         | Some _ => ret false
         | None => ret true
         end
     end)
    (fun _ => ret false).

Definition checkLocalLocks : M State bool :=
  try_catch
    (valid <- LocalLockManager.checkLockFile ;;
     if negb valid
     then
       created <- LocalLockManager.createLockFile ;;
       if created then ret true else ret false
     else ret true)
    (fun _ => ret false).

Definition isSome {A} (o : option A) : bool :=
  match o with
  | Some _ => true
  | None => false
  end.

Definition checkForInstanceConflicts : M State bool :=
  try_catch
    (me <- gets instanceId ;;
     masterLock <- LockModel.findOne (owned_by "master_lock" "master" me) ;;
     executionLock <-
       LockModel.findOne (owned_by "execution_lock" "execution" me) ;;
     (* The statements after the first [if]. *)
     let both_present : M State bool :=
       if negb (isSome masterLock) || negb (isSome executionLock)
       then ret false
       else ret true in
     match executionLock with
     | Some _ =>
         now <- date_now ;;
         otherActiveLocks <-
           LockModel.find
             (fun r => named "execution_lock" "execution" r
                       && negb (String.eqb (Lock.instance_id r) me)
                       && heartbeat_after (now - GLOBAL_LOCK_TIMEOUT) r) ;;
         if some_found otherActiveLocks
         then
           detected <- gets telegramConflictDetected ;;
           last <- gets lastTelegramConflictTime ;;
           now <- date_now ;;
           if detected && truthy last && (since now last <? 120000)
           then ret false
           else both_present
         else both_present
     | None => both_present
     end)
    (fun _ => ret false).

End LockManager.


(** ** utils/appManager.js, with what it uses of utils/botManager.js,
    utils/instanceTracker.js and utils/notifier.js *)

(** models/startupNotification.js is not part of the sources at hand: the
    fields are the ones [saveStartupNotification] sets. *)
Module StartupNotification.
Record t := mk {
  instance_id : string;
  notification_type : string;
  message : string
}.
End StartupNotification.

Module AppManager.

(** The functions handed to [setTimeout] and [setInterval]. *)
Inductive Callback :=
| acquireExecutionLock_unless_shutdown
    (* () => { if (!this.isShuttingDown) this.acquireExecutionLock(); } *)
| acquireExecutionLock_again    (* () => this.acquireExecutionLock() *)
| startBot_later                (* () => { this.startBot(); } *)
| masterLockHeartbeat_tick
| executionLockHeartbeat_tick
| lockCheck_tick
| keepAlive_tick
| notifier_tick.

Record Timer := mkTimer {
  handle : nat;
  repeats : bool;
  delay : Z;
  callback : Callback
}.

Record App := mkApp {
  (* this.lockManager, with the store and the environment it works on *)
  lockManager : State;
  (* fields of the AppManager object *)
  isShuttingDown : bool;
  lastConnectionAttemptTime : Z;
  masterLockHeartbeatInterval : option nat;
  executionLockHeartbeatInterval : option nat;
  lockCheckInterval : option nat;
  keepAliveInterval : option nat;
  (* the handles of the four timers of the notifier, or null *)
  notificationSystem : option (list nat);
  (* this.instanceTracker *)
  isTerminating : bool;
  terminationReason : option string;
  terminationTime : option Z;
  (* this.botManager: whether this.bot is set, and its other fields *)
  bot : bool;
  bot_notificationSystem : option (list nat);
  pollingRetryCount : nat;
  isBotStarting : bool;
  isPollingRestarting : bool;
  (* the timers of the event loop *)
  timers : list Timer;
  next_handle : nat;
  (* the environment *)
  random_script : list Z;
  stopPolling_script : Script;
  stopPolling_calls : nat;
  readyState : nat;
  close_script : Script;
  close_calls : nat;
  StartupNotification_rows : list StartupNotification.t;
  (* the times at which this.lockManager.acquireExecutionLock() was called *)
  acquireExecution_calls : list Z
}.

Definition set_lockManager (v : State) (a : App) : App :=
  mkApp v (isShuttingDown a) (lastConnectionAttemptTime a)
    (masterLockHeartbeatInterval a) (executionLockHeartbeatInterval a)
    (lockCheckInterval a) (keepAliveInterval a) (notificationSystem a)
    (isTerminating a) (terminationReason a) (terminationTime a) (bot a)
    (bot_notificationSystem a) (pollingRetryCount a) (isBotStarting a)
    (isPollingRestarting a) (timers a) (next_handle a) (random_script a)
    (stopPolling_script a) (stopPolling_calls a) (readyState a)
    (close_script a) (close_calls a) (StartupNotification_rows a)
    (acquireExecution_calls a).

Definition set_isShuttingDown (v : bool) (a : App) : App :=
  mkApp (lockManager a) v (lastConnectionAttemptTime a)
    (masterLockHeartbeatInterval a) (executionLockHeartbeatInterval a)
    (lockCheckInterval a) (keepAliveInterval a) (notificationSystem a)
    (isTerminating a) (terminationReason a) (terminationTime a) (bot a)
    (bot_notificationSystem a) (pollingRetryCount a) (isBotStarting a)
    (isPollingRestarting a) (timers a) (next_handle a) (random_script a)
    (stopPolling_script a) (stopPolling_calls a) (readyState a)
    (close_script a) (close_calls a) (StartupNotification_rows a)
    (acquireExecution_calls a).

Definition set_lastConnectionAttemptTime (v : Z) (a : App) : App :=
  mkApp (lockManager a) (isShuttingDown a) v
    (masterLockHeartbeatInterval a) (executionLockHeartbeatInterval a)
    (lockCheckInterval a) (keepAliveInterval a) (notificationSystem a)
    (isTerminating a) (terminationReason a) (terminationTime a) (bot a)
    (bot_notificationSystem a) (pollingRetryCount a) (isBotStarting a)
    (isPollingRestarting a) (timers a) (next_handle a) (random_script a)
    (stopPolling_script a) (stopPolling_calls a) (readyState a)
    (close_script a) (close_calls a) (StartupNotification_rows a)
    (acquireExecution_calls a).

Definition set_masterLockHeartbeatInterval (v : option nat) (a : App) : App :=
  mkApp (lockManager a) (isShuttingDown a) (lastConnectionAttemptTime a)
    v (executionLockHeartbeatInterval a) (lockCheckInterval a)
    (keepAliveInterval a) (notificationSystem a) (isTerminating a)
    (terminationReason a) (terminationTime a) (bot a)
    (bot_notificationSystem a) (pollingRetryCount a) (isBotStarting a)
    (isPollingRestarting a) (timers a) (next_handle a) (random_script a)
    (stopPolling_script a) (stopPolling_calls a) (readyState a)
    (close_script a) (close_calls a) (StartupNotification_rows a)
    (acquireExecution_calls a).

Definition set_executionLockHeartbeatInterval (v : option nat) (a : App) : App :=
  mkApp (lockManager a) (isShuttingDown a) (lastConnectionAttemptTime a)
    (masterLockHeartbeatInterval a) v (lockCheckInterval a)
    (keepAliveInterval a) (notificationSystem a) (isTerminating a)
    (terminationReason a) (terminationTime a) (bot a)
    (bot_notificationSystem a) (pollingRetryCount a) (isBotStarting a)
    (isPollingRestarting a) (timers a) (next_handle a) (random_script a)
    (stopPolling_script a) (stopPolling_calls a) (readyState a)
    (close_script a) (close_calls a) (StartupNotification_rows a)
    (acquireExecution_calls a).

Definition set_lockCheckInterval (v : option nat) (a : App) : App :=
  mkApp (lockManager a) (isShuttingDown a) (lastConnectionAttemptTime a)
    (masterLockHeartbeatInterval a) (executionLockHeartbeatInterval a) v
    (keepAliveInterval a) (notificationSystem a) (isTerminating a)
    (terminationReason a) (terminationTime a) (bot a)
    (bot_notificationSystem a) (pollingRetryCount a) (isBotStarting a)
    (isPollingRestarting a) (timers a) (next_handle a) (random_script a)
    (stopPolling_script a) (stopPolling_calls a) (readyState a)
    (close_script a) (close_calls a) (StartupNotification_rows a)
    (acquireExecution_calls a).

Definition set_keepAliveInterval (v : option nat) (a : App) : App :=
  mkApp (lockManager a) (isShuttingDown a) (lastConnectionAttemptTime a)
    (masterLockHeartbeatInterval a) (executionLockHeartbeatInterval a)
    (lockCheckInterval a) v (notificationSystem a) (isTerminating a)
    (terminationReason a) (terminationTime a) (bot a)
    (bot_notificationSystem a) (pollingRetryCount a) (isBotStarting a)
    (isPollingRestarting a) (timers a) (next_handle a) (random_script a)
    (stopPolling_script a) (stopPolling_calls a) (readyState a)
    (close_script a) (close_calls a) (StartupNotification_rows a)
    (acquireExecution_calls a).

Definition set_notificationSystem (v : option (list nat)) (a : App) : App :=
  mkApp (lockManager a) (isShuttingDown a) (lastConnectionAttemptTime a)
    (masterLockHeartbeatInterval a) (executionLockHeartbeatInterval a)
    (lockCheckInterval a) (keepAliveInterval a) v (isTerminating a)
    (terminationReason a) (terminationTime a) (bot a)
    (bot_notificationSystem a) (pollingRetryCount a) (isBotStarting a)
    (isPollingRestarting a) (timers a) (next_handle a) (random_script a)
    (stopPolling_script a) (stopPolling_calls a) (readyState a)
    (close_script a) (close_calls a) (StartupNotification_rows a)
    (acquireExecution_calls a).

Definition set_isTerminating (v : bool) (a : App) : App :=
  mkApp (lockManager a) (isShuttingDown a) (lastConnectionAttemptTime a)
    (masterLockHeartbeatInterval a) (executionLockHeartbeatInterval a)
    (lockCheckInterval a) (keepAliveInterval a) (notificationSystem a) v
    (terminationReason a) (terminationTime a) (bot a)
    (bot_notificationSystem a) (pollingRetryCount a) (isBotStarting a)
    (isPollingRestarting a) (timers a) (next_handle a) (random_script a)
    (stopPolling_script a) (stopPolling_calls a) (readyState a)
    (close_script a) (close_calls a) (StartupNotification_rows a)
    (acquireExecution_calls a).

Definition set_terminationReason (v : option string) (a : App) : App :=
  mkApp (lockManager a) (isShuttingDown a) (lastConnectionAttemptTime a)
    (masterLockHeartbeatInterval a) (executionLockHeartbeatInterval a)
    (lockCheckInterval a) (keepAliveInterval a) (notificationSystem a)
    (isTerminating a) v (terminationTime a) (bot a)
    (bot_notificationSystem a) (pollingRetryCount a) (isBotStarting a)
    (isPollingRestarting a) (timers a) (next_handle a) (random_script a)
    (stopPolling_script a) (stopPolling_calls a) (readyState a)
    (close_script a) (close_calls a) (StartupNotification_rows a)
    (acquireExecution_calls a).

Definition set_terminationTime (v : option Z) (a : App) : App :=
  mkApp (lockManager a) (isShuttingDown a) (lastConnectionAttemptTime a)
    (masterLockHeartbeatInterval a) (executionLockHeartbeatInterval a)
    (lockCheckInterval a) (keepAliveInterval a) (notificationSystem a)
    (isTerminating a) (terminationReason a) v (bot a)
    (bot_notificationSystem a) (pollingRetryCount a) (isBotStarting a)
    (isPollingRestarting a) (timers a) (next_handle a) (random_script a)
    (stopPolling_script a) (stopPolling_calls a) (readyState a)
    (close_script a) (close_calls a) (StartupNotification_rows a)
    (acquireExecution_calls a).

Definition set_bot (v : bool) (a : App) : App :=
  mkApp (lockManager a) (isShuttingDown a) (lastConnectionAttemptTime a)
    (masterLockHeartbeatInterval a) (executionLockHeartbeatInterval a)
    (lockCheckInterval a) (keepAliveInterval a) (notificationSystem a)
    (isTerminating a) (terminationReason a) (terminationTime a) v
    (bot_notificationSystem a) (pollingRetryCount a) (isBotStarting a)
    (isPollingRestarting a) (timers a) (next_handle a) (random_script a)
    (stopPolling_script a) (stopPolling_calls a) (readyState a)
    (close_script a) (close_calls a) (StartupNotification_rows a)
    (acquireExecution_calls a).

Definition set_bot_notificationSystem (v : option (list nat)) (a : App) : App :=
  mkApp (lockManager a) (isShuttingDown a) (lastConnectionAttemptTime a)
    (masterLockHeartbeatInterval a) (executionLockHeartbeatInterval a)
    (lockCheckInterval a) (keepAliveInterval a) (notificationSystem a)
    (isTerminating a) (terminationReason a) (terminationTime a) (bot a) v
    (pollingRetryCount a) (isBotStarting a) (isPollingRestarting a)
    (timers a) (next_handle a) (random_script a) (stopPolling_script a)
    (stopPolling_calls a) (readyState a) (close_script a) (close_calls a)
    (StartupNotification_rows a) (acquireExecution_calls a).

Definition set_pollingRetryCount (v : nat) (a : App) : App :=
  mkApp (lockManager a) (isShuttingDown a) (lastConnectionAttemptTime a)
    (masterLockHeartbeatInterval a) (executionLockHeartbeatInterval a)
    (lockCheckInterval a) (keepAliveInterval a) (notificationSystem a)
    (isTerminating a) (terminationReason a) (terminationTime a) (bot a)
    (bot_notificationSystem a) v (isBotStarting a) (isPollingRestarting a)
    (timers a) (next_handle a) (random_script a) (stopPolling_script a)
    (stopPolling_calls a) (readyState a) (close_script a) (close_calls a)
    (StartupNotification_rows a) (acquireExecution_calls a).

Definition set_isBotStarting (v : bool) (a : App) : App :=
  mkApp (lockManager a) (isShuttingDown a) (lastConnectionAttemptTime a)
    (masterLockHeartbeatInterval a) (executionLockHeartbeatInterval a)
    (lockCheckInterval a) (keepAliveInterval a) (notificationSystem a)
    (isTerminating a) (terminationReason a) (terminationTime a) (bot a)
    (bot_notificationSystem a) (pollingRetryCount a) v
    (isPollingRestarting a) (timers a) (next_handle a) (random_script a)
    (stopPolling_script a) (stopPolling_calls a) (readyState a)
    (close_script a) (close_calls a) (StartupNotification_rows a)
    (acquireExecution_calls a).

Definition set_isPollingRestarting (v : bool) (a : App) : App :=
  mkApp (lockManager a) (isShuttingDown a) (lastConnectionAttemptTime a)
    (masterLockHeartbeatInterval a) (executionLockHeartbeatInterval a)
    (lockCheckInterval a) (keepAliveInterval a) (notificationSystem a)
    (isTerminating a) (terminationReason a) (terminationTime a) (bot a)
    (bot_notificationSystem a) (pollingRetryCount a) (isBotStarting a) v
    (timers a) (next_handle a) (random_script a) (stopPolling_script a)
    (stopPolling_calls a) (readyState a) (close_script a) (close_calls a)
    (StartupNotification_rows a) (acquireExecution_calls a).

Definition set_timers (v : list Timer) (a : App) : App :=
  mkApp (lockManager a) (isShuttingDown a) (lastConnectionAttemptTime a)
    (masterLockHeartbeatInterval a) (executionLockHeartbeatInterval a)
    (lockCheckInterval a) (keepAliveInterval a) (notificationSystem a)
    (isTerminating a) (terminationReason a) (terminationTime a) (bot a)
    (bot_notificationSystem a) (pollingRetryCount a) (isBotStarting a)
    (isPollingRestarting a) v (next_handle a) (random_script a)
    (stopPolling_script a) (stopPolling_calls a) (readyState a)
    (close_script a) (close_calls a) (StartupNotification_rows a)
    (acquireExecution_calls a).

Definition set_next_handle (v : nat) (a : App) : App :=
  mkApp (lockManager a) (isShuttingDown a) (lastConnectionAttemptTime a)
    (masterLockHeartbeatInterval a) (executionLockHeartbeatInterval a)
    (lockCheckInterval a) (keepAliveInterval a) (notificationSystem a)
    (isTerminating a) (terminationReason a) (terminationTime a) (bot a)
    (bot_notificationSystem a) (pollingRetryCount a) (isBotStarting a)
    (isPollingRestarting a) (timers a) v (random_script a)
    (stopPolling_script a) (stopPolling_calls a) (readyState a)
    (close_script a) (close_calls a) (StartupNotification_rows a)
    (acquireExecution_calls a).

Definition set_random_script (v : list Z) (a : App) : App :=
  mkApp (lockManager a) (isShuttingDown a) (lastConnectionAttemptTime a)
    (masterLockHeartbeatInterval a) (executionLockHeartbeatInterval a)
    (lockCheckInterval a) (keepAliveInterval a) (notificationSystem a)
    (isTerminating a) (terminationReason a) (terminationTime a) (bot a)
    (bot_notificationSystem a) (pollingRetryCount a) (isBotStarting a)
    (isPollingRestarting a) (timers a) (next_handle a) v
    (stopPolling_script a) (stopPolling_calls a) (readyState a)
    (close_script a) (close_calls a) (StartupNotification_rows a)
    (acquireExecution_calls a).

Definition set_stopPolling_script (v : Script) (a : App) : App :=
  mkApp (lockManager a) (isShuttingDown a) (lastConnectionAttemptTime a)
    (masterLockHeartbeatInterval a) (executionLockHeartbeatInterval a)
    (lockCheckInterval a) (keepAliveInterval a) (notificationSystem a)
    (isTerminating a) (terminationReason a) (terminationTime a) (bot a)
    (bot_notificationSystem a) (pollingRetryCount a) (isBotStarting a)
    (isPollingRestarting a) (timers a) (next_handle a) (random_script a) v
    (stopPolling_calls a) (readyState a) (close_script a) (close_calls a)
    (StartupNotification_rows a) (acquireExecution_calls a).

Definition set_stopPolling_calls (v : nat) (a : App) : App :=
  mkApp (lockManager a) (isShuttingDown a) (lastConnectionAttemptTime a)
    (masterLockHeartbeatInterval a) (executionLockHeartbeatInterval a)
    (lockCheckInterval a) (keepAliveInterval a) (notificationSystem a)
    (isTerminating a) (terminationReason a) (terminationTime a) (bot a)
    (bot_notificationSystem a) (pollingRetryCount a) (isBotStarting a)
    (isPollingRestarting a) (timers a) (next_handle a) (random_script a)
    (stopPolling_script a) v (readyState a) (close_script a) (close_calls
    a) (StartupNotification_rows a) (acquireExecution_calls a).

Definition set_readyState (v : nat) (a : App) : App :=
  mkApp (lockManager a) (isShuttingDown a) (lastConnectionAttemptTime a)
    (masterLockHeartbeatInterval a) (executionLockHeartbeatInterval a)
    (lockCheckInterval a) (keepAliveInterval a) (notificationSystem a)
    (isTerminating a) (terminationReason a) (terminationTime a) (bot a)
    (bot_notificationSystem a) (pollingRetryCount a) (isBotStarting a)
    (isPollingRestarting a) (timers a) (next_handle a) (random_script a)
    (stopPolling_script a) (stopPolling_calls a) v (close_script a)
    (close_calls a) (StartupNotification_rows a) (acquireExecution_calls
    a).

Definition set_close_script (v : Script) (a : App) : App :=
  mkApp (lockManager a) (isShuttingDown a) (lastConnectionAttemptTime a)
    (masterLockHeartbeatInterval a) (executionLockHeartbeatInterval a)
    (lockCheckInterval a) (keepAliveInterval a) (notificationSystem a)
    (isTerminating a) (terminationReason a) (terminationTime a) (bot a)
    (bot_notificationSystem a) (pollingRetryCount a) (isBotStarting a)
    (isPollingRestarting a) (timers a) (next_handle a) (random_script a)
    (stopPolling_script a) (stopPolling_calls a) (readyState a) v
    (close_calls a) (StartupNotification_rows a) (acquireExecution_calls
    a).

Definition set_close_calls (v : nat) (a : App) : App :=
  mkApp (lockManager a) (isShuttingDown a) (lastConnectionAttemptTime a)
    (masterLockHeartbeatInterval a) (executionLockHeartbeatInterval a)
    (lockCheckInterval a) (keepAliveInterval a) (notificationSystem a)
    (isTerminating a) (terminationReason a) (terminationTime a) (bot a)
    (bot_notificationSystem a) (pollingRetryCount a) (isBotStarting a)
    (isPollingRestarting a) (timers a) (next_handle a) (random_script a)
    (stopPolling_script a) (stopPolling_calls a) (readyState a)
    (close_script a) v (StartupNotification_rows a)
    (acquireExecution_calls a).

Definition set_StartupNotification_rows (v : list StartupNotification.t) (a : App) : App :=
  mkApp (lockManager a) (isShuttingDown a) (lastConnectionAttemptTime a)
    (masterLockHeartbeatInterval a) (executionLockHeartbeatInterval a)
    (lockCheckInterval a) (keepAliveInterval a) (notificationSystem a)
    (isTerminating a) (terminationReason a) (terminationTime a) (bot a)
    (bot_notificationSystem a) (pollingRetryCount a) (isBotStarting a)
    (isPollingRestarting a) (timers a) (next_handle a) (random_script a)
    (stopPolling_script a) (stopPolling_calls a) (readyState a)
    (close_script a) (close_calls a) v (acquireExecution_calls a).

Definition set_acquireExecution_calls (v : list Z) (a : App) : App :=
  mkApp (lockManager a) (isShuttingDown a) (lastConnectionAttemptTime a)
    (masterLockHeartbeatInterval a) (executionLockHeartbeatInterval a)
    (lockCheckInterval a) (keepAliveInterval a) (notificationSystem a)
    (isTerminating a) (terminationReason a) (terminationTime a) (bot a)
    (bot_notificationSystem a) (pollingRetryCount a) (isBotStarting a)
    (isPollingRestarting a) (timers a) (next_handle a) (random_script a)
    (stopPolling_script a) (stopPolling_calls a) (readyState a)
    (close_script a) (close_calls a) (StartupNotification_rows a) v.

Definition CONNECTION_ATTEMPT_COOLDOWN : Z := 30000.

(** Runs a method of [this.lockManager]. *)
Definition lift {A} (m : M State A) : M App A :=
  fun a =>
    match m (lockManager a) with
    | (o, s) => (o, set_lockManager s a)
    end.

(** [Math.floor(Math.random() * n)]: timers truncate their delay to whole
    milliseconds, so only this part of [Math.random() * n] counts. *)
Definition random_below (n : Z) : M App Z :=
  fun a =>
    match random_script a with
    | [] => (Ret 0, a)
    | r :: rest => (Ret (r mod n), set_random_script rest a)
    end.

(** Node.js sets a delay outside [1, 2^31 - 1] to 1. *)
Definition timer_delay (d : Z) : Z :=
  if (1 <=? d) && (d <=? 2147483647) then d else 1.

Definition add_timer (again : bool) (cb : Callback) (d : Z) : M App nat :=
  fun a =>
    (Ret (next_handle a),
     set_next_handle (S (next_handle a))
       (set_timers
          (timers a ++ [mkTimer (next_handle a) again (timer_delay d) cb]) a)).

Definition setTimeout (cb : Callback) (d : Z) : M App unit :=
  add_timer false cb d ;; ret tt.

Definition setInterval (cb : Callback) (d : Z) : M App nat :=
  add_timer true cb d.

Definition clearInterval (h : nat) : M App unit :=
  modify (fun a =>
    set_timers (filter (fun t => negb (Nat.eqb (handle t) h)) (timers a)) a).

Fixpoint clearIntervals (hs : list nat) : M App unit :=
  match hs with
  | [] => ret tt
  | h :: rest => clearInterval h ;; clearIntervals rest
  end.

(** [if (this.x) { clearInterval(this.x); this.x = null; }]. *)
Definition clear_field (get : App -> option nat)
    (set : option nat -> App -> App) : M App unit :=
  h <- gets get ;;
  match h with
  | Some i => clearInterval i ;; modify (set None)
  | None => ret tt
  end.

Definition startExecutionLockHeartbeat : M App unit :=
  old <- gets executionLockHeartbeatInterval ;;
  match old with
  | Some i => clearInterval i
  | None => ret tt
  end ;;
  h <- setInterval executionLockHeartbeat_tick 10000 ;;
  modify (set_executionLockHeartbeatInterval (Some h)).

Definition startLockCheck : M App unit :=
  old <- gets lockCheckInterval ;;
  match old with
  | Some i => clearInterval i
  | None => ret tt
  end ;;
  h <- setInterval lockCheck_tick 30000 ;;
  modify (set_lockCheckInterval (Some h)).

(** [acquireExecutionLock] from the call of the lock manager on. *)
Definition acquireExecutionLock_attempt : M App unit :=
  success <- lift LockManager.acquireExecutionLock ;;
  if success
  then
    startExecutionLockHeartbeat ;;
    startLockCheck ;;
    setTimeout startBot_later 5000
  else setTimeout acquireExecutionLock_unless_shutdown 20000.

(** The [catch] clause of [acquireExecutionLock]. *)
Definition acquireExecutionLock_catch (error : JsError) : M App unit :=
  shutting <- gets isShuttingDown ;;
  when (negb shutting) (setTimeout acquireExecutionLock_again 15000).

Definition acquireExecutionLock : M App unit :=
  shutting <- gets isShuttingDown ;;
  if shutting
  then ret tt
  else
    try_catch
      (now <- lift date_now ;;
       last <- gets lastConnectionAttemptTime ;;
       let timeSinceLastAttempt := now - last in
       if timeSinceLastAttempt <? CONNECTION_ATTEMPT_COOLDOWN
       then
         let waitTime := CONNECTION_ATTEMPT_COOLDOWN - timeSinceLastAttempt in
         jitter <- random_below 5000 ;;
         setTimeout acquireExecutionLock_unless_shutdown (waitTime + jitter)
       else
         modify (set_lastConnectionAttemptTime now) ;;
         modify (fun a =>
           set_acquireExecution_calls (now :: acquireExecution_calls a) a) ;;
         acquireExecutionLock_attempt)
      acquireExecutionLock_catch.

(** [InstanceTracker.startTermination]. *)
Definition startTermination (reason : string) : M App unit :=
  terminating <- gets isTerminating ;;
  when (negb terminating)
    (modify (set_isTerminating true) ;;
     modify (set_terminationReason (Some reason)) ;;
     now <- lift date_now ;;
     modify (set_terminationTime (Some now))).

Definition saveStartupNotification (type message : string) : M App unit :=
  try_catch
    (me <- lift (gets instanceId) ;;
     lift store_call ;;
     modify (fun a =>
       set_StartupNotification_rows
         (StartupNotification_rows a ++ [StartupNotification.mk me type message])
         a))
    (fun _ => ret tt).

(** [notificationSystem.stop()] of utils/notifier.js. *)
Definition notifier_stop (hs : list nat) : M App bool :=
  clearIntervals hs ;; ret true.

(** [if (this.notificationSystem && this.notificationSystem.stop) {
    this.notificationSystem.stop(); this.notificationSystem = null; }]. *)
Definition stop_field (get : App -> option (list nat))
    (set : option (list nat) -> App -> App) : M App unit :=
  ns <- gets get ;;
  match ns with
  | Some hs => notifier_stop hs ;; modify (set None)
  | None => ret tt
  end.

(** [this.bot.stopPolling({ cancel: true })]. *)
Definition stopPolling : M App unit :=
  fun a =>
    let a1 := set_stopPolling_calls (S (stopPolling_calls a)) a in
    match stopPolling_script a with
    | [] => (Ret tt, a1)
    | None :: rest => (Ret tt, set_stopPolling_script rest a1)
    | Some e :: rest => (Throw e, set_stopPolling_script rest a1)
    end.

(** [BotManager.stopBot]. *)
Definition stopBot : M App bool :=
  b <- gets bot ;;
  if negb b
  then ret true
  else
    try_catch
      (stop_field bot_notificationSystem set_bot_notificationSystem ;;
       try_catch stopPolling (fun _ => ret tt) ;;
       lift (sleep 5000) ;;
       modify (set_bot false) ;;
       modify (set_pollingRetryCount 0%nat) ;;
       modify (set_isBotStarting false) ;;
       modify (set_isPollingRestarting false) ;;
       ret true)
      (fun _ => modify (set_bot false) ;; ret false).

(** [BotManager.emergencyReleaseTelegram]. *)
Definition emergencyReleaseTelegram : M App bool :=
  try_catch
    (b <- gets bot ;;
     when b
       (try_catch stopPolling (fun _ => ret tt) ;;
        modify (set_bot false)) ;;
     lift (sleep 2000) ;;
     ret true)
    (fun _ => ret false).

(** [mongoose.connection.close()]. *)
Definition connection_close : M App unit :=
  fun a =>
    let a1 := set_close_calls (S (close_calls a)) a in
    match close_script a with
    | [] => (Ret tt, set_readyState 0%nat a1)
    | None :: rest => (Ret tt, set_readyState 0%nat (set_close_script rest a1))
    | Some e :: rest => (Throw e, set_close_script rest a1)
    end.

(** The [try] block of [performShutdown]. *)
Definition shutdown_steps (reason : string) : M App (option bool) :=
  saveStartupNotification "shutdown"
    (String.append "Shutdown avviato: " reason) ;;
  stop_field notificationSystem set_notificationSystem ;;
  clear_field masterLockHeartbeatInterval set_masterLockHeartbeatInterval ;;
  clear_field executionLockHeartbeatInterval
    set_executionLockHeartbeatInterval ;;
  clear_field lockCheckInterval set_lockCheckInterval ;;
  clear_field keepAliveInterval set_keepAliveInterval ;;
  stopBot ;;
  emergencyReleaseTelegram ;;
  lift LockManager.releaseAllLocks ;;
  state <- gets readyState ;;
  when (negb (Nat.eqb state 0)) connection_close ;;
  ret (Some true).

(** The result is [None] for [undefined]. *)
Definition performShutdown (reason : string) : M App (option bool) :=
  shutting <- gets isShuttingDown ;;
  if shutting
  then ret None
  else
    modify (set_isShuttingDown true) ;;
    startTermination reason ;;
    try_catch (shutdown_steps reason) (fun _ => ret (Some false)).

Definition startMasterLockHeartbeat : M App unit :=
  old <- gets masterLockHeartbeatInterval ;;
  match old with
  | Some i => clearInterval i
  | None => ret tt
  end ;;
  h <- setInterval masterLockHeartbeat_tick 15000 ;;
  modify (set_masterLockHeartbeatInterval (Some h)).

(** [this.instanceId] is the identifier the lock manager was built with. *)
Definition checkGlobalConnectionState : M App bool :=
  try_catch
    (lift LockManager.cleanupExpiredTaskLocks ;;
     now <- lift date_now ;;
     activeLocks <-
       lift (LockModel.find
               (fun r => String.eqb (Lock.lock_type r) "execution"
                         && LockManager.heartbeat_after (now - 180000) r)) ;;
     if Nat.eqb (List.length activeLocks) 0
     then ret true
     else
       me <- lift (gets instanceId) ;;
       let ownLock :=
         List.find (fun lock => String.eqb (Lock.instance_id lock) me)
           activeLocks in
       if LockManager.isSome ownLock then ret true else ret false)
    (fun _ => ret false).

(** The function [startLockCheck] hands to [setInterval]. The age of the
    last heartbeat is only written to the log. *)
Definition lockCheck_callback : M App unit :=
  shutting <- gets isShuttingDown ;;
  if shutting
  then ret tt
  else
    try_catch
      (lift LockManager.cleanupExpiredTaskLocks ;;
       lift LockManager.checkLocalLocks ;;
       noConflicts <- lift LockManager.checkForInstanceConflicts ;;
       shutting <- gets isShuttingDown ;;
       if negb noConflicts && negb shutting
       then performShutdown "CONFLICT_AVOIDANCE" ;; ret tt
       else ret tt)
      (fun _ => ret tt).

(** One of the four functions [startNotificationSystem] of
    utils/notifier.js hands to [setInterval], with the [executeWithLock]
    and [isActiveInstance] that [startBot] passes in; [job] is the check
    it runs ([checkExpiringSessions(bot)] and the like). *)
Definition notifier_callback {A} (taskName : string) (job : M State A)
    : M App unit :=
  try_catch
    (isActive <- lift LockManager.isActiveInstance ;;
     if negb isActive
     then ret tt
     else
       state <- gets readyState ;;
       if negb (Nat.eqb state 1)
       then ret tt
       else
         lift (LockManager.executeWithLock taskName (job ;; ret tt)
                 LockManager.TASK_LOCK_TIMEOUT) ;;
         ret tt)
    (fun _ => ret tt).

(** [InstanceTracker.getLifetime]: [startTime] is [this.startTime], which
    only the constructor writes. The result is [None] for [NaN]. *)
Definition getLifetime (startTime : Z) : M App (option Z) :=
  terminating <- gets isTerminating ;;
  if terminating
  then
    endTime <- gets terminationTime ;;
    ret (option_map (fun t => t - startTime) endTime)
  else
    endTime <- lift date_now ;;
    ret (Some (endTime - startTime)).

Record Uptime := mkUptime { days : Z; hours : Z; minutes : Z; seconds : Z }.

(** The four numbers of [getFormattedUptime]: [Math.floor] of a quotient
    is [Z.div], and [%] takes the sign of the dividend as [Z.rem] does. *)
Definition uptime_parts (uptime : Z) : Uptime :=
  mkUptime
    (uptime / (1000 * 60 * 60 * 24))
    (Z.rem (uptime / (1000 * 60 * 60)) 24)
    (Z.rem (uptime / (1000 * 60)) 60)
    (Z.rem (uptime / 1000) 60).

Definition show (n : Z) : string := NilZero.string_of_int (Z.to_int n).

(** [InstanceTracker.getFormattedUptime]. *)
Definition getFormattedUptime (startTime : Z) : M App string :=
  lifetime <- getLifetime startTime ;;
  match lifetime with
  | Some uptime =>
      let p := uptime_parts uptime in
      ret (show (days p) ++ "d " ++ show (hours p) ++ "h "
           ++ show (minutes p) ++ "m " ++ show (seconds p) ++ "s")%string
  | None => ret "NaNd NaNh NaNm NaNs"
  end.

End AppManager.
Unset Implicit Arguments.

(** * Properties *)

Import LockManager.

(** ** Vocabulary of the statements *)

(** No store call and no file system call of the run rejects. *)
Definition quiet (s : State) : Prop :=
  store_script s = [] /\ fs_script s = [].

(** [keeps R m]: every run of [m], whatever its outcome, relates the state it
    starts from to the state it ends in. *)
Definition keeps {S A} (R : S -> S -> Prop) (m : M S A) : Prop :=
  forall s, R s (snd (m s)).

(** [total m]: [m] never throws. *)
Definition total {S A} (m : M S A) : Prop :=
  forall s, exists a, fst (m s) = Ret a.

(** What the task-lock operations leave alone. *)
Definition task_frame (s s1 : State) : Prop :=
  Lock_rows s1 = Lock_rows s
  /\ clock s1 = clock s
  /\ instanceId s1 = instanceId s
  /\ lock_file s1 = lock_file s
  /\ fs_script s1 = fs_script s
  /\ getMe_script s1 = getMe_script s
  /\ getMe_calls s1 = getMe_calls s
  /\ telegramConflictDetected s1 = telegramConflictDetected s
  /\ lastTelegramConflictTime s1 = lastTelegramConflictTime s
  /\ (store_script s = [] -> store_script s1 = []).

(** What the probe leaves alone. *)
Definition lease_frame (s s1 : State) : Prop :=
  Lock_rows s1 = Lock_rows s
  /\ clock s1 = clock s
  /\ instanceId s1 = instanceId s
  /\ lock_file s1 = lock_file s
  /\ fs_script s1 = fs_script s
  /\ (store_script s = [] -> store_script s1 = []).

(** The state after a granted acquisition of a task lock, [rows] being the
    collection the new record is added to. *)
Definition granted (taskName : string) (timeoutMs : Z)
    (rows : list TaskLock.t) (s : State) : State :=
  set_next_oid (S (next_oid s))
    (set_TaskLock_rows
       (rows
          ++ [TaskLock.mk (next_oid s) taskName
                (mkLockId taskName (clock s) (next_uuid s)) (instanceId s)
                (clock s) (clock s + timeoutMs)])
       (set_next_uuid (N.succ (next_uuid s)) s)).

(** The filter of [releaseTaskLock]. *)
Definition acquisition (taskName : string) (lockId : LockId) (r : TaskLock.t)
  : bool :=
  String.eqb (TaskLock.task_name r) taskName
  && LockId_eqb (TaskLock.lock_id r) lockId.

(** What a heartbeat method does when no store call rejects: [None] stands
    for the [null] it returns when its task lock [task] is busy. *)
Definition heartbeat_run (task nm ty : string) (s : State)
    (res : Outcome (option bool) * State) : Prop :=
  match List.find (unexpired task (clock s)) (TaskLock_rows s) with
  | Some _ => fst res = Ret None /\ Lock_rows (snd res) = Lock_rows s
  | None =>
      match List.find (owned_by nm ty (instanceId s)) (Lock_rows s) with
      | Some found =>
          fst res = Ret (Some true)
          /\ Lock_rows (snd res)
             = LockModel.replace (Lock.set_last_heartbeat found (clock s))
                 (Lock_rows s)
      | None => fst res = Ret (Some false) /\ Lock_rows (snd res) = Lock_rows s
      end
  end.

(** The heartbeat contract read literally: [false] exactly when this holder
    has no lease row of that name, and otherwise the row is refreshed and
    [true] is returned. *)
Definition heartbeat_as_stated (op : M State (option bool)) (nm ty : string)
    (s : State) : Prop :=
  (fst (op s) = Ret (Some false)
   <-> List.find (owned_by nm ty (instanceId s)) (Lock_rows s) = None)
  /\ (forall found,
        List.find (owned_by nm ty (instanceId s)) (Lock_rows s) = Some found ->
        fst (op s) = Ret (Some true)
        /\ Lock_rows (snd (op s))
           = LockModel.replace (Lock.set_last_heartbeat found (clock s))
               (Lock_rows s)).

(** A fresh process [me] at time [now] over the given collections. *)
Definition boot (me : string) (now : Z) (locks : list Lock.t)
    (tasks : list TaskLock.t) : State :=
  mkState locks tasks 100 now [] [] [] 0%N None 4242 0 me false None 0 0 0.

(** Instance A holds the execution lease and an earlier heartbeat tick of
    its own still holds the [execution_heartbeat] task lock. *)
Definition overlapping_tick : State :=
  boot "A" 1010000
    [Lock.mk 1 "execution_lock" "execution" "A" 1000000 1000000]
    [TaskLock.mk 2 "execution_heartbeat"
       (mkLockId "execution_heartbeat" 1009990 7%N) "A" 1009990 1029990].

(** The channel's answer to a second consumer. *)
Definition conflict_409 : JsError :=
  mkError "ETELEGRAM" "ETELEGRAM: 409 Conflict: terminated by other getUpdates request".

(** A fresh process whose first probe will be answered by a conflict. *)
Definition before_conflict : State :=
  set_getMe_script [Some conflict_409] (boot "A" 1000000 [] []).

(** Thirty seconds after that probe. *)
Definition after_conflict : State :=
  set_clock 1030000 (snd (testTelegramConnection before_conflict)).

(** A lease row counts as live at [now] when the query
    [{ last_heartbeat: { $gt: now - GLOBAL_LOCK_TIMEOUT } }] selects it, and
    as stale when [{ last_heartbeat: { $lt: now - GLOBAL_LOCK_TIMEOUT } }]
    does. *)
Definition live (now : Z) (r : Lock.t) : bool :=
  heartbeat_after (now - GLOBAL_LOCK_TIMEOUT) r.

Definition stale (now : Z) (r : Lock.t) : bool :=
  heartbeat_before (now - GLOBAL_LOCK_TIMEOUT) r.

Definition is_execution (r : Lock.t) : bool :=
  String.eqb (Lock.lock_type r) "execution".

Definition is_master (r : Lock.t) : bool := named "master_lock" "master" r.

Definition is_execution_lock (r : Lock.t) : bool :=
  named "execution_lock" "execution" r.

(** The amended contract of [acquireMasterLock] after a probe that returned
    [true], as a function from the holder, the time, the [_id] a new row
    would get and the lease rows to the result and the lease rows left:
    - a live lease of type execution found for another holder: [false],
      nothing changed;
    - otherwise every stale lease row is deleted, and then
      - a live Master lease found for another holder: [false];
      - a live Master lease found for this holder: refreshed, [true];
      - none found: a new Master lease is inserted, [true]. *)
Definition master_contract (me : string) (now : Z) (oid : nat)
    (rows : list Lock.t) : bool * list Lock.t :=
  let claim :=
    let kept := nfilter (stale now) rows in
    match List.find (fun r => is_master r && live now r) kept with
    | Some found =>
        if String.eqb (Lock.instance_id found) me
        then (true, LockModel.replace (Lock.set_last_heartbeat found now) kept)
        else (false, kept)
    | None => (true, kept ++ [Lock.mk oid "master_lock" "master" me now now])
    end in
  match List.find (fun r => is_execution r && live now r) rows with
  | Some active =>
      if String.eqb (Lock.instance_id active) me then claim else (false, rows)
  | None => claim
  end.

(** The contract of [acquireMaster] read literally, for a probe that
    returned [true]. *)
Definition acquireMaster_as_stated (s : State) : Prop :=
  fst (testTelegramConnection s) = Ret true ->
  let res := acquireMasterLock s in
  ((exists r, In r (Lock_rows s) /\ is_master r = true
              /\ live (clock s) r = true
              /\ Lock.instance_id r <> instanceId s) ->
   fst res = Ret false)
  /\ (forall r, In r (Lock_rows s) -> is_master r = true ->
        live (clock s) r = true -> Lock.instance_id r = instanceId s ->
        fst res = Ret true
        /\ In (Lock.set_last_heartbeat r (clock s)) (Lock_rows (snd res)))
  /\ ((forall r, In r (Lock_rows s) -> is_master r = true ->
         live (clock s) r = false) ->
      fst res = Ret true
      /\ exists r, In r (Lock_rows (snd res)) /\ is_master r = true
                   /\ Lock.instance_id r = instanceId s
                   /\ Lock.last_heartbeat r = clock s).

(** The gate of C7 read literally. *)
Definition execution_gate_as_stated (s : State) : Prop :=
  (exists r, In r (Lock_rows s) /\ is_execution r = true
             /\ live (clock s) r = true
             /\ Lock.instance_id r <> instanceId s) ->
  fst (acquireMasterLock s) = Ret false
  /\ Lock_rows (snd (acquireMasterLock s)) = Lock_rows s.

(** A holds a live Master lease while B holds a live Execution lease. *)
Definition master_behind_gate : State :=
  boot "A" 1010000
    [Lock.mk 1 "master_lock" "master" "A" 1000000 1000000;
     Lock.mk 2 "execution_lock" "execution" "B" 1000000 1005000]
    [].

(** A and B both hold a live Execution lease, the one of A first. *)
Definition split_brain : State :=
  boot "A" 1010000
    [Lock.mk 1 "execution_lock" "execution" "A" 1000000 1005000;
     Lock.mk 2 "execution_lock" "execution" "B" 1000000 1005000]
    [].

(** What [acquireExecutionLock] does after a probe that returned [true],
    in the same form as [master_contract]. *)
Definition execution_contract (me : string) (now : Z) (oid : nat)
    (rows : list Lock.t) : bool * list Lock.t :=
  match List.find (fun r => is_execution_lock r && live now r) rows with
  | Some found =>
      if String.eqb (Lock.instance_id found) me
      then (true, LockModel.replace (Lock.set_last_heartbeat found now) rows)
      else (false, rows)
  | None =>
      (true,
       nfilter (fun r => is_execution_lock r && stale now r) rows
         ++ [Lock.mk oid "execution_lock" "execution" me now now])
  end.

(** B took the Execution lease at 1000000 and has not refreshed it since; A
    is a fresh process looking at the store at time [now]. *)
Definition abandoned_by_B (now : Z) : State :=
  boot "A" now [Lock.mk 1 "execution_lock" "execution" "B" 1000000 1000000] [].

(** The hard ceiling read literally: every task lock older than two minutes
    is deleted by the next acquisition for its task name, which is granted,
    and by the next sweep. *)
Definition ceiling_as_stated (s : State) : Prop :=
  forall r timeoutMs,
    In r (TaskLock_rows s) ->
    TaskLock.created_at r < clock s - 120000 ->
    let res := acquireTaskLock (TaskLock.task_name r) timeoutMs s in
    (~ In r (TaskLock_rows (snd res))
     /\ exists lid, fst res = Ret (mkResult true (Some lid)))
    /\ ~ In r (TaskLock_rows (snd (cleanupExpiredTaskLocks s))).

(** B took the task lock [check_expired_sessions] for ten minutes at
    1000000; A looks at the store 130 seconds later. *)
Definition long_job : State :=
  boot "A" 1130000 []
    [TaskLock.mk 1 "check_expired_sessions"
       (mkLockId "check_expired_sessions" 1000000 3%N) "B" 1000000 1600000].

(** The same with a lock of the probe task. *)
Definition long_probe : State :=
  boot "A" 1130000 []
    [TaskLock.mk 1 "telegram_test" (mkLockId "telegram_test" 1000000 3%N) "B"
       1000000 1600000].

(** A task function that fails. *)
Definition failing_task : M State bool :=
  getMe ;; throw (mkError "EFATAL" "job failed").

(** [releaseAll] read literally: afterwards this holder owns no row and the
    marker file is gone. *)
Definition releaseAll_as_stated (s : State) : Prop :=
  quiet s ->
  let s1 := snd (releaseAllLocks s) in
  (forall r, In r (Lock_rows s1) -> Lock.instance_id r <> instanceId s)
  /\ (forall r, In r (TaskLock_rows s1) -> TaskLock.instance_id r <> instanceId s)
  /\ lock_file s1 = None.

(** What [removeLockFile] leaves of the marker file for holder [me]. *)
Definition marker_left (me : string) (file : option FileContent)
  : option FileContent :=
  match file with
  | Some (Marker owner _ _) => if String.eqb owner me then None else file
  | _ => file
  end.

(** A starts in a directory where the crashed process B left its marker,
    and owns one lease and one task lock. *)
Definition foreign_marker : State :=
  set_lock_file (Some (Marker "B" 900000 4000))
    (boot "A" 1000000
       [Lock.mk 1 "master_lock" "master" "A" 990000 995000;
        Lock.mk 2 "execution_lock" "execution" "B" 900000 900000]
       [TaskLock.mk 3 "master_heartbeat"
          (mkLockId "master_heartbeat" 999000 5%N) "A" 999000 1059000]).

(** The same with A's own marker. *)
Definition own_marker : State :=
  set_lock_file (Some (Marker "A" 990000 4242)) foreign_marker.

(** ** Vocabulary for the controller *)

(** From here on [acquireExecutionLock] alone is the method of the lock
    manager; the entry point of the controller is written
    [AppManager.acquireExecutionLock]. *)
Import AppManager.
Import LockManager.

(** Two calls of the lock manager are far enough apart. *)
Definition apart (later earlier : Z) : Prop :=
  CONNECTION_ATTEMPT_COOLDOWN <= later - earlier.

(** What the rest of the controller leaves alone: only [acquireExecutionLock]
    writes [lastConnectionAttemptTime] and calls
    [this.lockManager.acquireExecutionLock()]. *)
Definition attempt_frame (a a1 : App) : Prop :=
  lastConnectionAttemptTime a1 = lastConnectionAttemptTime a
  /\ acquireExecution_calls a1 = acquireExecution_calls a.

(** One event in the life of the controller: a call of the entry point, or
    anything else (time passing, other callbacks, other instances writing
    to the store). *)
Inductive attempts_step : App -> App -> Prop :=
| entry_point (a : App) :
    attempts_step a (snd (AppManager.acquireExecutionLock a))
| elsewhere (a a1 : App) : attempt_frame a a1 -> attempts_step a a1.

Inductive attempts_run : App -> App -> Prop :=
| run_start (a : App) : attempts_run a a
| run_more (a b c : App) :
    attempts_run a b -> attempts_step b c -> attempts_run a c.

(** A controller around the lock manager state [s], with the given last
    attempt time, shutdown flag and pending timers, and no bot. *)
Definition controller (s : State) (last : Z) (shutting : bool)
    (pending : list Timer) : App :=
  mkApp s shutting last None None None None None false None None false None
    0 false false pending 10 [1234] [] 0 1 [] 0 [] [].

(** Ten seconds after an attempt made at 1000000. *)
Definition too_soon : App :=
  controller (boot "A" 1010000 [] []) 1000000 false [].

Definition handles_of (h : option nat) : list nat :=
  match h with
  | Some i => [i]
  | None => []
  end.

(** The timers the controller holds on to: its four intervals and the
    timers of the notifier. *)
Definition held_handles (a : App) : list nat :=
  handles_of (masterLockHeartbeatInterval a)
  ++ handles_of (executionLockHeartbeatInterval a)
  ++ handles_of (lockCheckInterval a)
  ++ handles_of (keepAliveInterval a)
  ++ match notificationSystem a with
     | Some hs => hs
     | None => []
     end.

(** What every step of the shutdown sequence respects: the flag stays as it
    is, no timer is added, and what has been cleared or stopped stays so. *)
Definition winding_down (a a1 : App) : Prop :=
  isShuttingDown a1 = isShuttingDown a
  /\ (forall t, In t (timers a1) -> In t (timers a))
  /\ (masterLockHeartbeatInterval a = None ->
      masterLockHeartbeatInterval a1 = None)
  /\ (executionLockHeartbeatInterval a = None ->
      executionLockHeartbeatInterval a1 = None)
  /\ (lockCheckInterval a = None -> lockCheckInterval a1 = None)
  /\ (keepAliveInterval a = None -> keepAliveInterval a1 = None)
  /\ (notificationSystem a = None -> notificationSystem a1 = None)
  /\ (bot a = false -> bot a1 = false).

(** What the steps before [releaseAllLocks] leave alone. *)
Definition store_untouched (a a1 : App) : Prop :=
  Lock_rows (lockManager a1) = Lock_rows (lockManager a)
  /\ TaskLock_rows (lockManager a1) = TaskLock_rows (lockManager a)
  /\ instanceId (lockManager a1) = instanceId (lockManager a)
  /\ fs_script (lockManager a1) = fs_script (lockManager a)
  /\ (store_script (lockManager a) = [] -> store_script (lockManager a1) = [])
  /\ close_script a1 = close_script a
  /\ readyState a1 = readyState a.

(** Instance A is active: it holds both leases, its four intervals and the
    notifier run, the bot polls, and the timer that starts the bot is
    pending. *)
Definition active : App :=
  mkApp
    (set_lock_file (Some (Marker "A" 1000000 4242))
       (boot "A" 1200000
          [Lock.mk 1 "master_lock" "master" "A" 1000000 1190000;
           Lock.mk 2 "execution_lock" "execution" "A" 1000000 1195000]
          []))
    false 1000000 (Some 1%nat) (Some 2%nat) (Some 3%nat) None
    (Some [4; 5; 6; 7]%nat) false None None true (Some [4; 5; 6; 7]%nat)
    0 false false
    [mkTimer 1 true 15000 masterLockHeartbeat_tick;
     mkTimer 2 true 10000 executionLockHeartbeat_tick;
     mkTimer 3 true 30000 lockCheck_tick;
     mkTimer 4 true 60000 notifier_tick;
     mkTimer 5 true 60000 notifier_tick;
     mkTimer 6 true 60000 notifier_tick;
     mkTimer 7 true 60000 notifier_tick;
     mkTimer 8 false 5000 startBot_later]
    9 [] [] 0 1 [] 0 [] [1000000].

(** [same f]: a step leaves the field [f] of the controller as it was. *)
Definition same {X} (f : App -> X) (a a1 : App) : Prop := f a1 = f a.

(** What the shutdown sequence has achieved in [a1], starting from [a]: the
    bot is stopped, the interval fields and the notifier are cleared and
    their timers cancelled, the rows of this holder are gone if the store
    and the file system did not fail, and the connection is closed if
    closing it did not fail. *)
Definition shut_down (a a1 : App) : Prop :=
  bot a1 = false
  /\ masterLockHeartbeatInterval a1 = None
  /\ executionLockHeartbeatInterval a1 = None
  /\ lockCheckInterval a1 = None
  /\ keepAliveInterval a1 = None
  /\ notificationSystem a1 = None
  /\ (forall h t, In h (held_handles a) -> In t (timers a1) -> handle t <> h)
  /\ (quiet (lockManager a) ->
      (forall r, In r (Lock_rows (lockManager a1)) ->
                 Lock.instance_id r <> instanceId (lockManager a))
      /\ (forall r, In r (TaskLock_rows (lockManager a1)) ->
                    TaskLock.instance_id r <> instanceId (lockManager a)))
  /\ (close_script a = [] -> readyState a1 = 0%nat).

(** The shutdown steps read literally: after the first call the bot is
    stopped, no timer is left, this holder owns no row and the connection
    is closed. *)
Definition shutdown_as_stated (reason : string) (a : App) : Prop :=
  isShuttingDown a = false ->
  quiet (lockManager a) ->
  close_script a = [] ->
  let a1 := snd (performShutdown reason a) in
  isShuttingDown a1 = true
  /\ bot a1 = false
  /\ timers a1 = []
  /\ (forall r, In r (Lock_rows (lockManager a1)) ->
                Lock.instance_id r <> instanceId (lockManager a))
  /\ (forall r, In r (TaskLock_rows (lockManager a1)) ->
                TaskLock.instance_id r <> instanceId (lockManager a))
  /\ readyState a1 = 0%nat.

(** Instance A has just acquired the Execution lease: its heartbeats and
    the lock check run, and the timer that will start the bot five seconds
    later is pending. *)
Definition just_acquired : App :=
  mkApp
    (set_lock_file (Some (Marker "A" 1200000 4242))
       (boot "A" 1201000
          [Lock.mk 1 "master_lock" "master" "A" 1199000 1199000;
           Lock.mk 2 "execution_lock" "execution" "A" 1200000 1200000]
          []))
    false 1200000 (Some 1%nat) (Some 2%nat) (Some 3%nat) None None
    false None None false None 0 false false
    [mkTimer 1 true 15000 masterLockHeartbeat_tick;
     mkTimer 2 true 10000 executionLockHeartbeat_tick;
     mkTimer 3 true 30000 lockCheck_tick;
     mkTimer 4 false 5000 startBot_later]
    5 [] [] 0 1 [] 0 [] [1200000].

(** B took the Master lease at 1000000 and has not refreshed it since. *)
Definition master_abandoned_by_B (now : Z) : State :=
  boot "A" now [Lock.mk 1 "master_lock" "master" "B" 1000000 1000000] [].

(** ** Lists and queries *)

Lemma find_existsb_id (p : Lock.t -> bool) (l : list Lock.t) (d : Lock.t) :
  List.find p l = Some d ->
  existsb (fun r => Nat.eqb (Lock._id r) (Lock._id d)) l = true.
Proof.
  intros H. apply find_some in H. destruct H as [Hin _].
  apply existsb_exists. exists d. split; [assumption | apply Nat.eqb_refl].
Qed.

Lemma In_nfilter {A} (p : A -> bool) (l : list A) (x : A) :
  In x (nfilter p l) <-> In x l /\ p x = false.
Proof.
  unfold nfilter. rewrite filter_In. rewrite negb_true_iff. reflexivity.
Qed.

Lemma find_none_iff {A} (p : A -> bool) (l : list A) :
  List.find p l = None <-> forall x, In x l -> p x = false.
Proof.
  split.
  - intros H x Hx. exact (find_none p l H x Hx).
  - induction l as [|a l IH]; intros H; simpl; [reflexivity|].
    rewrite (H a (or_introl eq_refl)). apply IH.
    intros x Hx. apply H. right. exact Hx.
Qed.

(** ** Running the primitives *)

Lemma bind_ret {S A B} (m : M S A) (k : A -> M S B) (s s1 : S) (a : A) :
  m s = (Ret a, s1) -> bind m k s = k a s1.
Proof. intros H. unfold bind. rewrite H. reflexivity. Qed.

Lemma bind_throw {S A B} (m : M S A) (k : A -> M S B) (s s1 : S) (e : JsError) :
  m s = (Throw e, s1) -> bind m k s = (Throw e, s1).
Proof. intros H. unfold bind. rewrite H. reflexivity. Qed.

Lemma try_catch_ret {S A} (m : M S A) (h : JsError -> M S A) (s s1 : S) (a : A) :
  m s = (Ret a, s1) -> try_catch m h s = (Ret a, s1).
Proof. intros H. unfold try_catch. rewrite H. reflexivity. Qed.

Lemma try_catch_throw {S A} (m : M S A) (h : JsError -> M S A) (s s1 : S) (e : JsError) :
  m s = (Throw e, s1) -> try_catch m h s = h e s1.
Proof. intros H. unfold try_catch. rewrite H. reflexivity. Qed.

(** A method whose body is wrapped in a [catch] that returns a value never
    throws. *)
Lemma try_catch_total {S A} (m : M S A) (v : A) (s : S) :
  exists a s1, try_catch m (fun _ => ret v) s = (Ret a, s1).
Proof.
  unfold try_catch. destruct (m s) as [[a|e] s1].
  - exists a, s1. reflexivity.
  - exists v, s1. reflexivity.
Qed.

Lemma store_call_quiet (s : State) :
  store_script s = [] -> store_call s = (Ret tt, s).
Proof. intros H. unfold store_call. rewrite H. reflexivity. Qed.

Lemma fs_call_quiet (s : State) :
  fs_script s = [] -> fs_call s = (Ret tt, s).
Proof. intros H. unfold fs_call. rewrite H. reflexivity. Qed.

Lemma TaskLock_findOne_quiet (p : TaskLock.t -> bool) (s : State) :
  store_script s = [] ->
  TaskLockModel.findOne p s = (Ret (List.find p (TaskLock_rows s)), s).
Proof.
  intros H. unfold TaskLockModel.findOne.
  erewrite bind_ret by (apply store_call_quiet; exact H). reflexivity.
Qed.

Lemma TaskLock_deleteMany_quiet (p : TaskLock.t -> bool) (s : State) :
  store_script s = [] ->
  TaskLockModel.deleteMany p s
  = (Ret (List.length (filter p (TaskLock_rows s))),
     set_TaskLock_rows (nfilter p (TaskLock_rows s)) s).
Proof.
  intros H. unfold TaskLockModel.deleteMany.
  erewrite bind_ret by (apply store_call_quiet; exact H). reflexivity.
Qed.

Lemma TaskLock_deleteOne_quiet (p : TaskLock.t -> bool) (s : State) :
  store_script s = [] ->
  TaskLockModel.deleteOne p s
  = (Ret (if existsb p (TaskLock_rows s) then 1%nat else 0%nat),
     set_TaskLock_rows (remove_first p (TaskLock_rows s)) s).
Proof.
  intros H. unfold TaskLockModel.deleteOne.
  erewrite bind_ret by (apply store_call_quiet; exact H). reflexivity.
Qed.

Lemma TaskLock_create_quiet (task : string) (lid : LockId) (inst : string)
    (created expires : Z) (s : State) :
  store_script s = [] ->
  TaskLockModel.create task lid inst created expires s
  = (Ret tt,
     set_next_oid (S (next_oid s))
       (set_TaskLock_rows
          (TaskLock_rows s
             ++ [TaskLock.mk (next_oid s) task lid inst created expires]) s)).
Proof.
  intros H. unfold TaskLockModel.create.
  erewrite bind_ret by (apply store_call_quiet; exact H). reflexivity.
Qed.

Lemma Lock_findOne_quiet (p : Lock.t -> bool) (s : State) :
  store_script s = [] ->
  LockModel.findOne p s = (Ret (List.find p (Lock_rows s)), s).
Proof.
  intros H. unfold LockModel.findOne.
  erewrite bind_ret by (apply store_call_quiet; exact H). reflexivity.
Qed.

Lemma Lock_deleteMany_quiet (p : Lock.t -> bool) (s : State) :
  store_script s = [] ->
  LockModel.deleteMany p s
  = (Ret (List.length (filter p (Lock_rows s))),
     set_Lock_rows (nfilter p (Lock_rows s)) s).
Proof.
  intros H. unfold LockModel.deleteMany.
  erewrite bind_ret by (apply store_call_quiet; exact H). reflexivity.
Qed.

Lemma Lock_create_quiet (nm ty inst : string) (created hb : Z) (s : State) :
  store_script s = [] ->
  LockModel.create nm ty inst created hb s
  = (Ret tt,
     set_next_oid (S (next_oid s))
       (set_Lock_rows
          (Lock_rows s ++ [Lock.mk (next_oid s) nm ty inst created hb]) s)).
Proof.
  intros H. unfold LockModel.create.
  erewrite bind_ret by (apply store_call_quiet; exact H). reflexivity.
Qed.

Lemma Lock_save_quiet (d : Lock.t) (s : State) :
  store_script s = [] ->
  existsb (fun r => Nat.eqb (Lock._id r) (Lock._id d)) (Lock_rows s) = true ->
  LockModel.save d s = (Ret tt, set_Lock_rows (LockModel.replace d (Lock_rows s)) s).
Proof.
  intros H Hex. unfold LockModel.save.
  erewrite bind_ret by (apply store_call_quiet; exact H).
  unfold bind, gets. rewrite Hex. reflexivity.
Qed.

Lemma bind_assoc {S A B C} (m : M S A) (k : A -> M S B) (h : B -> M S C) (s : S) :
  bind (bind m k) h s = bind m (fun a => bind (k a) h) s.
Proof.
  unfold bind. destruct (m s) as [[a|e] s1]; reflexivity.
Qed.

(** One step of a run: the first action of a sequence returns. *)
Ltac quiet_side := cbn; first [assumption | reflexivity].

Ltac step :=
  first
    [ erewrite bind_ret by reflexivity
    | erewrite bind_ret by (apply TaskLock_findOne_quiet; quiet_side)
    | erewrite bind_ret by (apply TaskLock_deleteMany_quiet; quiet_side)
    | erewrite bind_ret by (apply TaskLock_deleteOne_quiet; quiet_side)
    | erewrite bind_ret by (apply TaskLock_create_quiet; quiet_side)
    | erewrite bind_ret by (apply Lock_findOne_quiet; quiet_side)
    | erewrite bind_ret by (apply Lock_deleteMany_quiet; quiet_side)
    | erewrite bind_ret by (apply Lock_create_quiet; quiet_side)
    | erewrite bind_ret by (apply fs_call_quiet; quiet_side) ];
  cbn beta.

(** ** Task locks *)

Section TaskLocks.

Lemma acquireTaskLock_quiet_job (taskName : string) (timeoutMs : Z) (s : State) :
  String.eqb taskName "telegram_test" = false ->
  store_script s = [] ->
  acquireTaskLock taskName timeoutMs s
  = match List.find (unexpired taskName (clock s)) (TaskLock_rows s) with
    | Some _ => (Ret refused, set_next_uuid (N.succ (next_uuid s)) s)
    | None =>
        (Ret (mkResult true (Some (mkLockId taskName (clock s) (next_uuid s)))),
         granted taskName timeoutMs (TaskLock_rows s) s)
    end.
Proof.
  intros Hn Hs. unfold acquireTaskLock.
  destruct (List.find (unexpired taskName (clock s)) (TaskLock_rows s)) eqn:Hfind.
  - apply try_catch_ret.
    do 3 step. rewrite Hn. unfold when. do 2 step.
    step. cbn. rewrite Hfind. reflexivity.
  - apply try_catch_ret.
    do 3 step. rewrite Hn. unfold when. do 2 step.
    step. cbn. rewrite Hfind. do 3 step. reflexivity.
Qed.

Lemma releaseTaskLock_quiet (taskName : string) (lockId : LockId) (s : State) :
  store_script s = [] ->
  releaseTaskLock taskName lockId s
  = (Ret (existsb (acquisition taskName lockId) (TaskLock_rows s)),
     set_TaskLock_rows
       (remove_first (acquisition taskName lockId) (TaskLock_rows s)) s).
Proof.
  intros Hs. unfold releaseTaskLock. apply try_catch_ret.
  step. fold (acquisition taskName lockId).
  destruct (existsb (acquisition taskName lockId) (TaskLock_rows s)); reflexivity.
Qed.

Lemma acquireTaskLock_total (taskName : string) (timeoutMs : Z) (s : State) :
  exists r s1, acquireTaskLock taskName timeoutMs s = (Ret r, s1).
Proof. apply try_catch_total. Qed.

Lemma releaseTaskLock_total (taskName : string) (lockId : LockId) (s : State) :
  exists b s1, releaseTaskLock taskName lockId s = (Ret b, s1).
Proof. apply try_catch_total. Qed.

(** [executeWithLock] once the lock is held. *)
Lemma executeWithLock_held_ret {A} (taskName : string) (fn : M State A)
    (timeoutMs : Z) (s s1 s2 s3 : State) (lid : LockId) (v : A) (b : bool) :
  acquireTaskLock taskName timeoutMs s = (Ret (mkResult true (Some lid)), s1) ->
  fn s1 = (Ret v, s2) ->
  releaseTaskLock taskName lid s2 = (Ret b, s3) ->
  executeWithLock taskName fn timeoutMs s = (Ret (Some v), s3).
Proof.
  intros Ha Hf Hr. unfold executeWithLock.
  erewrite bind_ret by exact Ha. cbn.
  unfold try_finally, try_catch, bind. rewrite Hf. cbn. rewrite Hr. reflexivity.
Qed.

Lemma executeWithLock_held_throw {A} (taskName : string) (fn : M State A)
    (timeoutMs : Z) (s s1 s2 s3 : State) (lid : LockId) (e : JsError)
    (b : bool) :
  acquireTaskLock taskName timeoutMs s = (Ret (mkResult true (Some lid)), s1) ->
  fn s1 = (Throw e, s2) ->
  releaseTaskLock taskName lid s2 = (Ret b, s3) ->
  executeWithLock taskName fn timeoutMs s = (Throw e, s3).
Proof.
  intros Ha Hf Hr. unfold executeWithLock.
  erewrite bind_ret by exact Ha. cbn.
  unfold try_finally, try_catch, bind. rewrite Hf. cbn. rewrite Hr. reflexivity.
Qed.

Lemma executeWithLock_refused {A} (taskName : string) (fn : M State A)
    (timeoutMs : Z) (s s1 : State) (r : AcquireResult) :
  acquireTaskLock taskName timeoutMs s = (Ret r, s1) ->
  success r = false \/ lockId r = None ->
  executeWithLock taskName fn timeoutMs s = (Ret None, s1).
Proof.
  intros Ha Hr. unfold executeWithLock.
  erewrite bind_ret by exact Ha.
  destruct Hr as [Hr|Hr]; rewrite Hr; [reflexivity|].
  destruct (success r); reflexivity.
Qed.
End TaskLocks.

(** ** Heartbeats *)

Section Heartbeat.

Lemma heartbeat_task_quiet (nm ty : string) (s : State) :
  store_script s = [] ->
  heartbeat_task nm ty s
  = match List.find (owned_by nm ty (instanceId s)) (Lock_rows s) with
    | Some found =>
        (Ret true,
         set_Lock_rows
           (LockModel.replace (Lock.set_last_heartbeat found (clock s))
              (Lock_rows s)) s)
    | None => (Ret false, s)
    end.
Proof.
  intros Hs. unfold heartbeat_task. do 2 step.
  destruct (List.find (owned_by nm ty (instanceId s)) (Lock_rows s)) eqn:Hfind.
  - step.
    erewrite bind_ret
      by (apply Lock_save_quiet; [exact Hs | exact (find_existsb_id _ _ _ Hfind)]).
    reflexivity.
  - reflexivity.
Qed.

Lemma heartbeat_quiet (task nm ty : string) (ttl : Z) (s : State) :
  String.eqb task "telegram_test" = false ->
  store_script s = [] ->
  heartbeat_run task nm ty s
    (try_catch (executeWithLock task (heartbeat_task nm ty) ttl)
       (fun _ => ret (Some false)) s).
Proof.
  intros Hn Hs. unfold heartbeat_run.
  pose proof (acquireTaskLock_quiet_job task ttl s Hn Hs) as Ha.
  destruct (List.find (unexpired task (clock s)) (TaskLock_rows s)).
  - erewrite try_catch_ret
      by (eapply executeWithLock_refused; [exact Ha | left; reflexivity]).
    split; reflexivity.
  - pose proof (heartbeat_task_quiet nm ty (granted task ttl (TaskLock_rows s) s) Hs)
      as Hh.
    cbn [instanceId granted set_next_oid set_TaskLock_rows set_next_uuid
           Lock_rows clock] in Hh.
    destruct (List.find (owned_by nm ty (instanceId s)) (Lock_rows s)).
    + erewrite try_catch_ret
        by (eapply executeWithLock_held_ret;
            [exact Ha | exact Hh | apply releaseTaskLock_quiet; exact Hs]).
      split; reflexivity.
    + erewrite try_catch_ret
        by (eapply executeWithLock_held_ret;
            [exact Ha | exact Hh | apply releaseTaskLock_quiet; exact Hs]).
      split; reflexivity.
Qed.
End Heartbeat.

(** C1 (as amended). When no store call rejects, a heartbeat method returns
    [null] and leaves every lease row alone if an unexpired task lock
    [execution_heartbeat] / [master_heartbeat] exists; otherwise it
    returns [false] exactly when this holder has no lease row of that name,
    and else sets the [last_heartbeat] of the first such row to the current
    time and returns [true]. *)
Theorem heartbeat_contract (s : State) :
  store_script s = [] ->
  heartbeat_run "execution_heartbeat" "execution_lock" "execution" s
    (updateExecutionLockHeartbeat s)
  /\ heartbeat_run "master_heartbeat" "master_lock" "master" s
       (updateMasterLockHeartbeat s).
Proof.
  intros Hs. split.
  - exact (heartbeat_quiet "execution_heartbeat" "execution_lock" "execution"
             20000 s eq_refl Hs).
  - exact (heartbeat_quiet "master_heartbeat" "master_lock" "master"
             TASK_LOCK_TIMEOUT s eq_refl Hs).
Qed.

Lemma heartbeat_contract_witness :
  heartbeat_run "execution_heartbeat" "execution_lock" "execution"
    overlapping_tick (updateExecutionLockHeartbeat overlapping_tick)
  /\ heartbeat_run "master_heartbeat" "master_lock" "master"
       overlapping_tick (updateMasterLockHeartbeat overlapping_tick).
Proof. apply (heartbeat_contract overlapping_tick). reflexivity. Defined.

(** C1 as stated fails: the lease row of A exists, yet the call returns
    [null] and does not refresh it, because the task lock is busy. *)
Lemma heartbeat_busy_counterexample :
  store_script overlapping_tick = []
  /\ updateExecutionLockHeartbeat overlapping_tick
     = (Ret None, set_next_uuid 1%N overlapping_tick)
  /\ ~ heartbeat_as_stated updateExecutionLockHeartbeat "execution_lock"
         "execution" overlapping_tick.
Proof.
  split; [reflexivity|]. split; [reflexivity|].
  intros [_ H].
  destruct (H (Lock.mk 1 "execution_lock" "execution" "A" 1000000 1000000) eq_refl)
    as [Hret _].
  discriminate Hret.
Qed.

(** ** Frames and totality *)

Section Frames.
Context {S : Type} (R : S -> S -> Prop).
Hypothesis R_refl : forall s, R s s.
Hypothesis R_trans : forall a b c, R a b -> R b c -> R a c.

Lemma keeps_ret {A} (a : A) : keeps R (ret a).
Proof. intros s. apply R_refl. Qed.

Lemma keeps_throw {A} (e : JsError) : keeps R (@throw S A e).
Proof. intros s. apply R_refl. Qed.

Lemma keeps_gets {A} (f : S -> A) : keeps R (gets f).
Proof. intros s. apply R_refl. Qed.

Lemma keeps_bind {A B} (m : M S A) (k : A -> M S B) :
  keeps R m -> (forall a, keeps R (k a)) -> keeps R (bind m k).
Proof.
  intros Hm Hk s. unfold bind. specialize (Hm s).
  destruct (m s) as [[a|e] s1]; cbn in *.
  - eapply R_trans; [exact Hm | apply Hk].
  - exact Hm.
Qed.

Lemma keeps_try_catch {A} (m : M S A) (h : JsError -> M S A) :
  keeps R m -> (forall e, keeps R (h e)) -> keeps R (try_catch m h).
Proof.
  intros Hm Hh s. unfold try_catch. specialize (Hm s).
  destruct (m s) as [[a|e] s1]; cbn in *.
  - exact Hm.
  - eapply R_trans; [exact Hm | apply Hh].
Qed.

Lemma keeps_try_finally {A B} (m : M S A) (fin : M S B) :
  keeps R m -> keeps R fin -> keeps R (try_finally m fin).
Proof.
  intros Hm Hf s. unfold try_finally. specialize (Hm s).
  destruct (m s) as [o s1]. specialize (Hf s1).
  destruct (fin s1) as [[b|e] s2]; cbn in *; eapply R_trans; eassumption.
Qed.

Lemma keeps_when (c : bool) (m : M S unit) : keeps R m -> keeps R (when c m).
Proof. intros Hm. destruct c; [exact Hm | apply keeps_ret]. Qed.
End Frames.

Lemma total_ret {S A} (a : A) : total (@ret S A a).
Proof. intros s. exists a. reflexivity. Qed.

Lemma total_gets {S A} (f : S -> A) : total (gets f).
Proof. intros s. exists (f s). reflexivity. Qed.

Lemma total_modify {S} (f : S -> S) : total (modify f).
Proof. intros s. exists tt. reflexivity. Qed.

Lemma total_bind {S A B} (m : M S A) (k : A -> M S B) :
  total m -> (forall a, total (k a)) -> total (bind m k).
Proof.
  intros Hm Hk s. unfold bind. destruct (Hm s) as [a Ha].
  destruct (m s) as [o s1]. cbn in Ha. subst o. apply Hk.
Qed.

Lemma total_try_catch {S A} (m : M S A) (h : JsError -> M S A) :
  (forall e, total (h e)) -> total (try_catch m h).
Proof.
  intros Hh s. unfold try_catch. destruct (m s) as [[a|e] s1].
  - exists a. reflexivity.
  - apply Hh.
Qed.

Lemma total_try_finally {S A B} (m : M S A) (fin : M S B) :
  total m -> total fin -> total (try_finally m fin).
Proof.
  intros Hm Hf s. unfold try_finally. destruct (Hm s) as [a Ha].
  destruct (m s) as [o s1]. cbn in Ha. subst o.
  destruct (Hf s1) as [b Hb]. destruct (fin s1) as [o2 s2]. cbn in Hb. subst o2.
  exists a. reflexivity.
Qed.

Lemma total_when {S} (c : bool) (m : M S unit) : total m -> total (when c m).
Proof. intros Hm. destruct c; [exact Hm | apply total_ret]. Qed.

(** The first action of a sequence does not throw: the sequence continues
    from the state it leaves. *)
Lemma bind_total {S A B} (m : M S A) (k : A -> M S B) (s : S) (a : A) :
  fst (m s) = Ret a -> bind m k s = k a (snd (m s)).
Proof.
  intros H. unfold bind. destruct (m s) as [o s1]. cbn in *. subst o. reflexivity.
Qed.

Lemma task_frame_refl (s : State) : task_frame s s.
Proof. unfold task_frame. intuition. Qed.

Lemma task_frame_trans (a b c : State) :
  task_frame a b -> task_frame b c -> task_frame a c.
Proof. unfold task_frame. intuition congruence. Qed.

Lemma lease_frame_refl (s : State) : lease_frame s s.
Proof. unfold lease_frame. intuition. Qed.

Lemma lease_frame_trans (a b c : State) :
  lease_frame a b -> lease_frame b c -> lease_frame a c.
Proof. unfold lease_frame. intuition congruence. Qed.

Lemma task_frame_lease (a b : State) : task_frame a b -> lease_frame a b.
Proof. unfold task_frame, lease_frame. intuition. Qed.

Lemma keeps_task_lease {A} (m : M State A) :
  keeps task_frame m -> keeps lease_frame m.
Proof. intros H s. apply task_frame_lease. apply H. Qed.

Lemma store_call_cases (s : State) :
  (store_call s = (Ret tt, s)
   \/ exists o rest,
        store_script s = o :: rest /\ snd (store_call s) = set_store_script rest s).
Proof.
  unfold store_call. destruct (store_script s) as [|[e|] rest].
  - left. reflexivity.
  - right. exists (Some e), rest. split; reflexivity.
  - right. exists None, rest. split; reflexivity.
Qed.

Lemma keeps_store_call : keeps task_frame store_call.
Proof.
  intros s. destruct (store_call_cases s) as [H|[o [rest [Hs H]]]]; rewrite H.
  - apply task_frame_refl.
  - unfold task_frame. cbn. rewrite Hs. intuition discriminate.
Qed.

Lemma keeps_uuidv4_head : keeps task_frame uuidv4_head.
Proof. intros s. unfold task_frame. cbn. intuition. Qed.

Lemma keeps_set_TaskLock_rows (f : State -> list TaskLock.t) :
  keeps task_frame (modify (fun s => set_TaskLock_rows (f s) s)).
Proof. intros s. unfold task_frame. cbn. intuition. Qed.

Lemma keeps_set_oid_TaskLock_rows (f : State -> list TaskLock.t) (g : State -> nat) :
  keeps task_frame
    (modify (fun s => set_next_oid (g s) (set_TaskLock_rows (f s) s))).
Proof. intros s. unfold task_frame. cbn. intuition. Qed.

Create HintDb frames.

(** Decomposes a frame goal along the structure of the method. *)
Ltac keeps_by Hrefl Htrans :=
  repeat first
    [ solve [auto with frames]
    | apply (keeps_ret _ Hrefl)
    | apply (keeps_gets _ Hrefl)
    | apply (keeps_throw _ Hrefl)
    | apply (keeps_when _ Hrefl)
    | apply (keeps_bind _ Htrans); [| intros ?]
    | apply (keeps_try_catch _ Htrans); [| intros ?]
    | apply (keeps_try_finally _ Htrans)
    | match goal with
      | |- keeps _ (if ?b then _ else _) => destruct b
      | |- keeps _ (match ?x with _ => _ end) => destruct x
      end
    | progress cbv zeta ].

Ltac keeps_task := keeps_by task_frame_refl task_frame_trans.
Ltac keeps_lease := keeps_by lease_frame_refl lease_frame_trans.

#[local] Hint Resolve keeps_store_call keeps_uuidv4_head
  keeps_set_TaskLock_rows keeps_set_oid_TaskLock_rows : frames.

Section TaskFrames.

Lemma keeps_TaskLock_findOne p : keeps task_frame (TaskLockModel.findOne p).
Proof. unfold TaskLockModel.findOne. keeps_task. Qed.

Lemma keeps_TaskLock_deleteMany p : keeps task_frame (TaskLockModel.deleteMany p).
Proof. unfold TaskLockModel.deleteMany. keeps_task. Qed.

Lemma keeps_TaskLock_deleteOne p : keeps task_frame (TaskLockModel.deleteOne p).
Proof. unfold TaskLockModel.deleteOne. keeps_task. Qed.

Lemma keeps_TaskLock_create task lid inst created expires :
  keeps task_frame (TaskLockModel.create task lid inst created expires).
Proof. unfold TaskLockModel.create. keeps_task. Qed.

#[local] Hint Resolve keeps_TaskLock_findOne keeps_TaskLock_deleteMany
  keeps_TaskLock_deleteOne keeps_TaskLock_create : frames.

Lemma keeps_acquireTaskLock taskName timeoutMs :
  keeps task_frame (acquireTaskLock taskName timeoutMs).
Proof. unfold acquireTaskLock, date_now. keeps_task. Qed.

Lemma keeps_releaseTaskLock taskName lockId :
  keeps task_frame (releaseTaskLock taskName lockId).
Proof. unfold releaseTaskLock. keeps_task. Qed.

End TaskFrames.

#[local] Hint Resolve keeps_TaskLock_findOne keeps_TaskLock_deleteMany
  keeps_TaskLock_deleteOne keeps_TaskLock_create keeps_acquireTaskLock
  keeps_releaseTaskLock : frames.

(** ** The probe *)

Section Probe.

Lemma try_finally_total_fin {S A B} (m : M S A) (fin : M S B) (s : S) :
  total fin ->
  try_finally m fin s = (fst (m s), snd (fin (snd (m s)))).
Proof.
  intros Hf. unfold try_finally. destruct (m s) as [o s1]. cbn.
  destruct (Hf s1) as [b Hb]. destruct (fin s1) as [o2 s2]. cbn in *.
  subst o2. reflexivity.
Qed.

Lemma total_probe_catch error : total (probe_catch error).
Proof.
  unfold probe_catch. destruct (is_409_conflict error).
  - repeat first [apply total_bind; [| intros ?] | apply total_modify
                 | apply total_gets | apply total_ret].
  - apply total_ret.
Qed.

Lemma total_probe_finally acquired : total (probe_finally acquired).
Proof.
  unfold probe_finally. destruct acquired.
  - apply total_try_catch. intros e. apply total_ret.
  - apply total_ret.
Qed.

Lemma total_acquireTaskLock taskName timeoutMs :
  total (acquireTaskLock taskName timeoutMs).
Proof.
  unfold acquireTaskLock. apply total_try_catch. intros e. apply total_ret.
Qed.

Lemma total_probe_guarded : total probe_guarded.
Proof.
  intros s. unfold probe_guarded.
  destruct (acquireTaskLock "telegram_test" 20000 s) as [[r|e] s1].
  - rewrite try_finally_total_fin by apply total_probe_finally. cbn.
    apply total_try_catch. apply total_probe_catch.
  - rewrite try_finally_total_fin by apply total_probe_finally. cbn.
    apply total_probe_catch.
Qed.

Lemma total_testTelegramConnection : total testTelegramConnection.
Proof.
  unfold testTelegramConnection.
  apply total_bind; [apply total_gets | intros detected].
  apply total_bind; [apply total_gets | intros last].
  destruct (detected && truthy last).
  - apply total_bind; [apply total_gets | intros now].
    cbv zeta. destruct (since now last <? 60000).
    + apply total_ret.
    + apply total_probe_guarded.
  - apply total_probe_guarded.
Qed.

Lemma keeps_getMe : keeps lease_frame getMe.
Proof.
  intros s. unfold getMe, lease_frame.
  destruct (getMe_script s) as [|[e|] rest]; cbn; intuition.
Qed.

Lemma keeps_set_conflict b :
  keeps lease_frame (modify (set_telegramConflictDetected b)).
Proof. intros s. unfold lease_frame. cbn. intuition. Qed.

Lemma keeps_set_conflict_time t :
  keeps lease_frame (modify (set_lastTelegramConflictTime t)).
Proof. intros s. unfold lease_frame. cbn. intuition. Qed.

#[local] Hint Resolve keeps_task_lease keeps_getMe keeps_set_conflict
  keeps_set_conflict_time : frames.

Lemma keeps_probe_catch error : keeps lease_frame (probe_catch error).
Proof. unfold probe_catch, date_now. keeps_lease. Qed.

Lemma keeps_probe_finally acquired : keeps lease_frame (probe_finally acquired).
Proof. unfold probe_finally. keeps_lease. Qed.

Lemma keeps_probe_try r : keeps lease_frame (probe_try r).
Proof. unfold probe_try, date_now. keeps_lease. Qed.

#[local] Hint Resolve keeps_probe_catch keeps_probe_finally keeps_probe_try
  : frames.

Lemma keeps_probe_guarded : keeps lease_frame probe_guarded.
Proof.
  intros s. unfold probe_guarded.
  pose proof (keeps_acquireTaskLock "telegram_test" 20000 s) as Ha.
  apply task_frame_lease in Ha.
  destruct (acquireTaskLock "telegram_test" 20000 s) as [[r|e] s1]; cbn in Ha;
    (eapply lease_frame_trans; [exact Ha|]).
  - assert (H : keeps lease_frame
                  (try_finally (try_catch (probe_try r) probe_catch)
                     (probe_finally (lockId r)))) by keeps_lease.
    apply H.
  - assert (H : keeps lease_frame
                  (try_finally (probe_catch e) (probe_finally None)))
      by keeps_lease.
    apply H.
Qed.

#[local] Hint Resolve keeps_probe_guarded : frames.

Lemma keeps_testTelegramConnection : keeps lease_frame testTelegramConnection.
Proof. unfold testTelegramConnection, date_now. keeps_lease. Qed.

End Probe.

Section ProbeOutcome.

Lemma probe_catch_false error s : fst (probe_catch error s) = Ret false.
Proof. unfold probe_catch. destruct (is_409_conflict error); reflexivity. Qed.

Lemma getMe_rejects s error rest :
  getMe_script s = Some error :: rest ->
  fst (getMe s) = Throw error.
Proof. intros H. unfold getMe. rewrite H. reflexivity. Qed.

Lemma probe_try_channel_error r s error rest :
  getMe_script s = Some error :: rest ->
  fst (try_catch (probe_try r) probe_catch s) = Ret false.
Proof.
  intros H. unfold try_catch, probe_try. destruct (success r); cbn [negb].
  - unfold bind at 1. pose proof (getMe_rejects s error rest H) as Hg.
    destruct (getMe s) as [o s1]. cbn in Hg. subst o.
    apply probe_catch_false.
  - unfold bind at 1.
    match goal with
    | |- context [try_catch ?m ?h s] =>
        destruct (try_catch_total m tt s) as [a [s1 Ht]]; rewrite Ht
    end.
    reflexivity.
Qed.

Lemma probe_guarded_channel_error s error rest :
  getMe_script s = Some error :: rest ->
  fst (probe_guarded s) = Ret false.
Proof.
  intros H. unfold probe_guarded.
  pose proof (keeps_acquireTaskLock "telegram_test" 20000 s) as Ha.
  destruct (acquireTaskLock "telegram_test" 20000 s) as [[r|e] s1]; cbn in Ha;
    rewrite try_finally_total_fin by apply total_probe_finally; cbn [fst].
  - apply (probe_try_channel_error r s1 error rest).
    destruct Ha as (_ & _ & _ & _ & _ & Hg & _). rewrite Hg. exact H.
  - apply probe_catch_false.
Qed.

End ProbeOutcome.

(** C5. A probe made while a conflict recorded less than 60 seconds ago is
    on file returns [false] and changes nothing, so the channel is not
    called; and whenever the channel call of a probe fails, with the
    conflict error or any other, the probe returns [false]. *)
Theorem probe_backoff_and_errors (s : State) :
  (forall t,
     telegramConflictDetected s = true ->
     lastTelegramConflictTime s = Some t ->
     t <> 0 ->
     clock s - t < 60000 ->
     testTelegramConnection s = (Ret false, s)
     /\ getMe_calls (snd (testTelegramConnection s)) = getMe_calls s)
  /\ (forall error rest,
        getMe_script s = Some error :: rest ->
        fst (testTelegramConnection s) = Ret false).
Proof.
  split.
  - intros t Hd Hl Ht Hlt.
    assert (H : testTelegramConnection s = (Ret false, s)).
    { unfold testTelegramConnection, bind, gets, date_now. cbn.
      rewrite Hd, Hl. cbn.
      destruct (Z.eqb_spec t 0) as [E|_]; [contradiction|]. cbn.
      destruct (Z.ltb_spec (clock s - t) 60000) as [_|E]; [reflexivity | lia]. }
    rewrite H. split; reflexivity.
  - intros error rest H. unfold testTelegramConnection, bind, gets, date_now. cbn.
    destruct (telegramConflictDetected s && truthy (lastTelegramConflictTime s)).
    + destruct (since (clock s) (lastTelegramConflictTime s) <? 60000).
      * reflexivity.
      * exact (probe_guarded_channel_error s error rest H).
    + exact (probe_guarded_channel_error s error rest H).
Qed.

(** The scenario of the specification: the first probe meets a conflict, the
    second comes 30 seconds later and is answered without a channel call. *)
Lemma probe_backoff_and_errors_witness :
  (testTelegramConnection after_conflict = (Ret false, after_conflict)
   /\ getMe_calls (snd (testTelegramConnection after_conflict)) = 1%nat)
  /\ fst (testTelegramConnection before_conflict) = Ret false.
Proof.
  split.
  - apply (proj1 (probe_backoff_and_errors after_conflict) 1000000).
    + reflexivity.
    + reflexivity.
    + discriminate.
    + reflexivity.
  - apply (proj2 (probe_backoff_and_errors before_conflict) conflict_409 []).
    reflexivity.
Defined.

(** ** Lease acquisition *)

Section Acquisition.

Lemma Lock_findOne_run p s :
  (exists s1,
     LockModel.findOne p s = (Ret (List.find p (Lock_rows s)), s1)
     /\ Lock_rows s1 = Lock_rows s)
  \/ (exists e s1,
        LockModel.findOne p s = (Throw e, s1) /\ Lock_rows s1 = Lock_rows s).
Proof.
  unfold LockModel.findOne, bind, store_call, gets.
  destruct (store_script s) as [|[e|] rest].
  - left. eexists. split; reflexivity.
  - right. do 2 eexists. split; reflexivity.
  - left. eexists. split; reflexivity.
Qed.

Lemma acquireMasterLock_refused_by_probe s :
  fst (testTelegramConnection s) = Ret false ->
  acquireMasterLock s = (Ret false, snd (testTelegramConnection s)).
Proof.
  intros Hb. unfold acquireMasterLock, try_catch.
  rewrite (bind_total _ _ s false Hb). reflexivity.
Qed.

Lemma acquireMasterLock_gate s active :
  List.find (fun r => is_execution r && live (clock s) r) (Lock_rows s)
  = Some active ->
  Lock.instance_id active <> instanceId s ->
  exists s1,
    acquireMasterLock s = (Ret false, s1) /\ Lock_rows s1 = Lock_rows s.
Proof.
  intros Hfind Hne.
  destruct (total_testTelegramConnection s) as [b Hb].
  pose proof (keeps_testTelegramConnection s) as (Hrows & Hclock & Hme & _).
  destruct b.
  - unfold acquireMasterLock, try_catch.
    rewrite (bind_total _ _ s true Hb). cbn [negb].
    unfold bind at 1, gets. unfold bind at 1, date_now, gets.
    rewrite Hme, Hclock.
    unfold bind at 1.
    match goal with
    | |- context [LockModel.findOne ?p ?s1] =>
        destruct (Lock_findOne_run p s1)
          as [(s2 & Hrun & Hkeep)|(e & s2 & Hrun & Hkeep)]; rewrite Hrun
    end.
    + rewrite Hrows.
      change (List.find (fun r => is_execution r && live (clock s) r) (Lock_rows s))
        with (List.find
                (fun r => String.eqb (Lock.lock_type r) "execution"
                          && heartbeat_after (clock s - GLOBAL_LOCK_TIMEOUT) r)
                (Lock_rows s)) in Hfind.
      rewrite Hfind.
      destruct (String.eqb_spec (Lock.instance_id active) (instanceId s)) as [E|_];
        [contradiction|].
      exists s2. split; [reflexivity | congruence].
    + exists s2. split; [reflexivity | congruence].
  - exists (snd (testTelegramConnection s)).
    split; [exact (acquireMasterLock_refused_by_probe s Hb) | exact Hrows].
Qed.

Lemma nfilter_absorb {A} (p q : A -> bool) (l : list A) :
  (forall x, q x = false -> p x = false) ->
  nfilter p (nfilter q l) = nfilter q l.
Proof.
  intros H. unfold nfilter. induction l as [|x l IH]; cbn; [reflexivity|].
  destruct (q x) eqn:Hq; cbn; [exact IH|].
  rewrite (H x Hq). cbn. rewrite IH. reflexivity.
Qed.

Lemma acquireMasterLock_claim_quiet me s :
  store_script s = [] ->
  acquireMasterLock_claim me s
  = let kept := nfilter (stale (clock s)) (Lock_rows s) in
    match List.find (fun r => is_master r && live (clock s) r) kept with
    | Some found =>
        if String.eqb (Lock.instance_id found) me
        then
          (Ret true,
           set_Lock_rows
             (LockModel.replace (Lock.set_last_heartbeat found (clock s)) kept) s)
        else (Ret false, set_Lock_rows kept s)
    | None =>
        (Ret true,
         set_next_oid (S (next_oid s))
           (set_Lock_rows
              (kept ++ [Lock.mk (next_oid s) "master_lock" "master" me
                          (clock s) (clock s)]) s))
    end.
Proof.
  intros Hs. unfold acquireMasterLock_claim, is_master, live, stale. cbv zeta.
  do 4 step. cbn [Lock_rows set_Lock_rows clock].
  destruct (List.find _ (nfilter _ (Lock_rows s))) as [found|] eqn:Hfind.
  - destruct (String.eqb (Lock.instance_id found) me); cbn [negb].
    + step.
      erewrite bind_ret
        by (apply Lock_save_quiet;
            [exact Hs | exact (find_existsb_id _ _ _ Hfind)]).
      reflexivity.
    + reflexivity.
  - do 5 step. cbn [Lock_rows set_Lock_rows clock].
    rewrite nfilter_absorb by (intros x Hx; rewrite Hx; apply andb_false_r).
    reflexivity.
Qed.

Lemma acquireMasterLock_quiet s :
  store_script s = [] ->
  fst (testTelegramConnection s) = Ret true ->
  let s1 := snd (testTelegramConnection s) in
  fst (acquireMasterLock s)
  = Ret (fst (master_contract (instanceId s) (clock s) (next_oid s1) (Lock_rows s)))
  /\ Lock_rows (snd (acquireMasterLock s))
     = snd (master_contract (instanceId s) (clock s) (next_oid s1) (Lock_rows s)).
Proof.
  intros Hs Hb s1.
  pose proof (keeps_testTelegramConnection s)
    as (Hrows & Hclock & Hme & _ & _ & Hq).
  specialize (Hq Hs). fold s1 in Hrows, Hclock, Hme, Hq.
  pose proof (acquireMasterLock_claim_quiet (instanceId s) s1 Hq) as Hc.
  rewrite Hrows, Hclock in Hc. cbv zeta in Hc.
  assert (Hrun :
    acquireMasterLock s
    = match List.find (fun r => is_execution r && live (clock s) r) (Lock_rows s) with
      | Some active =>
          if String.eqb (Lock.instance_id active) (instanceId s)
          then acquireMasterLock_claim (instanceId s) s1
          else (Ret false, s1)
      | None => acquireMasterLock_claim (instanceId s) s1
      end).
  { unfold acquireMasterLock, try_catch.
    rewrite (bind_total _ _ s true Hb). fold s1. cbn [negb].
    do 3 step. rewrite Hme, Hclock, Hrows.
    unfold is_execution, live.
    destruct (List.find _ (Lock_rows s)) as [active|].
    - destruct (String.eqb (Lock.instance_id active) (instanceId s)).
      + rewrite Hc.
        destruct (List.find _ (nfilter _ (Lock_rows s))) as [found|];
          [destruct (String.eqb (Lock.instance_id found) (instanceId s))|];
          reflexivity.
      + reflexivity.
    - rewrite Hc.
      destruct (List.find _ (nfilter _ (Lock_rows s))) as [found|];
        [destruct (String.eqb (Lock.instance_id found) (instanceId s))|];
        reflexivity. }
  rewrite Hrun. unfold master_contract.
  destruct (List.find (fun r => is_execution r && live (clock s) r) (Lock_rows s))
    as [active|].
  - destruct (String.eqb (Lock.instance_id active) (instanceId s)).
    + rewrite Hc.
      destruct (List.find _ (nfilter _ (Lock_rows s))) as [found|];
        [destruct (String.eqb (Lock.instance_id found) (instanceId s))|];
        split; reflexivity.
    + split; [reflexivity | exact Hrows].
  - rewrite Hc.
    destruct (List.find _ (nfilter _ (Lock_rows s))) as [found|];
      [destruct (String.eqb (Lock.instance_id found) (instanceId s))|];
      split; reflexivity.
Qed.

Lemma createLockFile_run s :
  exists b s1,
    LocalLockManager.createLockFile s = (Ret b, s1)
    /\ Lock_rows s1 = Lock_rows s.
Proof.
  unfold LocalLockManager.createLockFile, try_catch, bind, gets, date_now,
    fs_call, modify, ret.
  cbn. destruct (fs_script s) as [|[e|] rest]; do 2 eexists; split; reflexivity.
Qed.

Lemma acquireExecutionLock_quiet s :
  store_script s = [] ->
  fst (testTelegramConnection s) = Ret true ->
  let s1 := snd (testTelegramConnection s) in
  fst (acquireExecutionLock s)
  = Ret (fst (execution_contract (instanceId s) (clock s) (next_oid s1)
                (Lock_rows s)))
  /\ Lock_rows (snd (acquireExecutionLock s))
     = snd (execution_contract (instanceId s) (clock s) (next_oid s1)
              (Lock_rows s)).
Proof.
  intros Hs Hb s1.
  pose proof (keeps_testTelegramConnection s)
    as (Hrows & Hclock & Hme & _ & _ & Hq).
  specialize (Hq Hs). fold s1 in Hrows, Hclock, Hme, Hq.
  unfold execution_contract, is_execution_lock, live, stale.
  assert (Hrun :
    exists s2,
      acquireExecutionLock s
      = (Ret (fst (execution_contract (instanceId s) (clock s) (next_oid s1)
                     (Lock_rows s))), s2)
      /\ Lock_rows s2
         = snd (execution_contract (instanceId s) (clock s) (next_oid s1)
                  (Lock_rows s))).
  { unfold acquireExecutionLock, try_catch.
    rewrite (bind_total _ _ s true Hb). fold s1. cbn [negb].
    do 3 step. rewrite Hme, Hclock, Hrows.
    unfold execution_contract, is_execution_lock, live, stale.
    destruct (List.find _ (Lock_rows s)) as [found|] eqn:Hfind.
    - destruct (String.eqb (Lock.instance_id found) (instanceId s)); cbn [negb].
      + step. rewrite Hclock.
        erewrite bind_ret
          by (apply Lock_save_quiet;
              [exact Hq | rewrite Hrows; exact (find_existsb_id _ _ _ Hfind)]).
        eexists. split; [reflexivity|]. cbn. rewrite Hrows. reflexivity.
      + eexists. split; [reflexivity | exact Hrows].
    - do 5 step. cbn [clock next_oid Lock_rows set_Lock_rows set_next_oid].
      rewrite Hclock.
      match goal with
      | |- context [bind LocalLockManager.createLockFile _ ?st] =>
          destruct (createLockFile_run st) as (b & s2 & Hc & Hk)
      end.
      erewrite bind_ret by exact Hc.
      eexists. split; [reflexivity|]. rewrite Hk. cbn. rewrite Hrows.
      reflexivity. }
  destruct Hrun as (s2 & Hrun & Hk). rewrite Hrun. split; [reflexivity | exact Hk].
Qed.

End Acquisition.

(** C4 (as amended). [acquireMasterLock] first runs the probe, and when the
    probe returns [false] it returns [false] and leaves every lease row as
    it was. When the probe returns [true] and no store call rejects, it
    follows [master_contract]: [false] with nothing changed when a live
    lease of type execution is found for another holder; otherwise every
    stale lease row is deleted and the call returns [false] when the live
    Master lease found belongs to another holder, refreshes it and returns
    [true] when it belongs to this holder, and inserts a new Master lease
    and returns [true] when none is found. *)
Theorem acquireMasterLock_contract (s : State) :
  (fst (testTelegramConnection s) = Ret false ->
   fst (acquireMasterLock s) = Ret false
   /\ Lock_rows (snd (acquireMasterLock s)) = Lock_rows s)
  /\ (store_script s = [] ->
      fst (testTelegramConnection s) = Ret true ->
      let oid := next_oid (snd (testTelegramConnection s)) in
      fst (acquireMasterLock s)
      = Ret (fst (master_contract (instanceId s) (clock s) oid (Lock_rows s)))
      /\ Lock_rows (snd (acquireMasterLock s))
         = snd (master_contract (instanceId s) (clock s) oid (Lock_rows s))).
Proof.
  split.
  - intros Hb. rewrite (acquireMasterLock_refused_by_probe s Hb). cbn.
    split; [reflexivity|].
    pose proof (keeps_testTelegramConnection s) as (Hrows & _). exact Hrows.
  - intros Hs Hb. exact (acquireMasterLock_quiet s Hs Hb).
Qed.

Lemma acquireMasterLock_contract_witness :
  (fst (acquireMasterLock after_conflict) = Ret false
   /\ Lock_rows (snd (acquireMasterLock after_conflict)) = Lock_rows after_conflict)
  /\ (fst (acquireMasterLock master_behind_gate) = Ret false
      /\ Lock_rows (snd (acquireMasterLock master_behind_gate))
         = Lock_rows master_behind_gate).
Proof.
  split.
  - apply (proj1 (acquireMasterLock_contract after_conflict)). reflexivity.
  - apply (proj2 (acquireMasterLock_contract master_behind_gate));
      reflexivity.
Defined.

(** C4 as stated fails: the probe succeeds and A holds a live Master lease,
    yet the call returns [false] without refreshing it, because B holds a
    live Execution lease. *)
Lemma acquireMaster_counterexample :
  fst (testTelegramConnection master_behind_gate) = Ret true
  /\ acquireMasterLock master_behind_gate
     = (Ret false, snd (testTelegramConnection master_behind_gate))
  /\ ~ acquireMaster_as_stated master_behind_gate.
Proof.
  split; [reflexivity|]. split; [reflexivity|].
  intros H. destruct (H eq_refl) as (_ & Hmine & _).
  destruct (Hmine (Lock.mk 1 "master_lock" "master" "A" 1000000 1000000)
              (or_introl eq_refl) eq_refl eq_refl eq_refl) as [Hret _].
  discriminate Hret.
Qed.

(** C7 (as amended). Whenever the live lease of type execution that
    [acquireMasterLock] finds, the first one in store order, belongs to
    another holder, the call returns [false] and leaves every lease row as
    it was, whatever the probe and the store calls do. *)
Theorem acquireMasterLock_execution_gate (s : State) (active : Lock.t) :
  List.find (fun r => is_execution r && live (clock s) r) (Lock_rows s)
  = Some active ->
  Lock.instance_id active <> instanceId s ->
  fst (acquireMasterLock s) = Ret false
  /\ Lock_rows (snd (acquireMasterLock s)) = Lock_rows s.
Proof.
  intros Hfind Hne.
  destruct (acquireMasterLock_gate s active Hfind Hne) as (s1 & Hrun & Hrows).
  rewrite Hrun. split; [reflexivity | exact Hrows].
Qed.

Lemma acquireMasterLock_execution_gate_witness :
  fst (acquireMasterLock master_behind_gate) = Ret false
  /\ Lock_rows (snd (acquireMasterLock master_behind_gate))
     = Lock_rows master_behind_gate.
Proof.
  apply (acquireMasterLock_execution_gate master_behind_gate
           (Lock.mk 2 "execution_lock" "execution" "B" 1000000 1005000)).
  - reflexivity.
  - discriminate.
Defined.

(** C7 as stated fails: B holds a live Execution lease, but the one found
    first is A's own, so A passes the gate and inserts a Master lease. *)
Lemma execution_gate_counterexample :
  fst (acquireMasterLock split_brain) = Ret true
  /\ Lock_rows (snd (acquireMasterLock split_brain))
     = Lock_rows split_brain
         ++ [Lock.mk 101 "master_lock" "master" "A" 1010000 1010000]
  /\ ~ execution_gate_as_stated split_brain.
Proof.
  split; [reflexivity|]. split; [reflexivity|].
  intros H.
  destruct H as [Hret _].
  - exists (Lock.mk 2 "execution_lock" "execution" "B" 1000000 1005000).
    split; [right; left; reflexivity|].
    split; [reflexivity|]. split; [reflexivity | discriminate].
  - discriminate Hret.
Qed.

(** ** The time to live of a lease *)

Section TimeToLive.

Lemma live_iff now r :
  live now r = true <-> now - Lock.last_heartbeat r < 180000.
Proof.
  unfold live, heartbeat_after, GLOBAL_LOCK_TIMEOUT.
  rewrite Z.gtb_ltb, Z.ltb_lt. lia.
Qed.

Lemma stale_iff now r :
  stale now r = true <-> 180000 < now - Lock.last_heartbeat r.
Proof.
  unfold stale, heartbeat_before, GLOBAL_LOCK_TIMEOUT.
  rewrite Z.ltb_lt. lia.
Qed.

Lemma not_live_iff now r :
  live now r = false <-> 180000 <= now - Lock.last_heartbeat r.
Proof.
  unfold live, heartbeat_after, GLOBAL_LOCK_TIMEOUT.
  rewrite Z.gtb_ltb, Z.ltb_ge. lia.
Qed.

Lemma live_not_stale now r : live now r = true -> stale now r = false.
Proof.
  intros H. apply live_iff in H.
  destruct (stale now r) eqn:E; [|reflexivity].
  apply stale_iff in E. lia.
Qed.

(** No live row of kind [kind] among [rows], in terms of [find]. *)
Lemma find_live_none kind now rows :
  List.find (fun r => kind r && live now r) rows = None
  <-> forall r, In r rows -> kind r = true ->
        180000 <= now - Lock.last_heartbeat r.
Proof.
  rewrite find_none_iff. split.
  - intros H r Hin Hk. apply not_live_iff.
    specialize (H r Hin). rewrite Hk in H. exact H.
  - intros H r Hin. destruct (kind r) eqn:Hk; [|reflexivity].
    cbn. apply not_live_iff. exact (H r Hin Hk).
Qed.

Lemma find_live_kept kind now rows :
  List.find (fun r => kind r && live now r) (nfilter (stale now) rows) = None
  <-> List.find (fun r => kind r && live now r) rows = None.
Proof.
  rewrite !find_none_iff. split.
  - intros H r Hin.
    destruct (kind r && live now r) eqn:E; [|reflexivity].
    rewrite <- E. apply H. apply In_nfilter. split; [exact Hin|].
    apply live_not_stale. apply andb_true_iff in E. apply E.
  - intros H r Hin. apply In_nfilter in Hin. apply H. apply Hin.
Qed.

End TimeToLive.

(** C9. A lease row is live exactly while less than 180000 ms have passed
    since its last heartbeat, and stale, hence deleted by the expired-lock
    removal of an acquisition, exactly when more than 180000 ms have
    passed. So, when the probe succeeds and no store call rejects, a holder
    facing Execution leases (resp. Master leases, the execution gate being
    open) of other holders only acquires the lease exactly when 180000 ms
    or more have passed since the last heartbeat of each of them; and of
    the rows present before a successful acquisition, those that remain
    are exactly the ones not older than 180000 ms (for the Execution
    lease: among the Execution lease rows). *)
Theorem lease_ttl_exact :
  (forall now r, live now r = true <-> now - Lock.last_heartbeat r < 180000)
  /\ (forall now r, stale now r = true <-> 180000 < now - Lock.last_heartbeat r)
  /\ (forall s,
        store_script s = [] ->
        fst (testTelegramConnection s) = Ret true ->
        (forall r, In r (Lock_rows s) -> is_execution_lock r = true ->
                   Lock.instance_id r <> instanceId s) ->
        (fst (acquireExecutionLock s) = Ret true
         <-> forall r, In r (Lock_rows s) -> is_execution_lock r = true ->
               180000 <= clock s - Lock.last_heartbeat r)
        /\ (fst (acquireExecutionLock s) = Ret true ->
            forall r, In r (Lock_rows s) ->
              (In r (Lock_rows (snd (acquireExecutionLock s)))
               <-> ~ (is_execution_lock r = true
                      /\ 180000 < clock s - Lock.last_heartbeat r))))
  /\ (forall s,
        store_script s = [] ->
        fst (testTelegramConnection s) = Ret true ->
        (forall r, In r (Lock_rows s) -> is_execution r = true ->
                   live (clock s) r = true -> Lock.instance_id r = instanceId s) ->
        (forall r, In r (Lock_rows s) -> is_master r = true ->
                   Lock.instance_id r <> instanceId s) ->
        (fst (acquireMasterLock s) = Ret true
         <-> forall r, In r (Lock_rows s) -> is_master r = true ->
               180000 <= clock s - Lock.last_heartbeat r)
        /\ (fst (acquireMasterLock s) = Ret true ->
            forall r, In r (Lock_rows s) ->
              (In r (Lock_rows (snd (acquireMasterLock s)))
               <-> ~ 180000 < clock s - Lock.last_heartbeat r))).
Proof.
  split; [exact live_iff|]. split; [exact stale_iff|]. split.
  - intros s Hs Hb Hothers.
    destruct (acquireExecutionLock_quiet s Hs Hb) as [Hret Hrows].
    rewrite Hret, Hrows. unfold execution_contract.
    destruct (List.find (fun r => is_execution_lock r && live (clock s) r)
                (Lock_rows s)) as [found|] eqn:Hfind.
    + apply find_some in Hfind. destruct Hfind as [Hin Hp].
      apply andb_true_iff in Hp. destruct Hp as [Hk Hl].
      destruct (String.eqb_spec (Lock.instance_id found) (instanceId s)) as [E|_];
        [exfalso; exact (Hothers found Hin Hk E)|].
      cbn. split.
      * split; [discriminate|].
        intros H. specialize (H found Hin Hk). apply live_iff in Hl. lia.
      * discriminate.
    + cbn. split.
      * split; [intros _; apply find_live_none; exact Hfind | reflexivity].
      * intros _ r Hin. rewrite in_app_iff, In_nfilter. split.
        -- intros [[_ Hf]|[Hnew|[]]] [Hk Hst].
           ++ apply stale_iff in Hst. rewrite Hk, Hst in Hf. discriminate Hf.
           ++ subst r. cbn in Hst. lia.
        -- intros Hn. left. split; [exact Hin|].
           destruct (is_execution_lock r) eqn:Hk; [|reflexivity].
           destruct (stale (clock s) r) eqn:Hst; [|reflexivity].
           exfalso. apply Hn. split; [reflexivity | apply stale_iff; exact Hst].
  - intros s Hs Hb Hgate Hothers.
    destruct (acquireMasterLock_quiet s Hs Hb) as [Hret Hrows].
    rewrite Hret, Hrows. unfold master_contract.
    assert (Hclaim :
      match List.find (fun r => is_execution r && live (clock s) r) (Lock_rows s) with
      | Some active => String.eqb (Lock.instance_id active) (instanceId s) = true
      | None => True
      end).
    { destruct (List.find _ (Lock_rows s)) as [active|] eqn:Hfind; [|exact I].
      apply find_some in Hfind. destruct Hfind as [Hin Hp].
      apply andb_true_iff in Hp. destruct Hp as [Hk Hl].
      apply String.eqb_eq. exact (Hgate active Hin Hk Hl). }
    assert (Hcase :
      forall res,
        res = (match List.find (fun r => is_master r && live (clock s) r)
                       (nfilter (stale (clock s)) (Lock_rows s)) with
               | Some found =>
                   if String.eqb (Lock.instance_id found) (instanceId s)
                   then (true,
                         LockModel.replace
                           (Lock.set_last_heartbeat found (clock s))
                           (nfilter (stale (clock s)) (Lock_rows s)))
                   else (false, nfilter (stale (clock s)) (Lock_rows s))
               | None =>
                   (true,
                    nfilter (stale (clock s)) (Lock_rows s)
                      ++ [Lock.mk (next_oid (snd (testTelegramConnection s)))
                            "master_lock" "master" (instanceId s) (clock s)
                            (clock s)])
               end) ->
        (Ret (fst res) = Ret true
         <-> forall r, In r (Lock_rows s) -> is_master r = true ->
               180000 <= clock s - Lock.last_heartbeat r)
        /\ (Ret (fst res) = Ret true ->
            forall r, In r (Lock_rows s) ->
              (In r (snd res) <-> ~ 180000 < clock s - Lock.last_heartbeat r))).
    { intros res Hres.
      destruct (List.find (fun r => is_master r && live (clock s) r)
                  (nfilter (stale (clock s)) (Lock_rows s))) as [found|] eqn:Hfind.
      - apply find_some in Hfind. destruct Hfind as [Hin Hp].
        apply In_nfilter in Hin. destruct Hin as [Hin _].
        apply andb_true_iff in Hp. destruct Hp as [Hk Hl].
        destruct (String.eqb_spec (Lock.instance_id found) (instanceId s)) as [E|_];
          [exfalso; exact (Hothers found Hin Hk E)|].
        subst res. cbn. split.
        + split; [discriminate|].
          intros H. specialize (H found Hin Hk). apply live_iff in Hl. lia.
        + discriminate.
      - subst res. cbn. split.
        + split; [|reflexivity].
          intros _. apply find_live_none. apply find_live_kept. exact Hfind.
        + intros _ r Hin. rewrite in_app_iff, In_nfilter. split.
          * intros [[_ Hf]|[Hnew|[]]] Hst.
            -- apply stale_iff in Hst. rewrite Hst in Hf. discriminate Hf.
            -- subst r. cbn in Hst. lia.
          * intros Hn. left. split; [exact Hin|].
            destruct (stale (clock s) r) eqn:Hst; [|reflexivity].
            exfalso. apply Hn. apply stale_iff. exact Hst. }
    destruct (List.find (fun r => is_execution r && live (clock s) r) (Lock_rows s))
      as [active|].
    + rewrite Hclaim. apply Hcase. reflexivity.
    + apply Hcase. reflexivity.
Qed.

(** B's Execution lease, and B's Master lease, are reclaimed by A when
    exactly 180000 ms have passed since B's last heartbeat. *)
Lemma lease_ttl_exact_witness :
  (fst (acquireExecutionLock (abandoned_by_B 1180000)) = Ret true
   <-> forall r, In r (Lock_rows (abandoned_by_B 1180000)) ->
         is_execution_lock r = true ->
         180000 <= clock (abandoned_by_B 1180000) - Lock.last_heartbeat r)
  /\ (fst (acquireMasterLock (master_abandoned_by_B 1180000)) = Ret true
      <-> forall r, In r (Lock_rows (master_abandoned_by_B 1180000)) ->
            is_master r = true ->
            180000 <= clock (master_abandoned_by_B 1180000) - Lock.last_heartbeat r).
Proof.
  split.
  - apply (proj1 (proj2 (proj2 lease_ttl_exact)) (abandoned_by_B 1180000)).
    + reflexivity.
    + reflexivity.
    + intros r [Hr|[]] _. subst r. discriminate.
  - apply (proj2 (proj2 (proj2 lease_ttl_exact)) (master_abandoned_by_B 1180000)).
    + reflexivity.
    + reflexivity.
    + intros r [Hr|[]] Hk. subst r. discriminate Hk.
    + intros r [Hr|[]] _. subst r. discriminate.
Defined.

(** One millisecond earlier A is refused, at 180000 ms it is granted. *)
Lemma lease_reclaimed_on_time :
  fst (acquireExecutionLock (abandoned_by_B 1179999)) = Ret false
  /\ fst (acquireExecutionLock (abandoned_by_B 1180000)) = Ret true.
Proof. split; reflexivity. Qed.

(** ** The ceiling on task locks *)

Section Ceiling.

Lemma acquireTaskLock_quiet_probe (timeoutMs : Z) (s : State) :
  store_script s = [] ->
  acquireTaskLock "telegram_test" timeoutMs s
  = let rows :=
      nfilter (telegram_test_before (clock s - 60000)) (TaskLock_rows s) in
    match List.find (unexpired "telegram_test" (clock s)) rows with
    | Some _ =>
        (Ret refused,
         set_TaskLock_rows rows (set_next_uuid (N.succ (next_uuid s)) s))
    | None =>
        (Ret (mkResult true
                (Some (mkLockId "telegram_test" (clock s) (next_uuid s)))),
         granted "telegram_test" timeoutMs rows s)
    end.
Proof.
  intros Hs. unfold acquireTaskLock. cbv zeta.
  destruct (List.find (unexpired "telegram_test" (clock s))
              (nfilter (telegram_test_before (clock s - 60000)) (TaskLock_rows s)))
    as [existing|] eqn:Hfind.
  - apply try_catch_ret.
    do 3 step. cbn [String.eqb Ascii.eqb Bool.eqb]. unfold when.
    rewrite bind_assoc. step. rewrite bind_assoc. do 4 step.
    cbn [TaskLock_rows set_TaskLock_rows clock set_next_uuid]. rewrite Hfind.
    apply find_some in Hfind. destruct Hfind as [Hin Hp].
    apply In_nfilter in Hin. destruct Hin as [_ Hyoung].
    unfold unexpired in Hp. apply andb_true_iff in Hp. destruct Hp as [Hname _].
    unfold telegram_test_before in Hyoung. rewrite Hname in Hyoung.
    cbn in Hyoung. apply Z.ltb_ge in Hyoung.
    step.
    assert (Hage : (clock s - TaskLock.created_at existing >? 60000) = false).
    { rewrite Z.gtb_ltb. apply Z.ltb_ge. cbn in Hyoung. lia. }
    cbn [clock set_TaskLock_rows set_next_uuid]. rewrite Hage. reflexivity.
  - apply try_catch_ret.
    do 3 step. cbn [String.eqb Ascii.eqb Bool.eqb]. unfold when.
    rewrite bind_assoc. step. rewrite bind_assoc. do 4 step.
    cbn [TaskLock_rows set_TaskLock_rows clock set_next_uuid]. rewrite Hfind.
    do 3 step. reflexivity.
Qed.

Lemma cleanupTelegramTestLocks_quiet (s : State) :
  store_script s = [] ->
  exists n,
    cleanupTelegramTestLocks s
    = (Ret n,
       set_TaskLock_rows
         (nfilter (telegram_test_before (clock s - 120000))
            (nfilter
               (fun r => String.eqb (TaskLock.task_name r) "telegram_test"
                         && (TaskLock.expires_at r <? clock s))
               (TaskLock_rows s))) s).
Proof.
  intros Hs. unfold cleanupTelegramTestLocks. eexists.
  apply try_catch_ret. do 4 step. reflexivity.
Qed.

Lemma cleanupExpiredTaskLocks_quiet (s : State) :
  store_script s = [] ->
  TaskLock_rows (snd (cleanupExpiredTaskLocks s))
  = nfilter (telegram_test_before (clock s - 120000))
      (nfilter
         (fun r => String.eqb (TaskLock.task_name r) "telegram_test"
                   && (TaskLock.expires_at r <? clock s))
         (nfilter (fun r => TaskLock.expires_at r <? clock s) (TaskLock_rows s))).
Proof.
  intros Hs. unfold cleanupExpiredTaskLocks, try_catch.
  do 2 step.
  match goal with
  | |- context [bind cleanupTelegramTestLocks _ ?st] =>
      destruct (cleanupTelegramTestLocks_quiet st Hs) as [n Hn]
  end.
  erewrite bind_ret by exact Hn. reflexivity.
Qed.

End Ceiling.

(** C2 (as amended). The ceiling holds for the probe task only. When no
    store call rejects, a [telegram_test] lock older than two minutes is
    deleted by the next acquisition of [telegram_test] and by the next
    sweep even if it has not expired, and that acquisition is granted, with
    a fresh lock in the collection, provided no unexpired [telegram_test]
    lock younger than one minute is present. A lock of any other task that
    has not expired makes the acquisition for its task fail and is left in
    place by the acquisition and by the sweep, however old it is. *)
Theorem task_lock_ceiling :
  (forall s r timeoutMs,
     store_script s = [] ->
     In r (TaskLock_rows s) ->
     TaskLock.task_name r = "telegram_test" ->
     TaskLock.created_at r < clock s - 120000 ->
     let res := acquireTaskLock "telegram_test" timeoutMs s in
     ~ In r (TaskLock_rows (snd res))
     /\ ((forall r', In r' (TaskLock_rows s) ->
            TaskLock.task_name r' = "telegram_test" ->
            clock s - 60000 <= TaskLock.created_at r' ->
            TaskLock.expires_at r' <= clock s) ->
         fst res
         = Ret (mkResult true
                  (Some (mkLockId "telegram_test" (clock s) (next_uuid s))))
         /\ In (TaskLock.mk (next_oid s) "telegram_test"
                  (mkLockId "telegram_test" (clock s) (next_uuid s))
                  (instanceId s) (clock s) (clock s + timeoutMs))
              (TaskLock_rows (snd res)))
     /\ ~ In r (TaskLock_rows (snd (cleanupExpiredTaskLocks s))))
  /\ (forall s r timeoutMs,
        store_script s = [] ->
        In r (TaskLock_rows s) ->
        TaskLock.task_name r <> "telegram_test" ->
        clock s < TaskLock.expires_at r ->
        let res := acquireTaskLock (TaskLock.task_name r) timeoutMs s in
        fst res = Ret refused
        /\ In r (TaskLock_rows (snd res))
        /\ In r (TaskLock_rows (snd (cleanupExpiredTaskLocks s)))).
Proof.
  split.
  - intros s r timeoutMs Hs Hin Hname Hold res. subst res.
    rewrite (acquireTaskLock_quiet_probe timeoutMs s Hs). cbv zeta.
    assert (Hgone :
      ~ In r (nfilter (telegram_test_before (clock s - 60000)) (TaskLock_rows s))).
    { intros H. apply In_nfilter in H. destruct H as [_ H].
      unfold telegram_test_before in H. rewrite Hname in H. cbn in H.
      apply Z.ltb_ge in H. lia. }
    split; [|split].
    + destruct (List.find _ _) as [existing|]; cbn.
      * exact Hgone.
      * rewrite in_app_iff. intros [H|[H|[]]]; [exact (Hgone H)|].
        subst r. cbn in Hold. lia.
    + intros Hfree.
      assert (Hnone :
        List.find (unexpired "telegram_test" (clock s))
          (nfilter (telegram_test_before (clock s - 60000)) (TaskLock_rows s))
        = None).
      { apply find_none_iff. intros x Hx. apply In_nfilter in Hx.
        destruct Hx as [Hx Hyoung]. unfold unexpired.
        destruct (String.eqb_spec (TaskLock.task_name x) "telegram_test") as [E|_];
          [|reflexivity].
        cbn. unfold telegram_test_before in Hyoung. rewrite E in Hyoung.
        cbn in Hyoung. apply Z.ltb_ge in Hyoung.
        rewrite Z.gtb_ltb. apply Z.ltb_ge. apply (Hfree x Hx E). lia. }
      rewrite Hnone. cbn. split; [reflexivity|].
      rewrite in_app_iff. right. left. reflexivity.
    + rewrite (cleanupExpiredTaskLocks_quiet s Hs). intros H.
      apply In_nfilter in H. destruct H as [_ H].
      unfold telegram_test_before in H. rewrite Hname in H. cbn in H.
      apply Z.ltb_ge in H. lia.
  - intros s r timeoutMs Hs Hin Hname Hlive res. subst res.
    assert (Hn : String.eqb (TaskLock.task_name r) "telegram_test" = false)
      by (apply String.eqb_neq; exact Hname).
    rewrite (acquireTaskLock_quiet_job (TaskLock.task_name r) timeoutMs s Hn Hs).
    destruct (List.find (unexpired (TaskLock.task_name r) (clock s))
                (TaskLock_rows s)) as [existing|] eqn:Hfind.
    + cbn. split; [reflexivity|]. split; [exact Hin|].
      rewrite (cleanupExpiredTaskLocks_quiet s Hs).
      apply In_nfilter. split.
      * apply In_nfilter. split.
        -- apply In_nfilter. split; [exact Hin|]. apply Z.ltb_ge. lia.
        -- rewrite Hn. reflexivity.
      * unfold telegram_test_before. rewrite Hn. reflexivity.
    + exfalso. rewrite find_none_iff in Hfind. specialize (Hfind r Hin).
      unfold unexpired in Hfind. rewrite String.eqb_refl in Hfind. cbn in Hfind.
      rewrite Z.gtb_ltb in Hfind. apply Z.ltb_ge in Hfind. lia.
Qed.

Lemma task_lock_ceiling_witness :
  (~ In (TaskLock.mk 1 "telegram_test" (mkLockId "telegram_test" 1000000 3%N)
           "B" 1000000 1600000)
        (TaskLock_rows (snd (acquireTaskLock "telegram_test" 20000 long_probe)))
   /\ fst (acquireTaskLock "telegram_test" 20000 long_probe)
      = Ret (mkResult true (Some (mkLockId "telegram_test" 1130000 0%N))))
  /\ fst (acquireTaskLock "check_expired_sessions" 60000 long_job) = Ret refused.
Proof.
  split.
  - pose proof
      (proj1 task_lock_ceiling long_probe
         (TaskLock.mk 1 "telegram_test" (mkLockId "telegram_test" 1000000 3%N)
            "B" 1000000 1600000) 20000 eq_refl (or_introl eq_refl) eq_refl
         eq_refl) as H.
    cbv zeta in H. destruct H as (Hgone & Hgrant & _).
    split; [exact Hgone|].
    apply Hgrant. intros r' [Hr|[]] _ Hyoung. subst r'. cbn in Hyoung. lia.
  - pose proof
      (proj2 task_lock_ceiling long_job
         (TaskLock.mk 1 "check_expired_sessions"
            (mkLockId "check_expired_sessions" 1000000 3%N) "B" 1000000 1600000)
         60000 eq_refl (or_introl eq_refl)) as H.
    cbv zeta in H. apply H.
    + discriminate.
    + reflexivity.
Defined.

(** C2 as stated fails: the lock of [check_expired_sessions] is 130 seconds
    old, yet the acquisition for that task is refused and neither the
    acquisition nor the sweep deletes it. *)
Lemma ceiling_counterexample :
  store_script long_job = []
  /\ fst (acquireTaskLock "check_expired_sessions" 60000 long_job) = Ret refused
  /\ TaskLock_rows (snd (cleanupExpiredTaskLocks long_job)) = TaskLock_rows long_job
  /\ ~ ceiling_as_stated long_job.
Proof.
  split; [reflexivity|]. split; [reflexivity|]. split; [reflexivity|].
  intros H.
  destruct (H (TaskLock.mk 1 "check_expired_sessions"
                 (mkLockId "check_expired_sessions" 1000000 3%N) "B" 1000000
                 1600000) 60000 (or_introl eq_refl) eq_refl) as [_ Hsweep].
  apply Hsweep. left. reflexivity.
Qed.

(** ** Exclusive execution *)

(** C3. [executeWithLock] first tries to acquire the task lock, which never
    throws. When the acquisition is refused it returns [null] from the
    state the acquisition left, whatever [taskFunction] is: the function is
    not run. When the lock is granted, [taskFunction] is run once, from the
    state the acquisition left; [releaseTaskLock] is then run on the state
    the function left, whether it returned or threw, and deletes the record
    of the acquisition when its store call does not reject; after that the
    result of the function is returned, or its exception thrown again. *)
Theorem executeWithLock_contract {A} (taskName : string)
    (taskFunction : M State A) (timeoutMs : Z) (s : State) :
  exists r s1,
    acquireTaskLock taskName timeoutMs s = (Ret r, s1)
    /\ match success r, lockId r with
       | true, Some lid =>
           exists released s3,
             releaseTaskLock taskName lid (snd (taskFunction s1))
             = (Ret released, s3)
             /\ (store_script (snd (taskFunction s1)) = [] ->
                 TaskLock_rows s3
                 = remove_first (acquisition taskName lid)
                     (TaskLock_rows (snd (taskFunction s1))))
             /\ executeWithLock taskName taskFunction timeoutMs s
                = (match fst (taskFunction s1) with
                   | Ret v => Ret (Some v)
                   | Throw error => Throw error
                   end, s3)
       | _, _ =>
           executeWithLock taskName taskFunction timeoutMs s = (Ret None, s1)
       end.
Proof.
  destruct (acquireTaskLock_total taskName timeoutMs s) as (r & s1 & Ha).
  exists r, s1. split; [exact Ha|].
  destruct r as [ok lid]. cbn [success lockId].
  destruct ok; [destruct lid as [lid|]|].
  - destruct (taskFunction s1) as [o s2] eqn:Hf. cbn [fst snd].
    destruct (releaseTaskLock_total taskName lid s2) as (b & s3 & Hr).
    exists b, s3. split; [exact Hr|]. split.
    + intros Hq. rewrite (releaseTaskLock_quiet taskName lid s2 Hq) in Hr.
      inversion Hr. reflexivity.
    + destruct o as [v|e].
      * exact (executeWithLock_held_ret taskName taskFunction timeoutMs
                 s s1 s2 s3 lid v b Ha Hf Hr).
      * exact (executeWithLock_held_throw taskName taskFunction timeoutMs
                 s s1 s2 s3 lid e b Ha Hf Hr).
  - apply (executeWithLock_refused taskName taskFunction timeoutMs s s1 _ Ha).
    right. reflexivity.
  - apply (executeWithLock_refused taskName taskFunction timeoutMs s s1 _ Ha).
    left. reflexivity.
Qed.

(** A failing task function is run once when the lock is free, its
    exception comes back and the lock record is gone; it is not run when
    the lock is busy. *)
Lemma executeWithLock_runs_once :
  (let res := executeWithLock "check_expired_sessions" failing_task 60000
                (boot "A" 1000000 [] []) in
   fst res = Throw (mkError "EFATAL" "job failed")
   /\ getMe_calls (snd res) = 1%nat
   /\ TaskLock_rows (snd res) = [])
  /\ (let res := executeWithLock "check_expired_sessions" failing_task 60000
                   long_job in
      fst res = Ret None
      /\ getMe_calls (snd res) = 0%nat
      /\ TaskLock_rows (snd res) = TaskLock_rows long_job).
Proof. repeat split. Qed.

(** ** Releasing everything *)

Section ReleaseAll.

Lemma checkLockFile_quiet s :
  fs_script s = [] ->
  LocalLockManager.checkLockFile s
  = (Ret (match lock_file s with
          | Some (Marker owner _ _) => String.eqb owner (instanceId s)
          | _ => false
          end),
     set_lockCheckCount (S (lockCheckCount s)) s).
Proof.
  intros Hf. unfold LocalLockManager.checkLockFile. apply try_catch_ret.
  do 2 step. cbn [lock_file set_lockCheckCount].
  destruct (lock_file s) as [[owner created p|]|].
  - do 2 step. cbn [instanceId set_lockCheckCount].
    destruct (String.eqb owner (instanceId s)); reflexivity.
  - step. reflexivity.
  - reflexivity.
Qed.

Lemma removeLockFile_quiet s :
  fs_script s = [] ->
  exists s1,
    LocalLockManager.removeLockFile s = (Ret (match lock_file s with
          | Some (Marker owner _ _) => String.eqb owner (instanceId s)
          | _ => false
          end), s1)
    /\ lock_file s1 = marker_left (instanceId s) (lock_file s)
    /\ Lock_rows s1 = Lock_rows s
    /\ TaskLock_rows s1 = TaskLock_rows s
    /\ instanceId s1 = instanceId s
    /\ store_script s1 = store_script s
    /\ fs_script s1 = fs_script s.
Proof.
  intros Hf. unfold LocalLockManager.removeLockFile.
  unfold try_catch. erewrite bind_ret by (apply checkLockFile_quiet; exact Hf).
  unfold marker_left.
  destruct (lock_file s) as [[owner created p|]|] eqn:Hfile.
  - destruct (String.eqb owner (instanceId s)).
    + do 3 step. eexists. split; [reflexivity|]. cbn. repeat split.
    + eexists. split; [reflexivity|]. cbn. repeat split. exact Hfile.
  - eexists. split; [reflexivity|]. cbn. repeat split. exact Hfile.
  - eexists. split; [reflexivity|]. cbn. repeat split. exact Hfile.
Qed.

Lemma releaseAllLocks_quiet s :
  quiet s ->
  exists s1,
    releaseAllLocks s = (Ret true, s1)
    /\ Lock_rows s1
       = nfilter (fun r => String.eqb (Lock.instance_id r) (instanceId s))
           (Lock_rows s)
    /\ TaskLock_rows s1
       = nfilter (fun r => String.eqb (TaskLock.instance_id r) (instanceId s))
           (TaskLock_rows s)
    /\ lock_file s1 = marker_left (instanceId s) (lock_file s)
    /\ instanceId s1 = instanceId s
    /\ quiet s1.
Proof.
  intros [Hs Hf]. unfold releaseAllLocks, try_catch.
  do 3 step.
  match goal with
  | |- context [bind LocalLockManager.removeLockFile _ ?st] =>
      destruct (removeLockFile_quiet st Hf)
        as (s1 & Hrun & Hfile & Hl & Ht & Hme & Hss & Hfs)
  end.
  erewrite bind_ret by exact Hrun.
  exists s1. split; [reflexivity|].
  cbn in Hfile, Hl, Ht, Hme, Hss, Hfs.
  repeat split; try assumption; congruence.
Qed.

Lemma nfilter_idem {A} (p : A -> bool) (l : list A) :
  nfilter p (nfilter p l) = nfilter p l.
Proof. apply nfilter_absorb. intros x Hx. exact Hx. Qed.

Lemma marker_left_idem me file :
  marker_left me (marker_left me file) = marker_left me file.
Proof.
  unfold marker_left. destruct file as [[owner created p|]|]; try reflexivity.
  destruct (String.eqb owner me) eqn:E; [reflexivity|]. rewrite E. reflexivity.
Qed.

End ReleaseAll.

(** C6 (as amended). [releaseAllLocks] never throws. When no store call and
    no file system call rejects it returns [true], deletes exactly the lease
    rows and the task-lock rows of this holder, and removes the marker file
    when the file records this holder (a file that records another holder,
    or cannot be parsed, is left in place); a second call right after the
    first returns [true] again and changes none of these. *)
Theorem releaseAllLocks_idempotent (s : State) :
  (exists b s1, releaseAllLocks s = (Ret b, s1))
  /\ (quiet s ->
      let s1 := snd (releaseAllLocks s) in
      let s2 := snd (releaseAllLocks s1) in
      fst (releaseAllLocks s) = Ret true
      /\ fst (releaseAllLocks s1) = Ret true
      /\ Lock_rows s1
         = nfilter (fun r => String.eqb (Lock.instance_id r) (instanceId s))
             (Lock_rows s)
      /\ TaskLock_rows s1
         = nfilter (fun r => String.eqb (TaskLock.instance_id r) (instanceId s))
             (TaskLock_rows s)
      /\ (forall r, In r (Lock_rows s1) -> Lock.instance_id r <> instanceId s)
      /\ (forall r, In r (TaskLock_rows s1) ->
                    TaskLock.instance_id r <> instanceId s)
      /\ lock_file s1 = marker_left (instanceId s) (lock_file s)
      /\ Lock_rows s2 = Lock_rows s1
      /\ TaskLock_rows s2 = TaskLock_rows s1
      /\ lock_file s2 = lock_file s1).
Proof.
  split; [apply try_catch_total|].
  intros Hq s1 s2. subst s1 s2.
  destruct (releaseAllLocks_quiet s Hq) as (s1 & Hrun & Hl & Ht & Hfile & Hme & Hq1).
  rewrite Hrun. cbn [fst snd].
  destruct (releaseAllLocks_quiet s1 Hq1) as (s2 & Hrun2 & Hl2 & Ht2 & Hfile2 & _).
  rewrite Hrun2. cbn [fst snd].
  rewrite Hme in Hl2, Ht2, Hfile2.
  split; [reflexivity|]. split; [reflexivity|].
  split; [exact Hl|]. split; [exact Ht|].
  split.
  { intros r Hin. rewrite Hl in Hin. apply In_nfilter in Hin.
    apply String.eqb_neq. apply Hin. }
  split.
  { intros r Hin. rewrite Ht in Hin. apply In_nfilter in Hin.
    apply String.eqb_neq. apply Hin. }
  split; [exact Hfile|].
  split; [rewrite Hl2, Hl; apply nfilter_idem|].
  split; [rewrite Ht2, Ht; apply nfilter_idem|].
  rewrite Hfile2, Hfile. apply marker_left_idem.
Qed.

Lemma releaseAllLocks_idempotent_witness :
  fst (releaseAllLocks own_marker) = Ret true
  /\ fst (releaseAllLocks (snd (releaseAllLocks own_marker))) = Ret true
  /\ lock_file (snd (releaseAllLocks own_marker)) = None.
Proof.
  pose proof (proj2 (releaseAllLocks_idempotent own_marker)
                (conj eq_refl eq_refl)) as H.
  cbv zeta in H. destruct H as (H1 & H2 & _ & _ & _ & _ & H3 & _).
  split; [exact H1|]. split; [exact H2 | exact H3].
Defined.

(** C6 as stated fails on the marker: the rows of A are gone, but the
    marker file, which records B, is still there. *)
Lemma releaseAll_counterexample :
  quiet foreign_marker
  /\ fst (releaseAllLocks foreign_marker) = Ret true
  /\ lock_file (snd (releaseAllLocks foreign_marker))
     = Some (Marker "B" 900000 4000)
  /\ ~ releaseAll_as_stated foreign_marker.
Proof.
  split; [split; reflexivity|]. split; [reflexivity|]. split; [reflexivity|].
  intros H. destruct (H (conj eq_refl eq_refl)) as (_ & _ & Hfile).
  discriminate Hfile.
Qed.

(** ** The cooldown of the controller *)

Section Cooldown.

Lemma attempt_frame_refl a : attempt_frame a a.
Proof. split; reflexivity. Qed.

Lemma attempt_frame_trans a b c :
  attempt_frame a b -> attempt_frame b c -> attempt_frame a c.
Proof. unfold attempt_frame. intuition congruence. Qed.

Lemma keeps_attempt_lift {A} (m : M State A) : keeps attempt_frame (lift m).
Proof.
  intros a. unfold lift. destruct (m (lockManager a)) as [o s].
  split; reflexivity.
Qed.

Lemma keeps_attempt_add_timer again cb d :
  keeps attempt_frame (add_timer again cb d).
Proof. intros a. split; reflexivity. Qed.

Lemma keeps_attempt_clearInterval h : keeps attempt_frame (clearInterval h).
Proof. intros a. split; reflexivity. Qed.

Lemma keeps_attempt_set_execution v :
  keeps attempt_frame (modify (set_executionLockHeartbeatInterval v)).
Proof. intros a. split; reflexivity. Qed.

Lemma keeps_attempt_set_lockCheck v :
  keeps attempt_frame (modify (set_lockCheckInterval v)).
Proof. intros a. split; reflexivity. Qed.

#[local] Hint Resolve keeps_attempt_lift keeps_attempt_add_timer
  keeps_attempt_clearInterval keeps_attempt_set_execution
  keeps_attempt_set_lockCheck : frames.

Ltac keeps_attempt := keeps_by attempt_frame_refl attempt_frame_trans.

Lemma keeps_attempt_setTimeout cb d : keeps attempt_frame (setTimeout cb d).
Proof. unfold setTimeout. keeps_attempt. Qed.

Lemma keeps_attempt_setInterval cb d : keeps attempt_frame (setInterval cb d).
Proof. unfold setInterval. keeps_attempt. Qed.

#[local] Hint Resolve keeps_attempt_setTimeout keeps_attempt_setInterval
  : frames.

Lemma keeps_attempt_tail :
  keeps attempt_frame
    (try_catch acquireExecutionLock_attempt acquireExecutionLock_catch).
Proof.
  unfold acquireExecutionLock_attempt, acquireExecutionLock_catch,
    startExecutionLockHeartbeat, startLockCheck.
  keeps_attempt.
Qed.

(** The entry point within the cooldown. *)
Lemma acquireExecutionLock_too_soon a :
  isShuttingDown a = false ->
  clock (lockManager a) - lastConnectionAttemptTime a
    < CONNECTION_ATTEMPT_COOLDOWN ->
  exists jitter a0,
    0 <= jitter < 5000
    /\ lockManager a0 = lockManager a
    /\ attempt_frame a a0
    /\ timers a0 = timers a
    /\ AppManager.acquireExecutionLock a
       = (Ret tt,
          set_next_handle (S (next_handle a))
            (set_timers
               (timers a
                  ++ [mkTimer (next_handle a) false
                        (timer_delay
                           (CONNECTION_ATTEMPT_COOLDOWN
                            - (clock (lockManager a)
                               - lastConnectionAttemptTime a) + jitter))
                        acquireExecutionLock_unless_shutdown]) a0)).
Proof.
  intros Hrun Hsoon. unfold AppManager.acquireExecutionLock.
  erewrite bind_ret by reflexivity. rewrite Hrun.
  unfold try_catch.
  do 2 (erewrite bind_ret by reflexivity; cbn beta).
  cbn [lastConnectionAttemptTime set_lockManager].
  apply Z.ltb_lt in Hsoon. rewrite Hsoon. cbv zeta.
  unfold random_below, setTimeout, add_timer, bind.
  cbn [random_script set_lockManager].
  destruct (random_script a) as [|r rest].
  - exists 0, (set_lockManager (lockManager a) a).
    split; [lia|]. repeat split.
  - exists (r mod 5000), (set_random_script rest (set_lockManager (lockManager a) a)).
    split; [apply Z.mod_pos_bound; lia|]. repeat split.
Qed.

(** The entry point outside the cooldown. *)
Lemma acquireExecutionLock_due a :
  isShuttingDown a = false ->
  CONNECTION_ATTEMPT_COOLDOWN
    <= clock (lockManager a) - lastConnectionAttemptTime a ->
  exists o a1,
    AppManager.acquireExecutionLock a = (o, a1)
    /\ lastConnectionAttemptTime a1 = clock (lockManager a)
    /\ acquireExecution_calls a1
       = clock (lockManager a) :: acquireExecution_calls a.
Proof.
  intros Hrun Hdue. unfold AppManager.acquireExecutionLock.
  erewrite bind_ret by reflexivity. rewrite Hrun.
  unfold try_catch at 1.
  do 2 (erewrite bind_ret by reflexivity; cbn beta).
  cbn [lastConnectionAttemptTime set_lockManager].
  apply Z.ltb_ge in Hdue. rewrite Hdue.
  do 2 (erewrite bind_ret by reflexivity; cbn beta).
  match goal with
  | |- context [acquireExecutionLock_attempt ?st] =>
      pose proof (keeps_attempt_tail st) as [Hl Hc];
      unfold try_catch in Hl, Hc;
      destruct (acquireExecutionLock_attempt st) as [[u|e] a2]
  end.
  - do 2 eexists. split; [reflexivity|]. cbn in *. split; assumption.
  - destruct (acquireExecutionLock_catch e a2) as [o a3].
    do 2 eexists. split; [reflexivity|]. cbn in *. split; assumption.
Qed.

Lemma entry_point_attempts a :
  let a1 := snd (AppManager.acquireExecutionLock a) in
  attempt_frame a a1
  \/ (apart (clock (lockManager a)) (lastConnectionAttemptTime a)
      /\ lastConnectionAttemptTime a1 = clock (lockManager a)
      /\ acquireExecution_calls a1
         = clock (lockManager a) :: acquireExecution_calls a).
Proof.
  intros a1. subst a1.
  destruct (isShuttingDown a) eqn:Hrun.
  - left. unfold AppManager.acquireExecutionLock.
    erewrite bind_ret by reflexivity. rewrite Hrun. apply attempt_frame_refl.
  - destruct (Z.lt_ge_cases (clock (lockManager a) - lastConnectionAttemptTime a)
                CONNECTION_ATTEMPT_COOLDOWN) as [Hsoon|Hdue].
    + left.
      destruct (acquireExecutionLock_too_soon a Hrun Hsoon)
        as (jitter & a0 & _ & _ & Hf & _ & Heq).
      rewrite Heq. exact Hf.
    + right. split; [exact Hdue|].
      destruct (acquireExecutionLock_due a Hrun Hdue) as (o & a1 & Heq & H).
      rewrite Heq. exact H.
Qed.

(** The calls made so far are pairwise apart, and none is later than the
    recorded last attempt. *)
Lemma attempts_run_paced a0 a :
  acquireExecution_calls a0 = [] ->
  attempts_run a0 a ->
  StronglySorted apart (acquireExecution_calls a)
  /\ Forall (fun t => t <= lastConnectionAttemptTime a)
       (acquireExecution_calls a).
Proof.
  intros H0 Hrun. induction Hrun as [a|a b c Hrun IH Hstep].
  - rewrite H0. split; constructor.
  - specialize (IH H0). destruct IH as [Hsorted Hbound].
    assert (Hcase :
      attempt_frame b c
      \/ (exists now,
            apart now (lastConnectionAttemptTime b)
            /\ lastConnectionAttemptTime c = now
            /\ acquireExecution_calls c = now :: acquireExecution_calls b)).
    { destruct Hstep as [b|b c Hf].
      - destruct (entry_point_attempts b) as [Hf|Hcall].
        + left. exact Hf.
        + right. exists (clock (lockManager b)). exact Hcall.
      - left. exact Hf. }
    destruct Hcase as [[Hl Hc]|(now & Hap & Hl & Hc)].
    + rewrite Hl, Hc. split; assumption.
    + rewrite Hl, Hc. unfold apart, CONNECTION_ATTEMPT_COOLDOWN in *. split.
      * constructor; [exact Hsorted|].
        eapply Forall_impl; [|exact Hbound]. cbn. intros t Ht. lia.
      * constructor; [lia|].
        eapply Forall_impl; [|exact Hbound]. cbn. intros t Ht. lia.
Qed.

End Cooldown.

(** C8. Invoked less than 30 seconds after the recorded last attempt, the
    entry point [acquireExecutionLock] of the controller does not call the
    lock manager and leaves the recorded attempt as it is; unless the
    controller is shutting down, it schedules one timer that calls the entry
    point again, after the remaining wait plus a jitter below 5 seconds.
    Hence, whatever happens between the calls of the entry point, any two
    calls of the lock manager's [acquireExecutionLock] made through it are
    at least 30 seconds apart. *)
Theorem acquireExecutionLock_cooldown :
  (forall a,
     clock (lockManager a) - lastConnectionAttemptTime a < 30000 ->
     let a1 := snd (AppManager.acquireExecutionLock a) in
     fst (AppManager.acquireExecutionLock a) = Ret tt
     /\ lockManager a1 = lockManager a
     /\ acquireExecution_calls a1 = acquireExecution_calls a
     /\ lastConnectionAttemptTime a1 = lastConnectionAttemptTime a)
  /\ (forall a,
        isShuttingDown a = false ->
        0 <= clock (lockManager a) - lastConnectionAttemptTime a < 30000 ->
        let a1 := snd (AppManager.acquireExecutionLock a) in
        let wait :=
          30000 - (clock (lockManager a) - lastConnectionAttemptTime a) in
        exists jitter,
          0 <= jitter < 5000
          /\ timers a1
             = timers a
                 ++ [mkTimer (next_handle a) false (wait + jitter)
                       acquireExecutionLock_unless_shutdown])
  /\ (forall a0 a,
        acquireExecution_calls a0 = [] ->
        attempts_run a0 a ->
        StronglySorted apart (acquireExecution_calls a)).
Proof.
  split; [|split].
  - intros a Hsoon a1. subst a1.
    destruct (isShuttingDown a) eqn:Hrun.
    + unfold AppManager.acquireExecutionLock.
      erewrite bind_ret by reflexivity. rewrite Hrun. repeat split.
    + destruct (acquireExecutionLock_too_soon a Hrun Hsoon)
        as (jitter & a0 & _ & Hlm & [Hl Hc] & _ & Heq).
      rewrite Heq. cbn. repeat split; assumption.
  - intros a Hrun [Hpast Hsoon] a1 wait. subst a1 wait.
    destruct (acquireExecutionLock_too_soon a Hrun Hsoon)
      as (jitter & a0 & Hj & _ & _ & Ht & Heq).
    rewrite Heq. exists jitter. split; [exact Hj|].
    cbn [snd timers set_timers set_next_handle]. 
    unfold timer_delay, CONNECTION_ATTEMPT_COOLDOWN.
    match goal with
    | |- context [if ?c then _ else _] =>
        assert (Hc : c = true)
          by (apply andb_true_iff; split; apply Z.leb_le; lia);
        rewrite Hc
    end.
    reflexivity.
  - intros a0 a H0 Hrun. exact (proj1 (attempts_run_paced a0 a H0 Hrun)).
Qed.

Lemma acquireExecutionLock_cooldown_witness :
  (fst (AppManager.acquireExecutionLock too_soon) = Ret tt
   /\ lockManager (snd (AppManager.acquireExecutionLock too_soon))
      = lockManager too_soon
   /\ acquireExecution_calls (snd (AppManager.acquireExecutionLock too_soon))
      = acquireExecution_calls too_soon
   /\ lastConnectionAttemptTime (snd (AppManager.acquireExecutionLock too_soon))
      = lastConnectionAttemptTime too_soon)
  /\ (exists jitter,
        0 <= jitter < 5000
        /\ timers (snd (AppManager.acquireExecutionLock too_soon))
           = timers too_soon
               ++ [mkTimer (next_handle too_soon) false
                     (30000
                      - (clock (lockManager too_soon)
                         - lastConnectionAttemptTime too_soon) + jitter)
                     acquireExecutionLock_unless_shutdown])
  /\ StronglySorted apart
       (acquireExecution_calls (snd (AppManager.acquireExecutionLock too_soon))).
Proof.
  split; [|split].
  - apply (proj1 acquireExecutionLock_cooldown too_soon). reflexivity.
  - apply (proj1 (proj2 acquireExecutionLock_cooldown) too_soon).
    + reflexivity.
    + cbn. lia.
  - apply (proj2 (proj2 acquireExecutionLock_cooldown) too_soon).
    + reflexivity.
    + eapply run_more; [apply run_start | apply entry_point].
Defined.

(** ** Shutdown *)

Section Shutdown.

Lemma winding_down_refl a : winding_down a a.
Proof. unfold winding_down. intuition. Qed.

Lemma winding_down_trans a b c :
  winding_down a b -> winding_down b c -> winding_down a c.
Proof.
  unfold winding_down.
  intros (H1 & H2 & H3 & H4 & H5 & H6 & H7 & H8)
         (K1 & K2 & K3 & K4 & K5 & K6 & K7 & K8).
  repeat split; auto; congruence.
Qed.

Lemma store_untouched_refl a : store_untouched a a.
Proof. unfold store_untouched. intuition. Qed.

Lemma store_untouched_trans a b c :
  store_untouched a b -> store_untouched b c -> store_untouched a c.
Proof. unfold store_untouched. intuition congruence. Qed.

Ltac keeps_winding := keeps_by winding_down_refl winding_down_trans.
Ltac keeps_store := keeps_by store_untouched_refl store_untouched_trans.

(** A step that only writes fields other than the tracked ones. *)
Ltac frame_by_fields :=
  let a := fresh "a" in
  intros a;
  unfold winding_down, store_untouched;
  cbn; intuition.

Lemma wd_lift {A} (m : M State A) : keeps winding_down (lift m).
Proof.
  intros a. unfold lift. destruct (m (lockManager a)) as [o s].
  unfold winding_down. cbn. intuition.
Qed.

Lemma wd_clearInterval h : keeps winding_down (clearInterval h).
Proof.
  intros a. unfold winding_down. cbn. intuition.
  match goal with H : In _ (filter _ _) |- _ => apply filter_In in H end.
  tauto.
Qed.

Lemma wd_stopPolling : keeps winding_down stopPolling.
Proof.
  intros a. unfold stopPolling, winding_down.
  destruct (stopPolling_script a) as [|[e|] rest]; cbn; intuition.
Qed.

Lemma wd_connection_close : keeps winding_down connection_close.
Proof.
  intros a. unfold connection_close, winding_down.
  destruct (close_script a) as [|[e|] rest]; cbn; intuition.
Qed.

Lemma wd_set_notificationSystem :
  keeps winding_down (modify (set_notificationSystem None)).
Proof. frame_by_fields. Qed.

Lemma wd_set_master :
  keeps winding_down (modify (set_masterLockHeartbeatInterval None)).
Proof. frame_by_fields. Qed.

Lemma wd_set_execution :
  keeps winding_down (modify (set_executionLockHeartbeatInterval None)).
Proof. frame_by_fields. Qed.

Lemma wd_set_lockCheck :
  keeps winding_down (modify (set_lockCheckInterval None)).
Proof. frame_by_fields. Qed.

Lemma wd_set_keepAlive :
  keeps winding_down (modify (set_keepAliveInterval None)).
Proof. frame_by_fields. Qed.

Lemma wd_set_bot : keeps winding_down (modify (set_bot false)).
Proof. frame_by_fields. Qed.

Lemma wd_set_bot_notificationSystem v :
  keeps winding_down (modify (set_bot_notificationSystem v)).
Proof. frame_by_fields. Qed.

Lemma wd_set_pollingRetryCount v :
  keeps winding_down (modify (set_pollingRetryCount v)).
Proof. frame_by_fields. Qed.

Lemma wd_set_isBotStarting v : keeps winding_down (modify (set_isBotStarting v)).
Proof. frame_by_fields. Qed.

Lemma wd_set_isPollingRestarting v :
  keeps winding_down (modify (set_isPollingRestarting v)).
Proof. frame_by_fields. Qed.

Lemma wd_set_rows (f : App -> list StartupNotification.t) :
  keeps winding_down (modify (fun a => set_StartupNotification_rows (f a) a)).
Proof. frame_by_fields. Qed.

#[local] Hint Resolve wd_lift wd_clearInterval wd_stopPolling
  wd_connection_close wd_set_notificationSystem wd_set_master
  wd_set_execution wd_set_lockCheck wd_set_keepAlive wd_set_bot
  wd_set_bot_notificationSystem wd_set_pollingRetryCount
  wd_set_isBotStarting wd_set_isPollingRestarting wd_set_rows : frames.

Lemma wd_clearIntervals hs : keeps winding_down (clearIntervals hs).
Proof. induction hs as [|h hs IH]; cbn [clearIntervals]; keeps_winding. Qed.

#[local] Hint Resolve wd_clearIntervals : frames.

Lemma wd_saveStartupNotification type message :
  keeps winding_down (saveStartupNotification type message).
Proof. unfold saveStartupNotification. keeps_winding. Qed.

Lemma wd_notifier_stop hs : keeps winding_down (notifier_stop hs).
Proof. unfold notifier_stop. keeps_winding. Qed.

#[local] Hint Resolve wd_saveStartupNotification wd_notifier_stop : frames.

Lemma wd_stopBot : keeps winding_down stopBot.
Proof. unfold stopBot, stop_field. keeps_winding. Qed.

Lemma wd_emergencyReleaseTelegram : keeps winding_down emergencyReleaseTelegram.
Proof. unfold emergencyReleaseTelegram. keeps_winding. Qed.

Lemma su_lift_sleep ms : keeps store_untouched (lift (sleep ms)).
Proof. intros a. unfold store_untouched. cbn. intuition. Qed.

Lemma su_lift_gets {A} (f : State -> A) : keeps store_untouched (lift (gets f)).
Proof. intros a. unfold store_untouched. cbn. intuition. Qed.

Lemma su_lift_store_call : keeps store_untouched (lift store_call).
Proof.
  intros a. unfold lift, store_call, store_untouched.
  destruct (store_script (lockManager a)) as [|[e|] rest] eqn:E; cbn;
    intuition discriminate.
Qed.

Lemma su_clearInterval h : keeps store_untouched (clearInterval h).
Proof. frame_by_fields. Qed.

Lemma su_stopPolling : keeps store_untouched stopPolling.
Proof.
  intros a. unfold stopPolling, store_untouched.
  destruct (stopPolling_script a) as [|[e|] rest]; cbn; intuition.
Qed.

Lemma su_set_notificationSystem v :
  keeps store_untouched (modify (set_notificationSystem v)).
Proof. frame_by_fields. Qed.

Lemma su_set_master v :
  keeps store_untouched (modify (set_masterLockHeartbeatInterval v)).
Proof. frame_by_fields. Qed.

Lemma su_set_execution v :
  keeps store_untouched (modify (set_executionLockHeartbeatInterval v)).
Proof. frame_by_fields. Qed.

Lemma su_set_lockCheck v :
  keeps store_untouched (modify (set_lockCheckInterval v)).
Proof. frame_by_fields. Qed.

Lemma su_set_keepAlive v :
  keeps store_untouched (modify (set_keepAliveInterval v)).
Proof. frame_by_fields. Qed.

Lemma su_set_bot v : keeps store_untouched (modify (set_bot v)).
Proof. frame_by_fields. Qed.

Lemma su_set_bot_notificationSystem v :
  keeps store_untouched (modify (set_bot_notificationSystem v)).
Proof. frame_by_fields. Qed.

Lemma su_set_pollingRetryCount v :
  keeps store_untouched (modify (set_pollingRetryCount v)).
Proof. frame_by_fields. Qed.

Lemma su_set_isBotStarting v :
  keeps store_untouched (modify (set_isBotStarting v)).
Proof. frame_by_fields. Qed.

Lemma su_set_isPollingRestarting v :
  keeps store_untouched (modify (set_isPollingRestarting v)).
Proof. frame_by_fields. Qed.

Lemma su_set_rows (f : App -> list StartupNotification.t) :
  keeps store_untouched (modify (fun a => set_StartupNotification_rows (f a) a)).
Proof. frame_by_fields. Qed.

#[local] Hint Resolve su_lift_sleep su_lift_gets su_lift_store_call
  su_clearInterval su_stopPolling su_set_notificationSystem su_set_master
  su_set_execution su_set_lockCheck su_set_keepAlive su_set_bot
  su_set_bot_notificationSystem su_set_pollingRetryCount
  su_set_isBotStarting su_set_isPollingRestarting su_set_rows : frames.

Lemma su_clearIntervals hs : keeps store_untouched (clearIntervals hs).
Proof. induction hs as [|h hs IH]; cbn [clearIntervals]; keeps_store. Qed.

#[local] Hint Resolve su_clearIntervals : frames.

Lemma su_saveStartupNotification type message :
  keeps store_untouched (saveStartupNotification type message).
Proof. unfold saveStartupNotification. keeps_store. Qed.

Lemma su_notifier_stop hs : keeps store_untouched (notifier_stop hs).
Proof. unfold notifier_stop. keeps_store. Qed.

#[local] Hint Resolve su_notifier_stop : frames.

Lemma su_stopBot : keeps store_untouched stopBot.
Proof. unfold stopBot, stop_field. keeps_store. Qed.

Lemma su_emergencyReleaseTelegram :
  keeps store_untouched emergencyReleaseTelegram.
Proof. unfold emergencyReleaseTelegram. keeps_store. Qed.

(** Totality of the steps. *)

Ltac totals :=
  repeat first
    [ assumption
    | apply total_ret | apply total_gets | apply total_modify
    | apply total_when
    | apply total_bind; [| intros ?]
    | apply total_try_catch; intros ?
    | match goal with
      | |- total (if ?b then _ else _) => destruct b
      | |- total (match ?x with _ => _ end) => destruct x
      end
    | assumption ].

Lemma total_lift_sleep ms : total (lift (sleep ms)).
Proof. intros a. exists tt. reflexivity. Qed.

Lemma total_clearInterval h : total (clearInterval h).
Proof. unfold clearInterval. totals. Qed.

Lemma total_clearIntervals hs : total (clearIntervals hs).
Proof.
  induction hs as [|h hs IH]; cbn [clearIntervals]; [totals|].
  pose proof (total_clearInterval h). totals.
Qed.

Lemma total_notifier_stop hs : total (notifier_stop hs).
Proof. unfold notifier_stop. pose proof (total_clearIntervals hs). totals. Qed.

Lemma total_saveStartupNotification type message :
  total (saveStartupNotification type message).
Proof. unfold saveStartupNotification. totals. Qed.

Lemma total_clear_field get set : total (clear_field get set).
Proof.
  unfold clear_field.
  apply total_bind; [apply total_gets | intros [h|]]; [|apply total_ret].
  pose proof (total_clearInterval h). totals.
Qed.

Lemma total_stop_field get set : total (stop_field get set).
Proof.
  unfold stop_field.
  apply total_bind; [apply total_gets | intros [hs|]]; [|apply total_ret].
  pose proof (total_notifier_stop hs). totals.
Qed.

Lemma total_stopBot : total stopBot.
Proof.
  unfold stopBot.
  apply total_bind; [apply total_gets | intros b].
  destruct (negb b); [apply total_ret|].
  apply total_try_catch. intros e. totals.
Qed.

Lemma total_emergencyReleaseTelegram : total emergencyReleaseTelegram.
Proof. unfold emergencyReleaseTelegram. totals. Qed.

Lemma total_lift_releaseAllLocks : total (lift releaseAllLocks).
Proof.
  intros a. unfold lift.
  destruct (try_catch_total
              (me <- gets instanceId ;;
               TaskLockModel.deleteMany
                 (fun r => String.eqb (TaskLock.instance_id r) me) ;;
               LockModel.deleteMany
                 (fun r => String.eqb (Lock.instance_id r) me) ;;
               LocalLockManager.removeLockFile ;;
               ret true) false (lockManager a)) as (b & s1 & H).
  unfold releaseAllLocks. rewrite H. exists b. reflexivity.
Qed.

Lemma su_stop_notifier :
  keeps store_untouched (stop_field notificationSystem set_notificationSystem).
Proof. unfold stop_field. keeps_store. Qed.

Lemma wd_stop_notifier :
  keeps winding_down (stop_field notificationSystem set_notificationSystem).
Proof. unfold stop_field. keeps_winding. Qed.

Lemma wd_clear_master :
  keeps winding_down
    (clear_field masterLockHeartbeatInterval set_masterLockHeartbeatInterval).
Proof. unfold clear_field. keeps_winding. Qed.

Lemma wd_clear_execution :
  keeps winding_down
    (clear_field executionLockHeartbeatInterval
       set_executionLockHeartbeatInterval).
Proof. unfold clear_field. keeps_winding. Qed.

Lemma wd_clear_lockCheck :
  keeps winding_down (clear_field lockCheckInterval set_lockCheckInterval).
Proof. unfold clear_field. keeps_winding. Qed.

Lemma wd_clear_keepAlive :
  keeps winding_down (clear_field keepAliveInterval set_keepAliveInterval).
Proof. unfold clear_field. keeps_winding. Qed.

Lemma su_clear_master :
  keeps store_untouched
    (clear_field masterLockHeartbeatInterval set_masterLockHeartbeatInterval).
Proof. unfold clear_field. keeps_store. Qed.

Lemma su_clear_execution :
  keeps store_untouched
    (clear_field executionLockHeartbeatInterval
       set_executionLockHeartbeatInterval).
Proof. unfold clear_field. keeps_store. Qed.

Lemma su_clear_lockCheck :
  keeps store_untouched (clear_field lockCheckInterval set_lockCheckInterval).
Proof. unfold clear_field. keeps_store. Qed.

Lemma su_clear_keepAlive :
  keeps store_untouched (clear_field keepAliveInterval set_keepAliveInterval).
Proof. unfold clear_field. keeps_store. Qed.

(** What the steps achieve. *)

Lemma clearIntervals_cancels hs a t :
  In t (timers (snd (clearIntervals hs a))) -> ~ In (handle t) hs.
Proof.
  revert a. induction hs as [|h hs IH]; intros a Ht; [intros []|].
  cbn [clearIntervals] in Ht. unfold bind, clearInterval, modify in Ht.
  cbn beta iota in Ht. intros [Hh|Hin].
  - pose proof (wd_clearIntervals hs
                  (set_timers
                     (filter (fun t => negb (Nat.eqb (handle t) h)) (timers a))
                     a)) as (_ & Hshrink & _).
    apply Hshrink in Ht. cbn in Ht. apply filter_In in Ht.
    destruct Ht as [_ Ht]. rewrite Hh, Nat.eqb_refl in Ht. discriminate Ht.
  - exact (IH _ Ht Hin).
Qed.

Lemma stop_notifier_ensures a :
  exists a1,
    stop_field notificationSystem set_notificationSystem a = (Ret tt, a1)
    /\ notificationSystem a1 = None
    /\ forall h t,
         In h (match notificationSystem a with Some hs => hs | None => [] end) ->
         In t (timers a1) -> handle t <> h.
Proof.
  unfold stop_field. erewrite bind_ret by reflexivity.
  destruct (notificationSystem a) as [hs|] eqn:Hns.
  - unfold notifier_stop. rewrite bind_assoc.
    destruct (total_clearIntervals hs a) as [u Hu].
    rewrite (bind_total _ _ a u Hu).
    erewrite bind_ret by reflexivity.
    eexists. split; [reflexivity|]. split; [reflexivity|].
    cbn. intros h t Hh Ht Heq.
    apply (clearIntervals_cancels hs a t Ht). rewrite Heq. exact Hh.
  - eexists. split; [reflexivity|]. split; [exact Hns|]. intros h t [].
Qed.

Lemma clear_field_ensures get set a :
  (forall v x, get (set v x) = v) ->
  (forall v x, timers (set v x) = timers x) ->
  (forall l x, get (set_timers l x) = get x) ->
  exists a1,
    clear_field get set a = (Ret tt, a1)
    /\ get a1 = None
    /\ forall h t, In h (handles_of (get a)) -> In t (timers a1) ->
                   handle t <> h.
Proof.
  intros Hgs Hts Hgt. unfold clear_field. erewrite bind_ret by reflexivity.
  destruct (get a) as [i|] eqn:Hget.
  - unfold clearInterval. erewrite bind_ret by reflexivity.
    eexists. split; [reflexivity|]. split; [apply Hgs|].
    intros h t [Hh|[]] Ht Heq. rewrite Hts in Ht. cbn in Ht.
    apply filter_In in Ht. destruct Ht as [_ Ht].
    rewrite Heq, <- Hh, Nat.eqb_refl in Ht. discriminate Ht.
  - eexists. split; [reflexivity|]. split; [exact Hget|]. intros h t [].
Qed.

Lemma emergencyReleaseTelegram_ensures a :
  bot (snd (emergencyReleaseTelegram a)) = false.
Proof.
  unfold emergencyReleaseTelegram, try_catch.
  erewrite bind_ret by reflexivity.
  destruct (bot a) eqn:Hbot; unfold when.
  - rewrite bind_assoc.
    destruct (try_catch_total stopPolling tt a) as (u & a1 & Hu).
    erewrite bind_ret by exact Hu.
    do 2 (erewrite bind_ret by reflexivity). reflexivity.
  - do 2 (erewrite bind_ret by reflexivity). cbn. exact Hbot.
Qed.

Lemma lift_run {A} (m : M State A) a :
  lift m a = (fst (m (lockManager a)), set_lockManager (snd (m (lockManager a))) a).
Proof. unfold lift. destruct (m (lockManager a)); reflexivity. Qed.

(** Fields the first steps leave as they were. *)

Lemma same_refl {X} (f : App -> X) a : same f a a.
Proof. reflexivity. Qed.

Lemma same_trans {X} (f : App -> X) a b c :
  same f a b -> same f b c -> same f a c.
Proof. unfold same. congruence. Qed.

Ltac keeps_same :=
  repeat first
    [ assumption
    | solve [intros ?; reflexivity]
    | solve [intros ?; unfold same, lift;
             match goal with
             | |- context [?m (lockManager ?a)] => destruct (m (lockManager a))
             end; reflexivity]
    | apply (keeps_when _ (same_refl _))
    | apply (keeps_bind _ (same_trans _)); [| intros ?]
    | apply (keeps_try_catch _ (same_trans _)); [| intros ?]
    | match goal with
      | |- keeps _ (if ?b then _ else _) => destruct b
      | |- keeps _ (match ?x with _ => _ end) => destruct x
      end ].

Lemma same_clearIntervals {X} (f : App -> X) hs :
  (forall l x, f (set_timers l x) = f x) ->
  keeps (same f) (clearIntervals hs).
Proof.
  intros Hf. induction hs as [|h hs IH]; cbn [clearIntervals].
  - keeps_same.
  - apply (keeps_bind _ (same_trans _)); [|intros _; exact IH].
    intros a. unfold same. cbn. apply Hf.
Qed.

Lemma same_saveStartupNotification {X} (f : App -> X) type message :
  (forall s x, f (set_lockManager s x) = f x) ->
  (forall l x, f (set_StartupNotification_rows l x) = f x) ->
  keeps (same f) (saveStartupNotification type message).
Proof.
  intros Hl Hr. unfold saveStartupNotification.
  assert (Hlift : forall A (m : M State A), keeps (same f) (lift m)).
  { intros A m a. unfold same, lift. destruct (m (lockManager a)). apply Hl. }
  apply (keeps_try_catch _ (same_trans _)); [|intros e a; reflexivity].
  apply (keeps_bind _ (same_trans _)); [apply Hlift | intros me].
  apply (keeps_bind _ (same_trans _)); [apply Hlift | intros _].
  intros a. unfold same. cbn. apply Hr.
Qed.

Lemma same_stop_notifier {X} (f : App -> X) :
  (forall l x, f (set_timers l x) = f x) ->
  (forall v x, f (set_notificationSystem v x) = f x) ->
  keeps (same f) (stop_field notificationSystem set_notificationSystem).
Proof.
  intros Ht Hn. unfold stop_field, notifier_stop.
  pose proof (fun hs => same_clearIntervals f hs Ht) as Hc.
  apply (keeps_bind _ (same_trans _)); [intros a; reflexivity | intros [hs|]].
  - apply (keeps_bind _ (same_trans _)).
    + apply (keeps_bind _ (same_trans _)); [apply Hc | intros _ a; reflexivity].
    + intros _ a. unfold same. cbn. apply Hn.
  - intros a. reflexivity.
Qed.

Lemma same_clear_field {X} (f : App -> X) get set :
  (forall l x, f (set_timers l x) = f x) ->
  (forall v x, f (set v x) = f x) ->
  keeps (same f) (clear_field get set).
Proof.
  intros Ht Hs. unfold clear_field, clearInterval.
  apply (keeps_bind _ (same_trans _)); [intros a; reflexivity | intros [i|]].
  - apply (keeps_bind _ (same_trans _)).
    + intros a. unfold same. cbn. apply Ht.
    + intros _ a. unfold same. cbn. apply Hs.
  - intros a. reflexivity.
Qed.

(** The [try] statement of [performShutdown], from any state. *)
Lemma shutdown_steps_run reason a :
  exists o a1,
    try_catch (shutdown_steps reason) (fun _ => ret (Some false)) a = (Ret o, a1)
    /\ isShuttingDown a1 = isShuttingDown a
    /\ shut_down a a1
    /\ (close_script a = [] -> o = Some true).
Proof.
  unfold shutdown_steps, try_catch.
  (* saveStartupNotification *)
  set (msg := String.append "Shutdown avviato: " reason).
  destruct (total_saveStartupNotification "shutdown" msg a) as [u1 Hu1].
  rewrite (bind_total _ _ a u1 Hu1).
  pose proof (wd_saveStartupNotification "shutdown" msg a) as W1.
  pose proof (su_saveStartupNotification "shutdown" msg a) as U1.
  assert (F1 : forall X (f : App -> X),
             (forall s x, f (set_lockManager s x) = f x) ->
             (forall l x, f (set_StartupNotification_rows l x) = f x) ->
             f (snd (saveStartupNotification "shutdown" msg a)) = f a)
    by (intros X f H1 H2;
        exact (same_saveStartupNotification f "shutdown" msg H1 H2 a)).
  set (a1 := snd (saveStartupNotification "shutdown" msg a)) in *.
  (* the notifier *)
  destruct (stop_notifier_ensures a1) as (a2 & E2 & N2 & C2).
  pose proof (wd_stop_notifier a1) as W2.
  pose proof (su_stop_notifier a1) as U2.
  assert (F2 : forall X (f : App -> X),
             (forall l x, f (set_timers l x) = f x) ->
             (forall v x, f (set_notificationSystem v x) = f x) ->
             f (snd (stop_field notificationSystem set_notificationSystem a1))
             = f a1)
    by (intros X f H1 H2; exact (same_stop_notifier f H1 H2 a1)).
  rewrite E2 in W2, U2, F2. cbn [snd] in W2, U2, F2.
  erewrite bind_ret by exact E2.
  (* the four intervals *)
  destruct (clear_field_ensures masterLockHeartbeatInterval
              set_masterLockHeartbeatInterval a2
              (fun _ _ => eq_refl) (fun _ _ => eq_refl) (fun _ _ => eq_refl))
    as (a3 & E3 & N3 & C3).
  pose proof (wd_clear_master a2) as W3.
  pose proof (su_clear_master a2) as U3.
  assert (F3 : forall X (f : App -> X),
             (forall l x, f (set_timers l x) = f x) ->
             (forall v x, f (set_masterLockHeartbeatInterval v x) = f x) ->
             f (snd (clear_field masterLockHeartbeatInterval
                       set_masterLockHeartbeatInterval a2)) = f a2)
    by (intros X f H1 H2; exact (same_clear_field f _ _ H1 H2 a2)).
  rewrite E3 in W3, U3, F3. cbn [snd] in W3, U3, F3.
  erewrite bind_ret by exact E3.
  destruct (clear_field_ensures executionLockHeartbeatInterval
              set_executionLockHeartbeatInterval a3
              (fun _ _ => eq_refl) (fun _ _ => eq_refl) (fun _ _ => eq_refl))
    as (a4 & E4 & N4 & C4).
  pose proof (wd_clear_execution a3) as W4.
  pose proof (su_clear_execution a3) as U4.
  assert (F4 : forall X (f : App -> X),
             (forall l x, f (set_timers l x) = f x) ->
             (forall v x, f (set_executionLockHeartbeatInterval v x) = f x) ->
             f (snd (clear_field executionLockHeartbeatInterval
                       set_executionLockHeartbeatInterval a3)) = f a3)
    by (intros X f H1 H2; exact (same_clear_field f _ _ H1 H2 a3)).
  rewrite E4 in W4, U4, F4. cbn [snd] in W4, U4, F4.
  erewrite bind_ret by exact E4.
  destruct (clear_field_ensures lockCheckInterval set_lockCheckInterval a4
              (fun _ _ => eq_refl) (fun _ _ => eq_refl) (fun _ _ => eq_refl))
    as (a5 & E5 & N5 & C5).
  pose proof (wd_clear_lockCheck a4) as W5.
  pose proof (su_clear_lockCheck a4) as U5.
  assert (F5 : forall X (f : App -> X),
             (forall l x, f (set_timers l x) = f x) ->
             (forall v x, f (set_lockCheckInterval v x) = f x) ->
             f (snd (clear_field lockCheckInterval set_lockCheckInterval a4))
             = f a4)
    by (intros X f H1 H2; exact (same_clear_field f _ _ H1 H2 a4)).
  rewrite E5 in W5, U5, F5. cbn [snd] in W5, U5, F5.
  erewrite bind_ret by exact E5.
  destruct (clear_field_ensures keepAliveInterval set_keepAliveInterval a5
              (fun _ _ => eq_refl) (fun _ _ => eq_refl) (fun _ _ => eq_refl))
    as (a6 & E6 & N6 & C6).
  pose proof (wd_clear_keepAlive a5) as W6.
  pose proof (su_clear_keepAlive a5) as U6.
  rewrite E6 in W6, U6. cbn [snd] in W6, U6.
  erewrite bind_ret by exact E6.
  (* the bot *)
  destruct (total_stopBot a6) as [u7 Hu7].
  rewrite (bind_total _ _ a6 u7 Hu7).
  pose proof (wd_stopBot a6) as W7.
  pose proof (su_stopBot a6) as U7.
  set (a7 := snd (stopBot a6)) in *.
  destruct (total_emergencyReleaseTelegram a7) as [u8 Hu8].
  rewrite (bind_total _ _ a7 u8 Hu8).
  pose proof (wd_emergencyReleaseTelegram a7) as W8.
  pose proof (su_emergencyReleaseTelegram a7) as U8.
  pose proof (emergencyReleaseTelegram_ensures a7) as B8.
  set (a8 := snd (emergencyReleaseTelegram a7)) in *.
  (* the locks *)
  destruct (total_lift_releaseAllLocks a8) as [u9 Hu9].
  rewrite (bind_total _ _ a8 u9 Hu9).
  pose proof (wd_lift releaseAllLocks a8) as W9.
  assert (L9 : lockManager (snd (lift releaseAllLocks a8))
               = snd (releaseAllLocks (lockManager a8)))
    by (rewrite lift_run; reflexivity).
  assert (K9 : close_script (snd (lift releaseAllLocks a8)) = close_script a8
               /\ readyState (snd (lift releaseAllLocks a8)) = readyState a8)
    by (rewrite lift_run; split; reflexivity).
  set (a9 := snd (lift releaseAllLocks a8)) in *.
  (* what holds in a9 *)
  pose proof (winding_down_trans _ _ _ W7 (winding_down_trans _ _ _ W8 W9))
    as W69.
  pose proof (winding_down_trans _ _ _ W6 W69) as W59.
  pose proof (winding_down_trans _ _ _ W5 W59) as W49.
  pose proof (winding_down_trans _ _ _ W4 W49) as W39.
  pose proof (winding_down_trans _ _ _ W3 W39) as W29.
  pose proof (winding_down_trans _ _ _ W2 W29) as W19.
  pose proof (winding_down_trans _ _ _ W1 W19) as W.
  assert (U : store_untouched a a8).
  { eapply store_untouched_trans; [exact U1|].
    eapply store_untouched_trans; [exact U2|].
    eapply store_untouched_trans; [exact U3|].
    eapply store_untouched_trans; [exact U4|].
    eapply store_untouched_trans; [exact U5|].
    eapply store_untouched_trans; [exact U6|].
    eapply store_untouched_trans; [exact U7 | exact U8]. }
  assert (Hfields :
    bot a9 = false
    /\ masterLockHeartbeatInterval a9 = None
    /\ executionLockHeartbeatInterval a9 = None
    /\ lockCheckInterval a9 = None
    /\ keepAliveInterval a9 = None
    /\ notificationSystem a9 = None).
  { split; [apply W9; exact B8|].
    split; [apply W39; exact N3|].
    split; [apply W49; exact N4|].
    split; [apply W59; exact N5|].
    split; [apply W69; exact N6|].
    apply W29; exact N2. }
  assert (Hcancel :
    forall h t, In h (held_handles a) -> In t (timers a9) -> handle t <> h).
  { intros h t Hh Ht. unfold held_handles in Hh.
    assert (G1 : masterLockHeartbeatInterval a2 = masterLockHeartbeatInterval a).
    { rewrite (F2 _ masterLockHeartbeatInterval (fun _ _ => eq_refl)
                 (fun _ _ => eq_refl)).
      apply (F1 _ masterLockHeartbeatInterval); intros; reflexivity. }
    assert (G2 : executionLockHeartbeatInterval a3
                 = executionLockHeartbeatInterval a).
    { rewrite (F3 _ executionLockHeartbeatInterval (fun _ _ => eq_refl)
                 (fun _ _ => eq_refl)).
      rewrite (F2 _ executionLockHeartbeatInterval (fun _ _ => eq_refl)
                 (fun _ _ => eq_refl)).
      apply (F1 _ executionLockHeartbeatInterval); intros; reflexivity. }
    assert (G3 : lockCheckInterval a4 = lockCheckInterval a).
    { rewrite (F4 _ lockCheckInterval (fun _ _ => eq_refl) (fun _ _ => eq_refl)).
      rewrite (F3 _ lockCheckInterval (fun _ _ => eq_refl) (fun _ _ => eq_refl)).
      rewrite (F2 _ lockCheckInterval (fun _ _ => eq_refl) (fun _ _ => eq_refl)).
      apply (F1 _ lockCheckInterval); intros; reflexivity. }
    assert (G4 : keepAliveInterval a5 = keepAliveInterval a).
    { rewrite (F5 _ keepAliveInterval (fun _ _ => eq_refl) (fun _ _ => eq_refl)).
      rewrite (F4 _ keepAliveInterval (fun _ _ => eq_refl) (fun _ _ => eq_refl)).
      rewrite (F3 _ keepAliveInterval (fun _ _ => eq_refl) (fun _ _ => eq_refl)).
      rewrite (F2 _ keepAliveInterval (fun _ _ => eq_refl) (fun _ _ => eq_refl)).
      apply (F1 _ keepAliveInterval); intros; reflexivity. }
    assert (G0 : notificationSystem a1 = notificationSystem a)
      by (apply (F1 _ notificationSystem); intros; reflexivity).
    rewrite G0 in C2. rewrite G1 in C3. rewrite G2 in C4. rewrite G3 in C5.
    rewrite G4 in C6.
    assert (T2 : In t (timers a2)) by (apply W29; exact Ht).
    assert (T3 : In t (timers a3)) by (apply W39; exact Ht).
    assert (T4 : In t (timers a4)) by (apply W49; exact Ht).
    assert (T5 : In t (timers a5)) by (apply W59; exact Ht).
    assert (T6 : In t (timers a6)) by (apply W69; exact Ht).
    repeat (apply in_app_or in Hh; destruct Hh as [Hh|Hh]).
    - exact (C3 h t Hh T3).
    - exact (C4 h t Hh T4).
    - exact (C5 h t Hh T5).
    - exact (C6 h t Hh T6).
    - exact (C2 h t Hh T2). }
  assert (Hrows :
    quiet (lockManager a) ->
    (forall r, In r (Lock_rows (lockManager a9)) ->
               Lock.instance_id r <> instanceId (lockManager a))
    /\ (forall r, In r (TaskLock_rows (lockManager a9)) ->
                  TaskLock.instance_id r <> instanceId (lockManager a))).
  { intros [Hs Hf].
    destruct U as (_ & _ & Ume & Ufs & Uss & _).
    assert (Hq : quiet (lockManager a8)) by (split; [auto | congruence]).
    destruct (releaseAllLocks_quiet (lockManager a8) Hq)
      as (s1 & Hrun & Hl & Ht & _).
    rewrite L9, Hrun, <- Ume. cbn [snd]. rewrite Hl, Ht. split.
    - intros r Hin. apply In_nfilter in Hin. apply String.eqb_neq. apply Hin.
    - intros r Hin. apply In_nfilter in Hin. apply String.eqb_neq. apply Hin. }
  destruct Hfields as (Hb & Hm & He & Hl & Hk & Hn).
  destruct W as (Wflag & _).
  assert (Hclose : close_script a9 = close_script a /\ readyState a9 = readyState a).
  { destruct K9 as [K1 K2]. destruct U as (_ & _ & _ & _ & _ & Uc & Ur).
    split; congruence. }
  clearbody a9.
  (* the connection *)
  erewrite bind_ret by reflexivity.
  destruct (Nat.eqb (readyState a9) 0) eqn:Hrs; cbn [negb when].
  - erewrite bind_ret by reflexivity.
    exists (Some true), a9. split; [reflexivity|]. split; [exact Wflag|].
    split; [|reflexivity].
    unfold shut_down. repeat (split; [assumption|]).
    intros _. apply Nat.eqb_eq. exact Hrs.
  - unfold bind at 1, connection_close.
    destruct Hclose as [Hcs _].
    destruct (close_script a9) as [|[e|] rest] eqn:Hscript.
    + eexists. eexists. split; [reflexivity|]. cbn. split; [exact Wflag|].
      split; [|reflexivity].
      unfold shut_down. cbn. repeat (split; [assumption|]). reflexivity.
    + eexists. eexists. split; [reflexivity|]. cbn. split; [exact Wflag|].
      split; [|intros Hc; rewrite <- Hcs in Hc; discriminate Hc].
      unfold shut_down. cbn. repeat (split; [assumption|]).
      intros Hc. rewrite <- Hcs in Hc. discriminate Hc.
    + eexists. eexists. split; [reflexivity|]. cbn. split; [exact Wflag|].
      split; [|reflexivity].
      unfold shut_down. cbn. repeat (split; [assumption|]). reflexivity.
Qed.

End Shutdown.

Section ShutdownOnce.

Lemma startTermination_run reason a :
  exists a1,
    startTermination reason a = (Ret tt, a1)
    /\ isShuttingDown a1 = isShuttingDown a
    /\ held_handles a1 = held_handles a
    /\ lockManager a1 = lockManager a
    /\ close_script a1 = close_script a.
Proof.
  unfold startTermination, when, bind, gets, modify, lift, date_now, ret.
  destruct (isTerminating a); cbn; eexists; repeat split.
Qed.

Lemma shut_down_from a a0 a1 :
  held_handles a0 = held_handles a ->
  lockManager a0 = lockManager a ->
  close_script a0 = close_script a ->
  shut_down a0 a1 -> shut_down a a1.
Proof.
  unfold shut_down. intros Hh Hl Hc. rewrite Hh, Hl, Hc. exact (fun H => H).
Qed.

Lemma performShutdown_first reason a :
  isShuttingDown a = false ->
  exists o a1,
    performShutdown reason a = (Ret o, a1)
    /\ isShuttingDown a1 = true
    /\ shut_down a a1
    /\ (close_script a = [] -> o = Some true).
Proof.
  intros Hflag. unfold performShutdown.
  erewrite bind_ret by reflexivity. rewrite Hflag.
  erewrite bind_ret by reflexivity.
  destruct (startTermination_run reason (set_isShuttingDown true a))
    as (a0 & E0 & Hf & Hh & Hl & Hc).
  erewrite bind_ret by exact E0.
  destruct (shutdown_steps_run reason a0) as (o & a1 & E1 & Hf1 & Hdown & Ho).
  exists o, a1. split; [exact E1|].
  split; [rewrite Hf1, Hf; reflexivity|].
  split.
  - apply (shut_down_from a a0 a1); [exact Hh | exact Hl | exact Hc | exact Hdown].
  - intros Hq. apply Ho. rewrite Hc. exact Hq.
Qed.

Lemma performShutdown_again reason a :
  isShuttingDown a = true -> performShutdown reason a = (Ret None, a).
Proof.
  intros Hflag. unfold performShutdown.
  erewrite bind_ret by reflexivity. rewrite Hflag. reflexivity.
Qed.

End ShutdownOnce.

(** C10 (as amended). A call of [performShutdown] made while
    [isShuttingDown] is set returns at once and changes nothing. The call
    that finds the flag clear sets it and runs the steps: afterwards the
    bot is stopped, the four interval fields and the notifier are cleared
    and the timers they held are cancelled (a pending one-shot timer is
    not), the lease rows and task-lock rows of this holder are gone if the
    store and the file system did not fail, and the connection is closed if
    closing it did not fail; such a call returns [true]. In particular a
    call that follows another call changes nothing. *)
Theorem performShutdown_once (reason : string) (a : App) :
  (isShuttingDown a = true -> performShutdown reason a = (Ret None, a))
  /\ (isShuttingDown a = false ->
      let a1 := snd (performShutdown reason a) in
      isShuttingDown a1 = true
      /\ shut_down a a1
      /\ (close_script a = [] -> fst (performShutdown reason a) = Ret (Some true)))
  /\ (forall again,
        performShutdown again (snd (performShutdown reason a))
        = (Ret None, snd (performShutdown reason a))).
Proof.
  split; [exact (performShutdown_again reason a)|]. split.
  - intros Hflag a1. subst a1.
    destruct (performShutdown_first reason a Hflag) as (o & a1 & E & Hf & Hd & Ho).
    rewrite E. cbn [fst snd]. split; [exact Hf|]. split; [exact Hd|].
    intros Hq. rewrite (Ho Hq). reflexivity.
  - intros again. apply performShutdown_again.
    destruct (isShuttingDown a) eqn:Hflag.
    + rewrite (performShutdown_again reason a Hflag). exact Hflag.
    + destruct (performShutdown_first reason a Hflag) as (o & a1 & E & Hf & _).
      rewrite E. exact Hf.
Qed.

Lemma performShutdown_once_witness :
  (isShuttingDown (snd (performShutdown "SIGTERM" active)) = true
   /\ shut_down active (snd (performShutdown "SIGTERM" active))
   /\ (close_script active = [] ->
       fst (performShutdown "SIGTERM" active) = Ret (Some true)))
  /\ performShutdown "SIGINT" (snd (performShutdown "SIGTERM" active))
     = (Ret None, snd (performShutdown "SIGTERM" active)).
Proof.
  split.
  - apply (proj1 (proj2 (performShutdown_once "SIGTERM" active))). reflexivity.
  - apply (proj2 (proj2 (performShutdown_once "SIGTERM" active))).
Defined.

(** C10 as stated fails on the timers: after the shutdown of
    [just_acquired] everything else is as stated, but the timer that
    starts the bot is still pending. *)
Lemma shutdown_counterexample :
  fst (performShutdown "SIGTERM" just_acquired) = Ret (Some true)
  /\ timers (snd (performShutdown "SIGTERM" just_acquired))
     = [mkTimer 4 false 5000 startBot_later]
  /\ ~ shutdown_as_stated "SIGTERM" just_acquired.
Proof.
  split; [reflexivity|]. split; [reflexivity|].
  intros H.
  destruct (H eq_refl (conj eq_refl eq_refl) eq_refl) as (_ & _ & Ht & _).
  discriminate Ht.
Qed.
